(** * signal402-mcp: delegated sessions and the payment-guarded fetch

    A shallow embedding of [src/session.ts] (SIWE delegation, per-request
    signing, session cache), of the signer adapter [account.ts] and of
    [src/client.ts] (the spending guard around the x402 fetch wrapper).

    Conventions.
    - A JavaScript string is a [string]: a sequence of code units below 256
      (a literal of the sources outside that range stands as its UTF-8
      bytes).
    - A [Uint8Array] is a [list byte].
    - A JavaScript number is a binary64 [float]; integers that the code only
      compares and adds (unix milliseconds) are kept in [Z].
    - Effects (module variables, the session file, the clock, randomness and
      the network) are threaded through a state-and-exception monad [M]; the
      remote services, the clock and the random source are oracles of the
      environment [Env], and library calls are fields of [Runtime].
    - [x402Fetch] run to completion is a function in [M]; calls whose
      stretches between two [await]s interleave are the step machine of
      [Interleaving]. *)

From Stdlib Require Import ZArith NArith List String Ascii Bool Lia.
From Stdlib Require Import DecimalString HexadecimalString.
From Stdlib Require Import PrimFloat FloatOps SpecFloat.
From Stdlib.Strings Require Import Byte.
From Stdlib Require Import FloatAxioms.
Import ListNotations.

Local Open Scope string_scope.
Local Open Scope Z_scope.

(** ** The JavaScript runtime pieces the sources rely on *)

Module JS.

(** The line feed character, ['\n']. *)
Definition LF : string := String (ascii_of_nat 10) EmptyString.

(** [Array.prototype.join]. *)
Definition join (sep : string) (xs : list string) : string :=
  String.concat sep xs.

(** [String.prototype.startsWith]. *)
Definition startsWith (p s : string) : bool := String.prefix p s.

(** [s.slice(n)] for [0 <= n]. *)
Definition sliceFrom (n : nat) (s : string) : string :=
  substring n (String.length s - n) s.

(** [s.slice(a, b)] for [0 <= a <= b]. *)
Definition slice (a b : nat) (s : string) : string :=
  substring a (b - a) s.

Fixpoint repeatChar (c : ascii) (n : nat) : string :=
  match n with
  | O => EmptyString
  | S k => String c (repeatChar c k)
  end.

(** [s.padStart(n, c)] with a one-character filler. *)
Definition padStart (n : nat) (c : ascii) (s : string) : string :=
  (repeatChar c (n - String.length s) ++ s)%string.

(** [n.toString(16)] for a non-negative integer. *)
Definition toString16 (n : N) : string :=
  HexadecimalString.NilZero.string_of_uint (N.to_hex_uint n).

(** [String(z)] and template interpolation of an integer-valued number
    (plain decimal digits, as JavaScript prints integers below [10^21]). *)
Definition stringOfInt (z : Z) : string :=
  DecimalString.NilZero.string_of_int (Z.to_int z).

(** Value of a hexadecimal digit, either case. *)
Definition hexDigit (c : ascii) : option Z :=
  let n := Z.of_nat (nat_of_ascii c) in
  if (48 <=? n) && (n <=? 57) then Some (n - 48)
  else if (97 <=? n) && (n <=? 102) then Some (n - 87)
  else if (65 <=? n) && (n <=? 70) then Some (n - 55)
  else None.

(** White space skipped by [parseInt] (code units below 256). *)
Definition isWhiteSpace (c : ascii) : bool :=
  let n := nat_of_ascii c in
  existsb (Nat.eqb n) [9; 10; 11; 12; 13; 32; 160]%nat.

Fixpoint trimStart (s : string) : string :=
  match s with
  | String c rest => if isWhiteSpace c then trimStart rest else s
  | EmptyString => s
  end.

(** The longest prefix of hexadecimal digits, read as a number; [None] when
    there is no digit at all. *)
Fixpoint hexPrefix (acc : option Z) (s : string) : option Z :=
  match s with
  | String c rest =>
      match hexDigit c with
      | Some d =>
          hexPrefix (Some (match acc with Some a => 16 * a + d | None => d end)) rest
      | None => acc
      end
  | EmptyString => acc
  end.

Definition strip0x (s : string) : string :=
  if startsWith "0x" s || startsWith "0X" s then sliceFrom 2 s else s.

(** [parseInt(s, 16)]; [None] stands for [NaN]. *)
Definition parseInt16 (s : string) : option Z :=
  let t := trimStart s in
  match t with
  | String "-" rest => option_map Z.opp (hexPrefix None (strip0x rest))
  | String "+" rest => hexPrefix None (strip0x rest)
  | _ => hexPrefix None (strip0x t)
  end.

(** Storing a number into a [Uint8Array] slot: [NaN] becomes 0, integers
    wrap modulo 256. *)
Definition byteOfZ (z : Z) : byte :=
  match Byte.of_N (Z.to_N (z mod 256)) with
  | Some b => b
  | None => x00
  end.

Definition toUint8 (v : option Z) : byte :=
  match v with
  | Some z => byteOfZ z
  | None => x00
  end.

(** [new TextEncoder().encode(s)]: UTF-8 of code units below 256. *)
Definition utf8 (s : string) : list byte :=
  flat_map
    (fun c =>
       let n := Z.of_nat (nat_of_ascii c) in
       if n <? 128 then [byte_of_ascii c]
       else [byteOfZ (192 + n / 64); byteOfZ (128 + n mod 64)])
    (list_ascii_of_string s).

(** [Number(n)] for an integer: the nearest binary64 value, ties to even. *)
Definition Number (z : Z) : float :=
  SF2Prim (binary_normalize prec emax z 0 false).

(** Digits of [Number.prototype.toFixed]: [n] printed with [f] fraction
    digits. *)
Definition fixedDigits (n : Z) (f : nat) : string :=
  let m := stringOfInt n in
  match f with
  | O => m
  | _ =>
      let m' := padStart (S f) "0" m in
      let k := String.length m' in
      (substring 0 (k - f) m' ++ "." ++ substring (k - f) f m')%string
  end.

(** [x.toFixed(f)].  The value of a finite double is [m * 2^e]; the digits
    are those of the integer [n] closest to [x * 10^f], the larger one on a
    tie.  At or above [10^21] the result is [String(x)], given by
    [numberToString]. *)
Definition toFixed (numberToString : float -> string) (x : float) (f : nat)
  : string :=
  match Prim2SF x with
  | S754_nan => "NaN"
  | S754_infinity false => "Infinity"
  | S754_infinity true => "-Infinity"
  | S754_zero _ => fixedDigits 0 f
  | S754_finite sgn m e =>
      let big :=
        if 0 <=? e then 10 ^ 21 <=? Z.pos m * 2 ^ e
        else 10 ^ 21 * 2 ^ (- e) <=? Z.pos m in
      if big then numberToString x
      else
        let scaled := Z.pos m * 10 ^ Z.of_nat f in
        let n :=
          if 0 <=? e then scaled * 2 ^ e
          else (2 * scaled + 2 ^ (- e)) / (2 * 2 ^ (- e)) in
        ((if sgn then "-" else "") ++ fixedDigits n f)%string
  end.

End JS.

(** ** Data *)

(** [WalletData] of [wallet.ts]; the core only reads it. *)
Module Wallet.
Record WalletData := {
  address : string;
  walletId : string;
  email : option string;
  created_at : string;
}.
End Wallet.

(** [SessionData] of [session.ts]. *)
Record SessionData := {
  sessionId : string;
  address : string;
  sessionPrivateKey : string;   (* hex-encoded ephemeral private key *)
  sessionPublicKey : string;    (* hex-encoded uncompressed public key *)
  expiresAt : Z;                (* unix ms *)
  createdAt : string;
}.

(** One entry of the [accepts] list of a payment-required body.  The amount
    travels as a decimal string; the embedding keeps the integer it denotes. *)
Record PaymentRequirements := {
  scheme : string;
  network : string;
  maxAmountRequired : Z;
  asset : string;
  payTo : string;
}.

Record PaymentRequired := {
  x402Version : Z;
  accepts : list PaymentRequirements;
}.

(** The typed data handed to [signTypedData]: the authorization of one
    requirement by one payer. *)
Record TypedData := {
  td_from : string;
  td_requirement : PaymentRequirements;
}.

(** Values passed to [JSON.stringify] by the sources. *)
Inductive json :=
| JString (s : string)
| JObject (fields : list (string * json)).

(** ** HTTP *)

Record Request := {
  url : string;
  method : string;
  headers : list (string * string);
  body : option string;
}.

(** A response whose JSON body, when there is one, has the type the call
    site casts it to; [jsonBody = None] makes [res.json()] throw. *)
Record Response (A : Type) := {
  status : Z;
  text : string;
  jsonBody : option A;
}.
Arguments status {A} _.
Arguments text {A} _.
Arguments jsonBody {A} _.

(** [res.ok]. *)
Definition ok {A} (r : Response A) : bool :=
  (200 <=? status r) && (status r <=? 299).

(** Body of [sign-raw]: [{ signature?: string; result?: string }]. *)
Record SignData := {
  signature : option string;
  result : option string;
}.

(** Body of [POST /auth/session]. *)
Record SessionCreated := {
  sc_sessionId : string;
  sc_address : string;
  sc_expiresAt : Z;
}.

(** ** The world outside the module *)

(** Library functions that are not part of the repository. *)
Record Runtime := {
  sha256 : list byte -> list byte;            (* crypto.subtle.digest *)
  ecdsa : list byte -> list byte -> Z * Z * Z; (* raw secp256k1 (r, s, recovery)
                                                  of a hash under an accepted key *)
  getPublicKey : list byte -> list byte;      (* secp.getPublicKey(k, false) *)
  hashMessage : string -> string;             (* viem, EIP-191 *)
  hashTypedData : TypedData -> string;        (* viem, EIP-712 *)
  JSON_stringify : json -> string;
  toISOString : Z -> string;                  (* new Date(ms).toISOString() *)
  numberToString : float -> string;           (* String(x) *)
  supportedNetwork : string -> bool;          (* networks of the EVM scheme *)
  encodePayment : PaymentRequirements -> string -> string;
}.

(** A fetch either fails at the transport level ([None]) or yields a
    response.  Every endpoint answers as a function of the requests seen so
    far and of the request at hand. *)
Definition Endpoint (A : Type) : Type :=
  list Request -> Request -> option (Response A).

Record Env := {
  clock : nat -> Z;                      (* the k-th reading of the clock *)
  randomPrivateKey : nat -> list byte;   (* the k-th random draw *)
  randomUUID : nat -> string;
  nonceEndpoint : Endpoint string;
  signRawEndpoint : Endpoint SignData;
  sessionEndpoint : Endpoint SessionCreated;
  targetEndpoint : Endpoint PaymentRequired;
}.

(** Content of [~/.signal402/session.json]. *)
Inductive SessionFile :=
| Absent
| Corrupt                       (* present, [JSON.parse] throws *)
| Stored (s : SessionData).

(** Content of [~/.signal402/wallet.json]. *)
Inductive WalletFile :=
| NoWallet
| CorruptWallet                 (* present, [JSON.parse] throws *)
| WalletStored (d : Wallet.WalletData).

(** Everything the code can read and write. *)
Record World := {
  sessionFile : SessionFile;
  walletFile : WalletFile;
  currentMaxCost : option float;                 (* [_currentMaxCost] *)
  fetchWithPayment : option Wallet.WalletData;   (* [_fetchWithPayment], with
                                                    the wallet it closed over *)
  trace : list Request;                          (* requests sent so far *)
  clockReads : nat;
  randomDraws : nat;
}.

Definition setSessionFile (f : SessionFile) (w : World) : World :=
  {| sessionFile := f; walletFile := walletFile w;
     currentMaxCost := currentMaxCost w; fetchWithPayment := fetchWithPayment w;
     trace := trace w; clockReads := clockReads w; randomDraws := randomDraws w |}.

Definition setCurrentMaxCost (c : option float) (w : World) : World :=
  {| sessionFile := sessionFile w; walletFile := walletFile w;
     currentMaxCost := c; fetchWithPayment := fetchWithPayment w;
     trace := trace w; clockReads := clockReads w; randomDraws := randomDraws w |}.

Definition setFetchWithPayment (p : option Wallet.WalletData) (w : World) : World :=
  {| sessionFile := sessionFile w; walletFile := walletFile w;
     currentMaxCost := currentMaxCost w; fetchWithPayment := p;
     trace := trace w; clockReads := clockReads w; randomDraws := randomDraws w |}.

Definition pushRequest (r : Request) (w : World) : World :=
  {| sessionFile := sessionFile w; walletFile := walletFile w;
     currentMaxCost := currentMaxCost w; fetchWithPayment := fetchWithPayment w;
     trace := trace w ++ [r]; clockReads := clockReads w;
     randomDraws := randomDraws w |}.

Definition tickClock (w : World) : World :=
  {| sessionFile := sessionFile w; walletFile := walletFile w;
     currentMaxCost := currentMaxCost w; fetchWithPayment := fetchWithPayment w;
     trace := trace w; clockReads := S (clockReads w);
     randomDraws := randomDraws w |}.

Definition tickRandom (w : World) : World :=
  {| sessionFile := sessionFile w; walletFile := walletFile w;
     currentMaxCost := currentMaxCost w; fetchWithPayment := fetchWithPayment w;
     trace := trace w; clockReads := clockReads w;
     randomDraws := S (randomDraws w) |}.

(** ** The monad of effects *)

Inductive Error :=
| Err (message : string)               (* [throw new Error(message)] *)
| NetworkError                         (* [fetch] rejected *)
| SyntaxError                          (* [JSON.parse] or [res.json()] *)
| RangeError
| InvalidPrivateKey                    (* the signature library rejects the key *)
| SpendingCapExceeded (reason : string)
| UnsupportedScheme
| ProtocolViolation.

Inductive Outcome (A : Type) :=
| Return (a : A)
| Throw (e : Error).
Arguments Return {A} _.
Arguments Throw {A} _.

Definition M (A : Type) : Type := World -> Outcome A * World.

Definition ret {A} (a : A) : M A := fun w => (Return a, w).

Definition throw {A} (e : Error) : M A := fun w => (Throw e, w).

Definition bind {A B} (m : M A) (k : A -> M B) : M B :=
  fun w =>
    match m w with
    | (Return a, w') => k a w'
    | (Throw e, w') => (Throw e, w')
    end.

(** [try { m } finally { f }]. *)
Definition tryFinally {A} (m : M A) (f : M unit) : M A :=
  fun w =>
    match m w with
    | (o, w') =>
        match f w' with
        | (Return _, w'') => (o, w'')
        | (Throw e, w'') => (Throw e, w'')
        end
    end.

Declare Scope js_scope.
Delimit Scope js_scope with js.
Notation "x <- m ;; k" := (bind m (fun x => k))
  (at level 61, m at next level, right associativity) : js_scope.
Notation "m ;;; k" := (bind m (fun _ => k))
  (at level 61, right associativity) : js_scope.
Local Open Scope js_scope.

Definition modify (f : World -> World) : M unit :=
  fun w => (Return tt, f w).

Definition gets {A} (f : World -> A) : M A :=
  fun w => (Return (f w), w).

Section Effects.
Variable env : Env.

(** [Date.now()]. *)
Definition dateNow : M Z :=
  fun w => (Return (clock env (clockReads w)), tickClock w).

(** [secp.utils.randomPrivateKey()]. *)
Definition drawPrivateKey : M (list byte) :=
  fun w => (Return (randomPrivateKey env (randomDraws w)), tickRandom w).

(** [crypto.randomUUID()]. *)
Definition drawUUID : M string :=
  fun w => (Return (randomUUID env (randomDraws w)), tickRandom w).

(** [await fetch(url, init)] against one endpoint: the request is recorded,
    then it either rejects or resolves. *)
Definition fetch {A} (endpoint : Env -> Endpoint A) (req : Request)
  : M (Response A) :=
  fun w =>
    match endpoint env (trace w) req with
    | Some r => (Return r, pushRequest req w)
    | None => (Throw NetworkError, pushRequest req w)
    end.

(** [await res.json()]. *)
Definition resJson {A} (r : Response A) : M A :=
  match jsonBody r with
  | Some a => ret a
  | None => throw SyntaxError
  end.

End Effects.

(** ** The signature library ([@noble/secp256k1])

    The library is a dependency, not part of the repository.  The raw ECDSA
    signature is a parameter of the runtime; what [signRequest] relies on is
    written out: the check of the private key, the [lowS] normalisation and
    the compact byte layout. *)

Module Secp.

(** Order of the secp256k1 group. *)
Definition n : Z :=
  0xFFFFFFFFFFFFFFFFFFFFFFFFFFFFFFFEBAAEDCE6AF48A03BBFD25E8CD0364141.

Record Signature := {
  r : Z;
  s : Z;
  recovery : Z;
}.


(** [s] lies in the upper half of the group order. *)
Definition isBiggerThanHalfOrder (x : Z) : bool := Z.shiftr n 1 <? x.

(** The [lowS] option: a high [s] is replaced by [n - s] and the recovery
    bit is flipped. *)
Definition normalizeS (sig : Signature) : Signature :=
  if isBiggerThanHalfOrder (s sig)
  then {| r := r sig; s := n - s sig; recovery := Z.lxor (recovery sig) 1 |}
  else sig.

(** Big-endian bytes of a number, on [len] bytes. *)
Definition numberToBytesBE (x : Z) (len : nat) : list byte :=
  map (fun i => JS.byteOfZ (x / 256 ^ Z.of_nat (len - 1 - i))) (seq 0 len).

(** The number a big-endian byte string stands for. *)
Definition bytesToNumberBE (bs : list byte) : Z :=
  fold_left (fun acc b => acc * 256 + Z.of_N (Byte.to_N b)) bs 0.

(** A private key the library accepts: 32 bytes that stand for a scalar
    from 1 to [n - 1]. *)
Definition isPrivateKey (key : list byte) : bool :=
  (List.length key =? 32)%nat
  && (0 <? bytesToNumberBE key) && (bytesToNumberBE key <? n).

(** The signature before any normalisation. *)
Definition rawSign (rt : Runtime) (hash key : list byte) : Signature :=
  let '(a, b, v) := ecdsa rt hash key in
  {| r := a; s := b; recovery := v |}.

(** [secp.signAsync(hash, key, { lowS })]: the library throws for a key it
    does not accept. *)
Definition signAsync (rt : Runtime) (hash key : list byte) (lowS : bool)
  : M Signature :=
  if isPrivateKey key
  then
    let sig := rawSign rt hash key in
    ret (if lowS then normalizeS sig else sig)
  else throw InvalidPrivateKey.

(** [sig.toCompactRawBytes()]: [r] then [s], 32 bytes each. *)
Definition toCompactRawBytes (sig : Signature) : list byte :=
  (numberToBytesBE (r sig) 32 ++ numberToBytesBE (s sig) 32)%list.

End Secp.

(** ** [session.ts] *)

Module Session.
Import JS.

Definition CLARA_PROXY : string := "https://clara-proxy.bflynn-me.workers.dev".

Definition bufferMs : Z := 5 * 60 * 1000.

(** [b => b.toString(16).padStart(2, '0')]. *)
Definition byteHex (b : byte) : string :=
  padStart 2 "0" (toString16 (Byte.to_N b)).

(** [bytesToHex]. *)
Definition bytesToHex (bytes : list byte) : string :=
  join "" (map byteHex bytes).

(** [hexToBytes]: one byte per two characters, each read by [parseInt]. *)
Definition hexToBytes (hex : string) : list byte :=
  let clean := if startsWith "0x" hex then sliceFrom 2 hex else hex in
  map (fun i => toUint8 (parseInt16 (slice (i * 2) (i * 2 + 2) clean)))
      (seq 0 (String.length clean / 2)).

(** [new Uint8Array(len)]. *)
Definition newUint8Array (len : nat) : list byte := repeat x00 len.

(** [target.set(source)]: copies at offset 0, [None] (a RangeError) when the
    source does not fit. *)
Definition typedArraySet (target source : list byte) : option (list byte) :=
  if (List.length source <=? List.length target)%nat
  then Some (source ++ skipn (List.length source) target)%list
  else None.

(** [arr[i] = b]; a store out of range is ignored. *)
Fixpoint setIndex (i : nat) (b : byte) (arr : list byte) : list byte :=
  match arr, i with
  | [], _ => []
  | _ :: rest, O => b :: rest
  | x :: rest, S k => x :: setIndex k b rest
  end.

(** ASCII and Latin-1 part of [String.prototype.toLowerCase]. *)
Definition lowerChar (c : ascii) : ascii :=
  let k := nat_of_ascii c in
  if ((65 <=? k) && (k <=? 90))%nat then ascii_of_nat (k + 32)
  else if ((192 <=? k) && (k <=? 222) && negb (k =? 215))%nat
       then ascii_of_nat (k + 32)
       else c.

Fixpoint toLowerCase (str : string) : string :=
  match str with
  | EmptyString => EmptyString
  | String c rest => String (lowerChar c) (toLowerCase rest)
  end.

(** [constructSiweMessage]; [issuedAt] is [new Date().toISOString()], read
    by the caller of this pure part. *)
Definition constructSiweMessage (issuedAt : string)
  (address nonce sessionPubKey expirationTime : string) : string :=
  let domain := "clara-proxy.bflynn-me.workers.dev" in
  let uri := ("https://" ++ domain)%string in
  let chainId := 8453 in
  let statement :=
    ("Delegate signing authority to session key: " ++ sessionPubKey)%string in
  join LF [
    (domain ++ " wants you to sign in with your Ethereum account:")%string;
    address;
    "";
    statement;
    "";
    ("URI: " ++ uri)%string;
    "Version: 1";
    ("Chain ID: " ++ stringOfInt chainId)%string;
    ("Nonce: " ++ nonce)%string;
    ("Issued At: " ++ issuedAt)%string;
    ("Expiration Time: " ++ expirationTime)%string
  ].

(** [a || b] on optional strings: the empty string is falsy. *)
Definition orElse (a b : option string) : option string :=
  match a with
  | Some x => if (x =? "")%string then b else a
  | None => b
  end.

(** [!x] on an optional string. *)
Definition falsy (a : option string) : bool :=
  match a with
  | Some x => (x =? "")%string
  | None => true
  end.

Section WithWorld.
Variable rt : Runtime.
Variable env : Env.

(** [sha256hex]. *)
Definition sha256hex (text : string) : string :=
  join "" (map byteHex (sha256 rt (utf8 text))).

(** [generateSessionKeypair]. *)
Definition generateSessionKeypair : M (list byte * string) :=
  privateKey <- drawPrivateKey env ;;
  ret (privateKey, bytesToHex (getPublicKey rt privateKey)).

Definition nonceRequest : Request :=
  {| url := (CLARA_PROXY ++ "/auth/nonce")%string; method := "GET";
     headers := []; body := None |}.

Definition bootstrapSignRequest (walletId address siweHash : string) : Request :=
  {| url := (CLARA_PROXY ++ "/api/v1/wallets/" ++ walletId ++ "/sign-raw")%string;
     method := "POST";
     headers := [("Content-Type", "application/json");
                 ("X-Clara-Address", address)];
     body := Some (JSON_stringify rt (JObject [("data", JString siweHash)])) |}.

Definition createSessionRequest (siweMessage siweSignature sessionPubKey : string)
  : Request :=
  {| url := (CLARA_PROXY ++ "/auth/session")%string;
     method := "POST";
     headers := [("Content-Type", "application/json")];
     body := Some (JSON_stringify rt (JObject [
               ("siweMessage", JString siweMessage);
               ("signature", JString siweSignature);
               ("sessionPublicKey", JString sessionPubKey)])) |}.

(** [establishSession]. *)
Definition establishSession (walletId address : string) : M SessionData :=
  (* Step 1: server nonce *)
  nonceRes <- fetch env nonceEndpoint nonceRequest ;;
  if negb (ok nonceRes)
  then throw (Err ("Failed to get nonce: " ++ stringOfInt (status nonceRes)))
  else
  nonce <- resJson nonceRes ;;
  (* Step 2: ephemeral keypair *)
  kp <- generateSessionKeypair ;;
  let '(privateKey, sessionPubKey) := kp in
  (* Step 3: SIWE message *)
  t <- dateNow env ;;
  let expirationTime := toISOString rt (t + 24 * 60 * 60 * 1000) in
  issued <- dateNow env ;;
  let siweMessage :=
    constructSiweMessage (toISOString rt issued) address nonce sessionPubKey
                         expirationTime in
  (* Step 4: sign the EIP-191 hash through sign-raw, bootstrap path *)
  let siweHash := hashMessage rt siweMessage in
  signRes <- fetch env signRawEndpoint
               (bootstrapSignRequest walletId address siweHash) ;;
  if negb (ok signRes)
  then throw (Err ("sign-raw failed: " ++ stringOfInt (status signRes)
                   ++ " — " ++ text signRes))
  else
  signData <- resJson signRes ;;
  let siweSignature := orElse (signature signData) (result signData) in
  match siweSignature with
  | None => throw (Err "No signature in sign-raw response")
  | Some sigText =>
  if falsy (Some sigText)
  then throw (Err "No signature in sign-raw response")
  else
  (* Step 5: create the session on the proxy *)
  sessionRes <- fetch env sessionEndpoint
                  (createSessionRequest siweMessage sigText sessionPubKey) ;;
  if negb (ok sessionRes)
  then throw (Err ("Session creation failed: " ++ stringOfInt (status sessionRes)
                   ++ " — " ++ text sessionRes))
  else
  created <- resJson sessionRes ;;
  (* Step 6: save the session locally *)
  now <- dateNow env ;;
  let session := {|
    sessionId := sc_sessionId created;
    address := toLowerCase address;
    sessionPrivateKey := bytesToHex privateKey;
    sessionPublicKey := sessionPubKey;
    expiresAt := sc_expiresAt created;
    createdAt := toISOString rt now |} in
  modify (setSessionFile (Stored session)) ;;;
  ret session
  end.

(** The per-request canonical message. *)
Definition canonicalMessage (method path bodyDigest timestamp nonce : string)
  : string :=
  join LF [
    "CLARA-REQUEST-SIG-V1";
    method;
    path;
    ("sha256:" ++ bodyDigest)%string;
    timestamp;
    nonce
  ].

(** The 65 bytes put in the signature header: the compact signature copied
    into a fresh array, then the recovery id plus 27 at index 64. *)
Definition encodeSignature (sig : Secp.Signature) : option (list byte) :=
  let sigBytes := Secp.toCompactRawBytes sig in
  match typedArraySet (newUint8Array 65) sigBytes with
  | Some fullSig => Some (setIndex 64 (byteOfZ (Secp.recovery sig + 27)) fullSig)
  | None => None
  end.

(** [signRequest]. *)
Definition signRequest (session : SessionData) (method path body : string)
  : M (list (string * string)) :=
  nonce <- drawUUID env ;;
  now <- dateNow env ;;
  let timestamp := stringOfInt (now / 1000) in
  let bodyDigest := sha256hex body in
  let canonical := canonicalMessage method path bodyDigest timestamp nonce in
  let msgHash := sha256hex canonical in
  let msgHashBytes := hexToBytes msgHash in
  let privKeyBytes := hexToBytes (sessionPrivateKey session) in
  sig <- Secp.signAsync rt msgHashBytes privKeyBytes true ;;
  match encodeSignature sig with
  | None => throw RangeError
  | Some fullSig =>
      ret [("X-Clara-Address", address session);
           ("X-Clara-Session", sessionId session);
           ("X-Clara-Signature", ("0x" ++ bytesToHex fullSig)%string);
           ("X-Clara-Timestamp", timestamp);
           ("X-Clara-Nonce", nonce)]
  end.

(** [getSession]. *)
Definition getSession (walletId address : string) : M SessionData :=
  file <- gets sessionFile ;;
  match file with
  | Absent => establishSession walletId address
  | Corrupt => throw SyntaxError
  | Stored session =>
      now <- dateNow env ;;
      if now + bufferMs <? expiresAt session
      then ret session
      else establishSession walletId address
  end.

End WithWorld.

(** A session is usable at [now] while its expiry exceeds [now] plus the
    renewal buffer. *)
Definition validAt (now : Z) (session : SessionData) : Prop :=
  now + bufferMs < expiresAt session.

(** Method and URL of a request. *)
Definition call (q : Request) : string * string := (method q, url q).

(** The three calls of one establishment, in order. *)
Definition establishmentCalls (walletId : string) : list (string * string) :=
  [ ("GET", (CLARA_PROXY ++ "/auth/nonce")%string);
    ("POST", (CLARA_PROXY ++ "/api/v1/wallets/" ++ walletId ++ "/sign-raw")%string);
    ("POST", (CLARA_PROXY ++ "/auth/session")%string) ].

(** An endpoint that always answers 2xx with a body satisfying [P]. *)
Definition answers {A} (endpoint : Endpoint A) (P : A -> Prop) : Prop :=
  forall history q, exists res a,
    endpoint history q = Some res /\ ok res = true /\ jsonBody res = Some a /\ P a.

(** The gateway serves nonces, signatures and sessions. *)
Definition gatewayUp (env : Env) : Prop :=
  answers (nonceEndpoint env) (fun _ => True)
  /\ answers (signRawEndpoint env)
       (fun d => falsy (orElse (signature d) (result d)) = false)
  /\ answers (sessionEndpoint env) (fun _ => True).

End Session.

(** ** [account.ts]: the signer handed to the x402 SDK *)

Module Account.
Import JS Session.

Section WithWorld.
Variable rt : Runtime.
Variable env : Env.

Definition signPath (walletId : string) : string :=
  ("/api/v1/wallets/" ++ walletId ++ "/sign-raw")%string.

Definition signRawRequest (walletId : string)
  (authHeaders : list (string * string)) (signBody : string) : Request :=
  {| url := (CLARA_PROXY ++ signPath walletId)%string;
     method := "POST";
     headers := ("Content-Type", "application/json") :: authHeaders;
     body := Some signBody |}.

(** [createParaSigner(walletId, address).signTypedData]. *)
Definition signTypedData (walletId address : string) (typedData : TypedData)
  : M string :=
  let hash := hashTypedData rt typedData in
  session <- getSession rt env walletId address ;;
  let signBody := JSON_stringify rt (JObject [("data", JString hash)]) in
  authHeaders <- signRequest rt env session "POST" (signPath walletId) signBody ;;
  signRes <- fetch env signRawEndpoint
               (signRawRequest walletId authHeaders signBody) ;;
  if negb (ok signRes)
  then throw (Err ("sign-raw failed: " ++ stringOfInt (status signRes)
                   ++ " — " ++ text signRes))
  else
  signData <- resJson signRes ;;
  match orElse (signature signData) (result signData) with
  | None => throw (Err "No signature in sign-raw response")
  | Some sig =>
      if falsy (Some sig)
      then throw (Err "No signature in sign-raw response")
      else ret (if startsWith "0x" sig then sig else ("0x" ++ sig)%string)
  end.

End WithWorld.
End Account.

(** ** [client.ts] *)

Module Client.
Import JS.

(** [RequestInit], as far as the callers fill it. *)
Record RequestInit := {
  ri_method : option string;
  ri_headers : list (string * string);
  ri_body : option string;
}.

(** The request [fetch(url, init)] sends. *)
Definition mkRequest (u : string) (init : option RequestInit) : Request :=
  match init with
  | Some i =>
      {| url := u;
         method := match ri_method i with Some m => m | None => "GET" end;
         headers := ri_headers i;
         body := ri_body i |}
  | None => {| url := u; method := "GET"; headers := []; body := None |}
  end.

(** What an [onBeforePaymentCreation] hook returns: nothing, or
    [{ abort: true, reason }]. *)
Inductive HookResult :=
| Proceed
| Abort (reason : string).

(** [Number(amount) / 1e6]: USDC has 6 decimals. *)
Definition costUsd (amount : Z) : float :=
  PrimFloat.div (Number amount) 1e6%float.

(** The body of the spending guard, for the value [_currentMaxCost] holds
    when the hook runs. *)
Definition guardDecision (numberToString : float -> string)
  (current : option float) (selectedRequirements : PaymentRequirements)
  : HookResult :=
  match current with
  | Some maxCost =>
      let amount := maxAmountRequired selectedRequirements in
      let cost := costUsd amount in
      if PrimFloat.ltb maxCost cost
      then Abort ("Service costs $" ++ toFixed numberToString cost 4
                  ++ " per request, exceeds max_cost of $"
                  ++ numberToString maxCost ++ ". "
                  ++ "Increase max_cost or choose a cheaper service.")
      else Proceed
  | None => Proceed
  end.

Section WithWorld.
Variable rt : Runtime.
Variable env : Env.

(** The hook registered with [client.onBeforePaymentCreation]. *)
Definition spendingGuard (selectedRequirements : PaymentRequirements)
  : M HookResult :=
  current <- gets currentMaxCost ;;
  ret (guardDecision (numberToString rt) current selectedRequirements).

(** [loadWallet] of [wallet.ts]. *)
Definition loadWallet : M (option Wallet.WalletData) :=
  file <- gets walletFile ;;
  match file with
  | NoWallet => ret None
  | CorruptWallet => throw SyntaxError
  | WalletStored data => ret (Some data)
  end.

(** Modelled from the spec: the standard payment header of the retried
    request (section 4.4, step 5); the SDK fixes its name. *)
Definition PAYMENT_HEADER : string := "X-PAYMENT".

Definition withPayment (req : Request) (payload : string) : Request :=
  {| url := url req; method := method req;
     headers := (headers req ++ [(PAYMENT_HEADER, payload)])%list;
     body := body req |}.

(** Modelled from the spec: scheme selection of the SDK (section 4.4,
    step 2), the first accepted requirement of the exact scheme on a
    supported network. *)
Definition selectRequirement (accepted : list PaymentRequirements)
  : option PaymentRequirements :=
  find (fun q => (scheme q =? "exact")%string && supportedNetwork rt (network q))
       accepted.

(** Modelled from the spec: [wrapFetchWithPayment] of the [@x402/fetch] SDK
    is not under src/; this follows section 4.4, steps 1 to 6: send the
    request unmodified and return any response that is not payment-required;
    otherwise parse the requirements, select the first supported scheme, run
    the registered hook, and only when it does not abort obtain the payment
    signature from the signer and resend the request once with the payment
    header. *)
Definition wrapFetchWithPayment
  (hook : PaymentRequirements -> M HookResult)
  (signer : TypedData -> M string) (payer : string)
  (u : string) (init : option RequestInit) : M (Response PaymentRequired) :=
  let req := mkRequest u init in
  res <- fetch env targetEndpoint req ;;
  if negb (status res =? 402) then ret res
  else
    match jsonBody res with
    | None => throw ProtocolViolation
    | Some required =>
        match selectRequirement (accepts required) with
        | None => throw UnsupportedScheme
        | Some selected =>
            decision <- hook selected ;;
            match decision with
            | Abort reason => throw (SpendingCapExceeded reason)
            | Proceed =>
                sig <- signer {| td_from := payer; td_requirement := selected |} ;;
                fetch env targetEndpoint
                      (withPayment req (encodePayment rt selected sig))
            end
        end
    end.

(** [getFetchWithPayment]: the lazily built client, remembered with the
    wallet its signer closed over. *)
Definition getFetchWithPayment : M Wallet.WalletData :=
  memo <- gets fetchWithPayment ;;
  match memo with
  | Some wallet => ret wallet
  | None =>
      loaded <- loadWallet ;;
      match loaded with
      | None => throw (Err "No wallet configured. Run signal402_setup first.")
      | Some wallet =>
          modify (setFetchWithPayment (Some wallet)) ;;;
          ret wallet
      end
  end.

(** The function [_fetchWithPayment] holds once built. *)
Definition payFetch (wallet : Wallet.WalletData)
  : string -> option RequestInit -> M (Response PaymentRequired) :=
  wrapFetchWithPayment spendingGuard
    (Account.signTypedData rt env (Wallet.walletId wallet) (Wallet.address wallet))
    (Wallet.address wallet).

(** [x402Fetch(url, init, opts)]; [maxCostUsd] is [opts?.maxCostUsd]. *)
Definition x402Fetch (u : string) (init : option RequestInit)
  (maxCostUsd : option float) : M (Response PaymentRequired) :=
  wallet <- getFetchWithPayment ;;
  modify (setCurrentMaxCost maxCostUsd) ;;;
  tryFinally (payFetch wallet u init) (modify (setCurrentMaxCost None)).

(** One call of [x402Fetch], as its caller writes it. *)
Record Invocation := {
  inv_url : string;
  inv_init : option RequestInit;
  inv_maxCostUsd : option float;
}.

(** Calls made one after the other, each awaited before the next starts;
    the world they leave. *)
Fixpoint inSequence (calls : list Invocation) (w : World) : World :=
  match calls with
  | [] => w
  | c :: rest =>
      inSequence rest
        (snd (x402Fetch (inv_url c) (inv_init c) (inv_maxCostUsd c) w))
  end.

End WithWorld.

(** [getFetchWithPayment] does not throw: the client is built already, or a
    wallet is configured. *)
Definition ready (w : World) : bool :=
  match fetchWithPayment w, walletFile w with
  | None, NoWallet => false
  | None, CorruptWallet => false
  | _, _ => true
  end.

(** The text of the abort reason. *)
Definition abortReason (cost cap : string) : string :=
  ("Service costs $" ++ cost ++ " per request, exceeds max_cost of $" ++ cap
   ++ ". Increase max_cost or choose a cheaper service.")%string.

End Client.

(** ** Calls in flight at the same time

    [x402Fetch] is an async function: it runs up to its first [await], and
    resumes when the awaited response arrives.  Several calls can therefore
    be in flight at once on the one event loop, their segments interleaved;
    each segment runs atomically.  The segments of one call, as far as the
    module variable is concerned:
    - the prefix up to the first [await]: [_currentMaxCost = opts?.maxCostUsd];
    - on a payment-required response: the hook reads [_currentMaxCost];
    - on the way out: [finally { _currentMaxCost = undefined }]. *)

Module Interleaving.
Import Client.

Record Call := {
  cap : option float;               (* [opts?.maxCostUsd] of this call *)
  demanded : PaymentRequirements;   (* what the service asks when it answers 402 *)
}.

Inductive CallOutcome :=
| PassedThrough
| Aborted (reason : string)
| Paid.

Inductive Phase :=
| NotStarted
| AwaitingResponse
| Paying
| Finished (o : CallOutcome).

Inductive Event :=
| Invoke (i : nat)
| PaymentRequiredArrives (i : nat)
| OtherResponseArrives (i : nat)
| PaymentCompletes (i : nat).

Record Config := {
  shared : World;
  phases : list Phase;
}.

Fixpoint setPhase (i : nat) (p : Phase) (ps : list Phase) : list Phase :=
  match ps, i with
  | [], _ => []
  | _ :: rest, O => p :: rest
  | q :: rest, S k => q :: setPhase k p rest
  end.

Definition initial (w : World) (calls : list Call) : Config :=
  {| shared := w; phases := map (fun _ => NotStarted) calls |}.

Section Steps.
Variable numberToString : float -> string.
Variable calls : list Call.

Definition step (ev : Event) (cfg : Config) : option Config :=
  match ev with
  | Invoke i =>
      match nth_error calls i, nth_error (phases cfg) i with
      | Some c, Some NotStarted =>
          Some {| shared := setCurrentMaxCost (cap c) (shared cfg);
                  phases := setPhase i AwaitingResponse (phases cfg) |}
      | _, _ => None
      end
  | PaymentRequiredArrives i =>
      match nth_error calls i, nth_error (phases cfg) i with
      | Some c, Some AwaitingResponse =>
          match guardDecision numberToString (currentMaxCost (shared cfg))
                              (demanded c) with
          | Abort reason =>
              Some {| shared := setCurrentMaxCost None (shared cfg);
                      phases := setPhase i (Finished (Aborted reason)) (phases cfg) |}
          | Proceed =>
              Some {| shared := shared cfg;
                      phases := setPhase i Paying (phases cfg) |}
          end
      | _, _ => None
      end
  | OtherResponseArrives i =>
      match nth_error (phases cfg) i with
      | Some AwaitingResponse =>
          Some {| shared := setCurrentMaxCost None (shared cfg);
                  phases := setPhase i (Finished PassedThrough) (phases cfg) |}
      | _ => None
      end
  | PaymentCompletes i =>
      match nth_error (phases cfg) i with
      | Some Paying =>
          Some {| shared := setCurrentMaxCost None (shared cfg);
                  phases := setPhase i (Finished Paid) (phases cfg) |}
      | _ => None
      end
  end.

Fixpoint run (schedule : list Event) (cfg : Config) : option Config :=
  match schedule with
  | [] => Some cfg
  | ev :: rest =>
      match step ev cfg with
      | Some cfg' => run rest cfg'
      | None => None
      end
  end.

(** What the guard decided for a call, once it has run. *)
Definition decisionOf (p : Phase) : option HookResult :=
  match p with
  | Paying | Finished Paid => Some Proceed
  | Finished (Aborted reason) => Some (Abort reason)
  | _ => None
  end.

(** The call has started and has not completed. *)
Definition inFlight (p : Phase) : bool :=
  match p with
  | AwaitingResponse | Paying => true
  | _ => false
  end.

(** The module variable is undefined or holds the cap of a call in flight. *)
Definition capOwned (cfg : Config) : Prop :=
  currentMaxCost (shared cfg) = None
  \/ exists i c p,
       nth_error calls i = Some c
       /\ nth_error (phases cfg) i = Some p
       /\ inFlight p = true
       /\ currentMaxCost (shared cfg) = cap c.

(** Every guard decision is the one the call's own cap gives. *)
Definition isolated (w : World) : Prop :=
  forall schedule cfg i c p d,
    run schedule (initial w calls) = Some cfg ->
    nth_error calls i = Some c ->
    nth_error (phases cfg) i = Some p ->
    decisionOf p = Some d ->
    d = guardDecision numberToString (cap c) (demanded c).

End Steps.
End Interleaving.

(** ** The delegation message as the interface section lays it out *)

Module Spec.
Import JS.

(** The fixed SIWE line order, one line after the other. *)
Definition siweTemplate
  (domain address statement uri chainId nonce issuedAt expiration : string)
  : string :=
  (domain ++ " wants you to sign in with your Ethereum account:" ++ LF
   ++ address ++ LF
   ++ LF
   ++ statement ++ LF
   ++ LF
   ++ "URI: " ++ uri ++ LF
   ++ "Version: 1" ++ LF
   ++ "Chain ID: " ++ chainId ++ LF
   ++ "Nonce: " ++ nonce ++ LF
   ++ "Issued At: " ++ issuedAt ++ LF
   ++ "Expiration Time: " ++ expiration)%string.

(** The same eleven lines, as a list. *)
Definition siweLines (issuedAt address nonce sessionPubKey expirationTime : string)
  : list string :=
  [ "clara-proxy.bflynn-me.workers.dev wants you to sign in with your Ethereum account:";
    address;
    "";
    ("Delegate signing authority to session key: " ++ sessionPubKey)%string;
    "";
    "URI: https://clara-proxy.bflynn-me.workers.dev";
    "Version: 1";
    "Chain ID: 8453";
    ("Nonce: " ++ nonce)%string;
    ("Issued At: " ++ issuedAt)%string;
    ("Expiration Time: " ++ expirationTime)%string ].

(** The text up to the first line feed, and what follows it. *)
Fixpoint splitLine (str : string) : string * option string :=
  match str with
  | EmptyString => (EmptyString, None)
  | String c rest =>
      if Ascii.eqb c (ascii_of_nat 10) then (EmptyString, Some rest)
      else let '(l, more) := splitLine rest in (String c l, more)
  end.

(** [str.split('\n')]. *)
Fixpoint splitLines (fuel : nat) (str : string) : list string :=
  match fuel with
  | O => [str]
  | S k =>
      match splitLine str with
      | (l, Some rest) => l :: splitLines k rest
      | (l, None) => [l]
      end
  end.

Definition lines (str : string) : list string :=
  splitLines (String.length str) str.

(** No line feed inside. *)
Fixpoint singleLine (str : string) : bool :=
  match str with
  | EmptyString => true
  | String c rest => negb (Ascii.eqb c (ascii_of_nat 10)) && singleLine rest
  end.

End Spec.

(** ** A small concrete world, to run the definitions on *)

Module Sample.
Import JS.

Definition rt : Runtime := {|
  sha256 := fun _ => repeat x00 32;
  ecdsa := fun _ _ => (1, Secp.n - 1, 0);
  getPublicKey := fun _ => [x04];
  hashMessage := fun _ => "0xhash";
  hashTypedData := fun _ => "0xtyped";
  JSON_stringify := fun _ => "{}";
  toISOString := stringOfInt;
  numberToString := fun _ => "0.0001";
  supportedNetwork := fun _ => true;
  encodePayment := fun _ sig => sig;
|}.

Definition okResponse {A} (a : A) : Response A :=
  {| status := 200; text := ""; jsonBody := Some a |}.

(** The private key of the samples: the scalar 1 on 32 bytes, and its
    hexadecimal text. *)
Definition key : list byte := (repeat x00 31 ++ [x01])%list.

Definition keyHex : string :=
  "0000000000000000000000000000000000000000000000000000000000000001".

Definition usdc (amount : Z) : PaymentRequirements :=
  {| scheme := "exact"; network := "base"; maxAmountRequired := amount;
     asset := "USDC"; payTo := "0xabc" |}.

(** A gateway that grants sessions expiring at [expiry] and a service that
    answers [targetStatus], asking for [amount] units. *)
Definition env (now expiry targetStatus amount : Z) : Env := {|
  clock := fun _ => now;
  randomPrivateKey := fun _ => key;
  randomUUID := fun _ => "uuid";
  nonceEndpoint := fun _ _ => Some (okResponse "n0");
  signRawEndpoint := fun _ _ =>
    Some (okResponse {| signature := Some "0xsig"; result := None |});
  sessionEndpoint := fun _ _ =>
    Some (okResponse {| sc_sessionId := "s1"; sc_address := "0xa";
                        sc_expiresAt := expiry |});
  targetEndpoint := fun _ _ =>
    Some {| status := targetStatus; text := "";
            jsonBody := Some {| x402Version := 1; accepts := [usdc amount] |} |};
|}.

Definition now0 : Z := 1700000000000.

(** Sessions of one day; the service asks for $1.00. *)
Definition paidEnv : Env := env now0 (now0 + 86400000) 402 1000000.

(** Sessions of one day; the service is free. *)
Definition freeEnv : Env := env now0 (now0 + 86400000) 200 0.

(** The gateway grants sessions of one minute. *)
Definition shortEnv : Env := env now0 (now0 + 60000) 200 0.

Definition wallet : Wallet.WalletData :=
  {| Wallet.address := "0xA"; Wallet.walletId := "w1";
     Wallet.email := None; Wallet.created_at := "t0" |}.

Definition session (expiry : Z) : SessionData :=
  {| sessionId := "s0"; address := "0xa"; sessionPrivateKey := keyHex;
     sessionPublicKey := "04"; expiresAt := expiry; createdAt := "t0" |}.

Definition world (file : SessionFile) (current : option float) : World :=
  {| sessionFile := file; walletFile := WalletStored wallet;
     currentMaxCost := current; fetchWithPayment := Some wallet;
     trace := []; clockReads := 0; randomDraws := 0 |}.

(** The world before the first call: the client is not built yet. *)
Definition freshWorld : World :=
  {| sessionFile := Absent; walletFile := WalletStored wallet;
     currentMaxCost := None; fetchWithPayment := None;
     trace := []; clockReads := 0; randomDraws := 0 |}.

(** A call capped at $0.0001 to a service asking $1.00, and a call capped
    at $10 to a service asking $0.01. *)
Definition callA : Interleaving.Call :=
  {| Interleaving.cap := Some 0.0001%float;
     Interleaving.demanded := usdc 1000000 |}.

Definition callB : Interleaving.Call :=
  {| Interleaving.cap := Some 10%float;
     Interleaving.demanded := usdc 10000 |}.

End Sample.

(** ** More of the runtime: URI components and rounding *)

Module Web.
Import JS.

(** Characters [encodeURIComponent] leaves as they are. *)
Definition isUnreserved (c : ascii) : bool :=
  let k := nat_of_ascii c in
  ((48 <=? k) && (k <=? 57) || (65 <=? k) && (k <=? 90)
   || (97 <=? k) && (k <=? 122))%nat
  || existsb (Nat.eqb k) [45; 95; 46; 33; 126; 42; 39; 40; 41]%nat.

Definition upperHexDigit (d : N) : ascii :=
  ascii_of_N (if (d <? 10)%N then 48 + d else 55 + d)%N.

(** A byte as [%XX], upper-case digits. *)
Definition percentByte (b : byte) : string :=
  let k := Byte.to_N b in
  String "%" (String (upperHexDigit (k / 16)) (String (upperHexDigit (k mod 16))
    EmptyString)).

(** [encodeURIComponent] on code units below 256. *)
Fixpoint encodeURIComponent (str : string) : string :=
  match str with
  | EmptyString => EmptyString
  | String c rest =>
      ((if isUnreserved c then String c EmptyString
        else join "" (map percentByte (utf8 (String c EmptyString))))
       ++ encodeURIComponent rest)%string
  end.

(** [Math.round], the remainder operator [%] on numbers and [parseFloat],
    left to the runtime. *)
Record Arith := {
  mathRound : float -> float;
  remainder : float -> float -> float;
  parseFloat : string -> float;
}.

(** Lower-case hexadecimal digit. *)
Definition isLowerHex (c : ascii) : bool :=
  let k := nat_of_ascii c in
  ((48 <=? k) && (k <=? 57) || (97 <=? k) && (k <=? 102))%nat.

(** A text made of pairs of lower-case hexadecimal digits. *)
Fixpoint lowerHexPairs (str : string) : bool :=
  match str with
  | EmptyString => true
  | String c1 (String c2 rest) =>
      isLowerHex c1 && isLowerHex c2 && lowerHexPairs rest
  | String _ EmptyString => false
  end.

(** The characters an encoded component is made of. *)
Definition isComponentChar (c : ascii) : bool :=
  isUnreserved c || Ascii.eqb c "%".

(** How often the character [c] occurs in [str]. *)
Fixpoint occurrences (c : ascii) (str : string) : nat :=
  match str with
  | EmptyString => 0
  | String x rest =>
      ((if Ascii.eqb x c then 1 else 0) + occurrences c rest)%nat
  end.

(** [try { m } catch { h }]. *)
Definition tryCatch {A} (m : M A) (h : Error -> M A) : M A :=
  fun w =>
    match m w with
    | (Return a, w') => (Return a, w')
    | (Throw e, w') => h e w'
    end.

(** The keys of a plain object in insertion order, as the sources use them
    for headers. *)
Definition JsObject : Type := list (string * string).

(** [o[k]]. *)
Definition objGet (k : string) (o : JsObject) : option string :=
  option_map snd (find (fun kv => (fst kv =? k)%string) o).

(** [{ ...o, [k]: v }]: an existing key keeps its place, a new one goes
    last. *)
Fixpoint objSet (k v : string) (o : JsObject) : JsObject :=
  match o with
  | [] => [(k, v)]
  | (k', v') :: rest =>
      if (k' =? k)%string then (k, v) :: rest else (k', v') :: objSet k v rest
  end.

End Web.

(** ** [wallet.ts] *)

Module WalletOps.
Import JS Session Web.

(** One entry of a wallet list: [{ id, address }]. *)
Record WalletEntry := {
  we_id : string;
  we_address : string;
}.

(** The JSON bodies of the wallet endpoints, every field the code looks at:
    the 409 body ([walletId]), the lookup body ([data], [wallets]) and the
    creation body ([wallet], [wallets], [address], [walletAddress], [id]). *)
Record WalletsBody := {
  wb_walletId : option string;
  wb_data : option (list WalletEntry);
  wb_wallets : option (list WalletEntry);
  wb_wallet : option WalletEntry;
  wb_address : option string;
  wb_walletAddress : option string;
  wb_id : option string;
}.

(** The wallet side of the gateway. *)
Record WalletGateway := {
  walletApi : Endpoint WalletsBody;
  sponsorEndpoint : Endpoint unit;
}.

(** What [getOrCreateWallet] resolves to. *)
Record WalletResult := {
  wr_address : string;
  wr_walletId : string;
  wr_email : option string;
  isNew : bool;
  isRecovered : bool;
}.

Definition setWalletFile (f : WalletFile) (w : World) : World :=
  {| sessionFile := sessionFile w; walletFile := f;
     currentMaxCost := currentMaxCost w; fetchWithPayment := fetchWithPayment w;
     trace := trace w; clockReads := clockReads w; randomDraws := randomDraws w |}.

(** [x || null] on an optional string. *)
Definition orNull (a : option string) : option string := orElse a None.

Section WithWorld.
Variable rt : Runtime.
Variable env : Env.
Variable gw : WalletGateway.

Definition createWalletRequest (email : option string) : Request :=
  {| url := (CLARA_PROXY ++ "/api/v1/wallets")%string;
     method := "POST";
     headers := [("Content-Type", "application/json")];
     body := Some (JSON_stringify rt (JObject (
               ("type", JString "EVM")
               :: match email with
                  | Some e =>
                      if falsy email then []
                      else [("userIdentifier", JString e);
                            ("userIdentifierType", JString "EMAIL")]
                  | None => []
                  end))) |}.

Definition lookupWalletRequest (email : string) : Request :=
  {| url := (CLARA_PROXY ++ "/api/v1/wallets?userIdentifier="
             ++ encodeURIComponent email ++ "&userIdentifierType=EMAIL")%string;
     method := "GET";
     headers := [("Content-Type", "application/json")];
     body := None |}.

(** The 409 branch: the wallet exists for this email; its id comes from the
    conflict body, its address from a lookup by email. *)
Definition recoverWallet (email : string) (res : Response WalletsBody)
  : M (option string * option string) :=
  conflict <- resJson res ;;
  match wb_walletId conflict with
  | None => throw (Err "409 but no walletId in response")
  | Some walletId =>
  if falsy (Some walletId)
  then throw (Err "409 but no walletId in response")
  else
  lookupRes <- fetch env (fun _ => walletApi gw) (lookupWalletRequest email) ;;
  if negb (ok lookupRes)
  then throw (Err ("Wallet lookup failed: " ++ stringOfInt (status lookupRes)))
  else
  lookupData <- resJson lookupRes ;;
  let wallets :=
    match wb_data lookupData with
    | Some l => l
    | None => match wb_wallets lookupData with Some l => l | None => [] end
    end in
  let found := find (fun e => (we_id e =? walletId)%string) wallets in
  let address := option_map we_address found in
  if falsy address
  then throw (Err ("Wallet " ++ walletId ++ " not found in lookup response"))
  else ret (address, Some walletId)
  end.

(** The 2xx branch: address and id are read from whichever shape the body
    has. *)
Definition parseCreated (responseData : WalletsBody)
  : option string * option string :=
  let walletObj :=
    match wb_wallet responseData with
    | Some e => Some e
    | None => match wb_wallets responseData with
              | Some l => hd_error l
              | None => None
              end
    end in
  (orElse (orElse (option_map we_address walletObj) (wb_address responseData))
          (wb_walletAddress responseData),
   orElse (option_map we_id walletObj) (wb_id responseData)).

(** The text of a truthy optional string. *)
Definition textOf (a : option string) : string :=
  match a with Some x => x | None => "" end.

(** [getOrCreateWallet]. *)
Definition getOrCreateWallet (email : option string) : M WalletResult :=
  existing <- gets walletFile ;;
  match existing with
  | WalletStored data =>
      ret {| wr_address := Wallet.address data;
             wr_walletId := Wallet.walletId data;
             wr_email := Wallet.email data;
             isNew := false; isRecovered := false |}
  | CorruptWallet => throw SyntaxError
  | NoWallet =>
      res <- fetch env (fun _ => walletApi gw) (createWalletRequest email) ;;
      let recovering := (status res =? 409) && negb (falsy email) in
      found <-
        (if recovering then recoverWallet (textOf email) res
         else if negb (ok res)
         then throw (Err ("Wallet creation failed: " ++ stringOfInt (status res)
                          ++ " " ++ text res))
         else responseData <- resJson res ;; ret (parseCreated responseData)) ;;
      let '(address, walletId) := found in
      if falsy address then throw (Err "No address in wallet response")
      else if falsy walletId
      then throw (Err "No walletId in wallet response — needed for signing")
      else
      now <- dateNow env ;;
      let data := {| Wallet.address := textOf address;
                     Wallet.walletId := textOf walletId;
                     Wallet.email := orNull email;
                     Wallet.created_at := toISOString rt now |} in
      modify (setWalletFile (WalletStored data)) ;;;
      ret {| wr_address := textOf address;
             wr_walletId := textOf walletId;
             wr_email := orNull email;
             isNew := true; isRecovered := recovering |}
  end.

Definition sponsorGasRequest (address : string) : Request :=
  {| url := (CLARA_PROXY ++ "/onboard/sponsor-gas")%string;
     method := "POST";
     headers := [("Content-Type", "application/json");
                 ("X-Clara-Address", address)];
     body := Some (JSON_stringify rt (JObject [("address", JString address)])) |}.

(** [sponsorGas]. *)
Definition sponsorGas (address : string) : M bool :=
  tryCatch
    (res <- fetch env (fun _ => sponsorEndpoint gw) (sponsorGasRequest address) ;;
     ret (ok res))
    (fun _ => ret false).

End WithWorld.
End WalletOps.

(** ** [commands/status.ts]: the session line of the status display *)

Module Status.
Import JS Web.

Section WithWorld.
Variable rt : Runtime.
Variable ar : Arith.
Variable env : Env.

(** The text for a parsed session file, [remaining] milliseconds before its
    expiry. *)
Definition activeLine (remaining : Z) : string :=
  let ms := Number remaining in
  let hours :=
    mathRound ar (PrimFloat.div (PrimFloat.div (PrimFloat.div ms 1000) 60) 60) in
  let mins :=
    remainder ar (mathRound ar (PrimFloat.div (PrimFloat.div ms 1000) 60)) 60 in
  ("active (expires in " ++ numberToString rt hours ++ "h "
   ++ numberToString rt mins ++ "m)")%string.

(** The computation of [sessionStatus] in [runStatus]. *)
Definition sessionStatus : M string :=
  file <- gets sessionFile ;;
  match file with
  | Absent => ret "no session"
  | Corrupt => ret "corrupt — will recreate on next query"
  | Stored session =>
      now <- dateNow env ;;
      let remaining := expiresAt session - now in
      if 0 <? remaining
      then ret (activeLine remaining)
      else ret "expired — will auto-renew on next query"
  end.

End WithWorld.
End Status.

(** ** [index.ts]: the request the [signal402_call] tool builds *)

Module Server.
Import JS Session Web Client.

(** [reqInit] as the handler fills it from the tool arguments. *)
Definition buildReqInit (method : string) (body : option string)
  (headers : option JsObject) : RequestInit :=
  let copied := match headers with Some h => h | None => [] end in
  let given k := match headers with Some h => objGet k h | None => None end in
  let needsType :=
    negb (falsy body) && falsy (given "Content-Type")
    && falsy (given "content-type") in
  {| ri_method := Some method;
     ri_headers :=
       if needsType then objSet "Content-Type" "application/json" copied
       else copied;
     ri_body := if falsy body then None else body |}.

Definition TRUNCATED : string :=
  String (ascii_of_nat 10) (String (ascii_of_nat 10) "[...truncated at 50KB]").

(** [50_000]. *)
Definition LIMIT : nat := Z.to_nat 50000.

(** The cut applied to a response text that is not JSON. *)
Definition truncateText (responseText : string) : string :=
  if (LIMIT <? String.length responseText)%nat
  then (slice 0 LIMIT responseText ++ TRUNCATED)%string
  else responseText.

End Server.

(** ** [commands/fund.ts], [commands/setup.ts]: waiting for a deposit *)

Module Funding.
Import JS Web.

(** The chain as [checkUsdcBalance] sees it: what the [k]-th [readContract]
    answers, the balance in units of USDC, or [None] when it rejects. *)
Definition Ledger : Type := nat -> option Z.

(** What the wait has done so far. *)
Record Progress := {
  reads : nat;             (* calls of [Date.now()] *)
  checks : nat;            (* calls of [checkUsdcBalance] *)
  timers : nat;            (* timers armed with [setTimeout] *)
  spinner : list string;   (* texts put on the spinner *)
}.

Definition TIMEOUT_MS : Z := 300000.

(** How one run of [check] ends: the promise is resolved, or the timer is
    armed again. *)
Inductive Tick :=
| Resolved (balance : string)
| Rearmed.

Section WithWorld.
Variable rt : Runtime.
Variable ar : Arith.
Variable env : Env.
Variable ledger : Ledger.

(** [(Number(balance) / 1e6).toFixed(2)] of [checkUsdcBalance]. *)
Definition formatUsdc (balance : Z) : string :=
  toFixed (numberToString rt) (PrimFloat.div (Number balance) 1e6%float) 2.

(** [checkUsdcBalance]. *)
Definition checkUsdcBalance (p : Progress) : option string * Progress :=
  (option_map formatUsdc (ledger (checks p)),
   {| reads := reads p; checks := S (checks p); timers := timers p;
      spinner := spinner p |}).

(** One run of [check], the function the timer calls. *)
Definition check (start : Z) (p : Progress) : Tick * Progress :=
  let '(answer, p1) := checkUsdcBalance p in
  match answer with
  | None =>
      (Rearmed,
       {| reads := reads p1; checks := checks p1; timers := S (timers p1);
          spinner := spinner p1 |})
  | Some balance =>
      let elapsed :=
        mathRound ar
          (PrimFloat.div (Number (clock env (reads p1) - start)) 1000%float) in
      if PrimFloat.ltb 0%float (parseFloat ar balance)
      then (Resolved balance,
            {| reads := S (reads p1); checks := checks p1; timers := timers p1;
               spinner := (spinner p1
                           ++ [("USDC received: $" ++ balance)%string])%list |})
      else if (TIMEOUT_MS <? clock env (S (reads p1)) - start)%Z
      then (Resolved balance,
            {| reads := S (S (reads p1)); checks := checks p1;
               timers := timers p1;
               spinner := (spinner p1
                           ++ ["Timed out waiting for deposit"])%list |})
      else (Rearmed,
            {| reads := S (S (reads p1)); checks := checks p1;
               timers := S (timers p1);
               spinner := (spinner p1
                           ++ [("Waiting for USDC deposit... $" ++ balance
                                ++ " (" ++ numberToString rt elapsed
                                ++ "s elapsed)")%string])%list |})
  end.

(** The timer firing at most [fuel] times. *)
Fixpoint poll (fuel : nat) (start : Z) (p : Progress)
  : option string * Progress :=
  match fuel with
  | O => (None, p)
  | S rest =>
      match check start p with
      | (Resolved balance, p') => (Some balance, p')
      | (Rearmed, p') => poll rest start p'
      end
  end.

(** [pollBalance]: the value the promise is resolved with, if it is within
    [fuel] firings of the timer. *)
Definition pollBalance (fuel : nat) (p : Progress) : option string * Progress :=
  poll fuel (clock env (reads p))
    {| reads := S (reads p); checks := checks p; timers := S (timers p);
       spinner := (spinner p ++ ["Waiting for USDC deposit..."])%list |}.

End WithWorld.
End Funding.

(** ** More sample worlds *)

Module Cases.
Import JS.

(** A gateway whose nonce endpoint answers 503. *)
Definition nonceDownEnv : Env := {|
  clock := fun _ => Sample.now0;
  randomPrivateKey := fun _ => Sample.key;
  randomUUID := fun _ => "uuid";
  nonceEndpoint := fun _ _ =>
    Some {| status := 503; text := "down"; jsonBody := None |};
  signRawEndpoint := signRawEndpoint Sample.freeEnv;
  sessionEndpoint := sessionEndpoint Sample.freeEnv;
  targetEndpoint := targetEndpoint Sample.freeEnv;
|}.

(** A gateway whose sign-raw answers 200 without a signature. *)
Definition unsignedEnv : Env := {|
  clock := fun _ => Sample.now0;
  randomPrivateKey := fun _ => Sample.key;
  randomUUID := fun _ => "uuid";
  nonceEndpoint := nonceEndpoint Sample.freeEnv;
  signRawEndpoint := fun _ _ =>
    Some (Sample.okResponse {| signature := Some ""; result := None |});
  sessionEndpoint := sessionEndpoint Sample.freeEnv;
  targetEndpoint := targetEndpoint Sample.freeEnv;
|}.

Definition emptyBody : WalletOps.WalletsBody :=
  {| WalletOps.wb_walletId := None; WalletOps.wb_data := None;
     WalletOps.wb_wallets := None; WalletOps.wb_wallet := None;
     WalletOps.wb_address := None; WalletOps.wb_walletAddress := None;
     WalletOps.wb_id := None |}.

(** A wallet service that creates the wallet [0xB] with id [w2]. *)
Definition creatingGateway : WalletOps.WalletGateway := {|
  WalletOps.walletApi := fun _ _ =>
    Some (Sample.okResponse
            {| WalletOps.wb_walletId := None; WalletOps.wb_data := None;
               WalletOps.wb_wallets := None;
               WalletOps.wb_wallet :=
                 Some {| WalletOps.we_id := "w2"; WalletOps.we_address := "0xB" |};
               WalletOps.wb_address := None; WalletOps.wb_walletAddress := None;
               WalletOps.wb_id := None |});
  WalletOps.sponsorEndpoint := fun _ _ => Some (Sample.okResponse tt);
|}.

(** A wallet service that answers 409 to every request. *)
Definition conflictGateway : WalletOps.WalletGateway := {|
  WalletOps.walletApi := fun _ _ =>
    Some {| status := 409; text := "exists"; jsonBody := Some emptyBody |};
  WalletOps.sponsorEndpoint := fun _ _ => None;
|}.

(** A wallet service that knows the email: creation answers 409 with the
    wallet id [w9], the lookup lists that wallet at [0xC]. *)
Definition recoveringGateway : WalletOps.WalletGateway := {|
  WalletOps.walletApi := fun _ q =>
    if (method q =? "POST")%string
    then Some {| status := 409; text := "exists";
                 jsonBody := Some
                   {| WalletOps.wb_walletId := Some "w9"; WalletOps.wb_data := None;
                      WalletOps.wb_wallets := None; WalletOps.wb_wallet := None;
                      WalletOps.wb_address := None;
                      WalletOps.wb_walletAddress := None;
                      WalletOps.wb_id := None |} |}
    else Some (Sample.okResponse
                 {| WalletOps.wb_walletId := None;
                    WalletOps.wb_data :=
                      Some [{| WalletOps.we_id := "w8"; WalletOps.we_address := "0xD" |};
                            {| WalletOps.we_id := "w9"; WalletOps.we_address := "0xC" |}];
                    WalletOps.wb_wallets := None; WalletOps.wb_wallet := None;
                    WalletOps.wb_address := None;
                    WalletOps.wb_walletAddress := None;
                    WalletOps.wb_id := None |});
  WalletOps.sponsorEndpoint := fun _ _ => Some (Sample.okResponse tt);
|}.

(** A session file edited by hand: the key is one byte. *)
Definition shortKeySession : SessionData :=
  {| sessionId := "s0"; address := "0xa"; sessionPrivateKey := "01";
     sessionPublicKey := "04"; expiresAt := Sample.now0 + 86400000;
     createdAt := "t0" |}.

(** The world of a machine without wallet or session. *)
Definition blankWorld : World :=
  {| sessionFile := Absent; walletFile := NoWallet;
     currentMaxCost := None; fetchWithPayment := None;
     trace := []; clockReads := 0; randomDraws := 0 |}.


(** A runtime for the samples; its [parseFloat] knows the one text it is
    asked about. *)
Definition arith : Web.Arith :=
  {| Web.mathRound := fun x => x; Web.remainder := fun x _ => x;
     Web.parseFloat := fun s => if (s =? "0.00")%string then 0%float
                                else 1%float |}.

(** A clock that gains 10 seconds every second reading. *)
Definition tickingEnv : Env := {|
  clock := fun i => Sample.now0 + 10000 * Z.of_nat (Nat.div2 i);
  randomPrivateKey := randomPrivateKey Sample.freeEnv;
  randomUUID := randomUUID Sample.freeEnv;
  nonceEndpoint := nonceEndpoint Sample.freeEnv;
  signRawEndpoint := signRawEndpoint Sample.freeEnv;
  sessionEndpoint := sessionEndpoint Sample.freeEnv;
  targetEndpoint := targetEndpoint Sample.freeEnv;
|}.

(** A chain that cannot be reached, an empty account, and an account that
    receives 2.50 USDC before the third reading. *)
Definition unreachable : Funding.Ledger := fun _ => None.
Definition unfunded : Funding.Ledger := fun _ => Some 0.
Definition fundedLater : Funding.Ledger :=
  fun k => if (k <? 2)%nat then Some 0 else Some 2500000.

Definition idle : Funding.Progress :=
  {| Funding.reads := 0; Funding.checks := 0; Funding.timers := 0;
     Funding.spinner := [] |}.

End Cases.

(** * Properties *)

(** ** Strings and bytes *)

Section StringFacts.
Local Open Scope string_scope.

Lemma string_app_assoc (a b c : string) : (a ++ b) ++ c = a ++ (b ++ c).
Proof.
  induction a as [|x a IH]; simpl; [reflexivity | now rewrite IH].
Qed.

Lemma string_app_nil_r (a : string) : a ++ "" = a.
Proof.
  induction a as [|x a IH]; simpl; [reflexivity | now rewrite IH].
Qed.

Lemma string_app_length (a b : string) :
  String.length (a ++ b) = (String.length a + String.length b)%nat.
Proof.
  induction a as [|x a IH]; simpl; [reflexivity | now rewrite IH].
Qed.

Lemma join_empty_cons (x : string) (xs : list string) :
  JS.join "" (x :: xs) = x ++ JS.join "" xs.
Proof.
  unfold JS.join. destruct xs as [|y ys]; simpl.
  - now rewrite string_app_nil_r.
  - reflexivity.
Qed.

End StringFacts.

Section HexFacts.
Import JS Session.
Local Open Scope string_scope.

(** Each byte prints as two characters that [parseInt] reads back, and that
    do not spell the prefix [0x]. *)
Lemma byteHex_decodes (b : byte) :
  exists c1 c2,
    byteHex b = String c1 (String c2 EmptyString)
    /\ toUint8 (parseInt16 (String c1 (String c2 EmptyString))) = b
    /\ (forall rest, startsWith "0x" (String c1 (String c2 rest)) = false).
Proof.
  destruct b;
    (eexists; eexists; split; [vm_compute; reflexivity |
       split; [vm_compute; reflexivity | intros rest; reflexivity]]).
Qed.

Lemma byteHex_length (b : byte) : String.length (byteHex b) = 2%nat.
Proof.
  destruct (byteHex_decodes b) as (c1 & c2 & E & _). now rewrite E.
Qed.

Lemma bytesToHex_cons (b : byte) (bs : list byte) :
  bytesToHex (b :: bs) = byteHex b ++ bytesToHex bs.
Proof. unfold bytesToHex. simpl map. apply join_empty_cons. Qed.

Lemma bytesToHex_length (bs : list byte) :
  String.length (bytesToHex bs) = (2 * List.length bs)%nat.
Proof.
  induction bs as [|b bs IH]; [reflexivity|].
  rewrite bytesToHex_cons, string_app_length, byteHex_length, IH.
  simpl. lia.
Qed.

Lemma bytesToHex_no_prefix (bs : list byte) :
  startsWith "0x" (bytesToHex bs) = false.
Proof.
  destruct bs as [|b bs]; [reflexivity|].
  rewrite bytesToHex_cons.
  destruct (byteHex_decodes b) as (c1 & c2 & E & _ & P).
  rewrite E. simpl. apply (P (bytesToHex bs)).
Qed.

Lemma decode_pairs (bs : list byte) :
  map (fun i => toUint8 (parseInt16 (slice (i * 2) (i * 2 + 2) (bytesToHex bs))))
      (seq 0 (List.length bs)) = bs.
Proof.
  induction bs as [|b bs IH]; [reflexivity|].
  simpl List.length. simpl seq. rewrite <- seq_shift.
  cbn [map]. rewrite map_map.
  rewrite bytesToHex_cons.
  destruct (byteHex_decodes b) as (c1 & c2 & E & D & _).
  rewrite E. f_equal.
  - unfold slice. simpl. destruct (bytesToHex bs); exact D.
  - rewrite <- IH at 2. apply map_ext. intros i.
    unfold slice.
    replace (S i * 2 + 2 - S i * 2)%nat with 2%nat by lia.
    replace (i * 2 + 2 - i * 2)%nat with 2%nat by lia.
    replace (S i * 2)%nat with (S (S (i * 2))) by lia.
    reflexivity.
Qed.

(** [hexToBytes] undoes [bytesToHex]. *)
Lemma hexToBytes_bytesToHex (bs : list byte) :
  hexToBytes (bytesToHex bs) = bs.
Proof.
  unfold hexToBytes. rewrite bytesToHex_no_prefix, bytesToHex_length.
  replace (2 * List.length bs / 2)%nat with (List.length bs).
  - apply decode_pairs.
  - rewrite Nat.mul_comm. symmetry. apply Nat.div_mul. discriminate.
Qed.

End HexFacts.

Section LineFacts.
Import JS Spec.
Local Open Scope string_scope.

Lemma splitLine_single (l : string) :
  singleLine l = true -> splitLine l = (l, None).
Proof.
  induction l as [|c l IH]; simpl; [reflexivity|].
  intros H. apply andb_true_iff in H as [Hc Hl].
  apply negb_true_iff in Hc. rewrite Hc, (IH Hl). reflexivity.
Qed.

Lemma splitLine_app (l rest : string) :
  singleLine l = true -> splitLine (l ++ LF ++ rest) = (l, Some rest).
Proof.
  induction l as [|c l IH]; [reflexivity|].
  cbn [singleLine String.append splitLine].
  intros H. apply andb_true_iff in H as [Hc Hl].
  apply negb_true_iff in Hc. rewrite Hc, (IH Hl). reflexivity.
Qed.

Lemma join_LF_cons (x y : string) (l : list string) :
  join LF (x :: y :: l) = x ++ LF ++ join LF (y :: l).
Proof. reflexivity. Qed.

Lemma splitLines_join (ls : list string) :
  Forall (fun l => singleLine l = true) ls -> ls <> [] ->
  forall fuel, (List.length ls <= S fuel)%nat ->
  splitLines fuel (join LF ls) = ls.
Proof.
  induction ls as [|x ls IH]; intros Hall Hne fuel Hfuel; [congruence|].
  inversion Hall as [|? ? Hx Hrest]; subst.
  destruct ls as [|y ls].
  - unfold join. simpl String.concat.
    destruct fuel; simpl; [reflexivity|].
    now rewrite (splitLine_single _ Hx).
  - rewrite join_LF_cons. destruct fuel as [|k]; [simpl in Hfuel; lia|].
    cbn [splitLines]. rewrite (splitLine_app _ _ Hx). f_equal.
    apply IH; [assumption | discriminate | simpl in *; lia].
Qed.

Lemma join_LF_length (ls : list string) :
  ls <> [] -> (List.length ls <= S (String.length (join LF ls)))%nat.
Proof.
  induction ls as [|x ls IH]; intros Hne; [congruence|].
  destruct ls as [|y ls]; [simpl; lia|].
  rewrite join_LF_cons, !string_app_length.
  assert (y :: ls <> []) as H by discriminate.
  specialize (IH H). change (String.length LF) with 1%nat.
  cbn [List.length] in *. lia.
Qed.

(** Splitting a joined list of one-line strings gives the list back. *)
Lemma lines_join (ls : list string) :
  Forall (fun l => singleLine l = true) ls -> ls <> [] ->
  lines (join LF ls) = ls.
Proof.
  intros Hall Hne. unfold lines.
  apply splitLines_join; auto using join_LF_length.
Qed.

Lemma singleLine_app (a b : string) :
  singleLine a = true -> singleLine b = true -> singleLine (a ++ b) = true.
Proof.
  induction a as [|c a IH]; simpl; [auto|].
  intros H Hb. apply andb_true_iff in H as [Hc Ha].
  now rewrite Hc, (IH Ha Hb).
Qed.

End LineFacts.

(** ** The delegation message *)

Section Delegation.
Import JS Session.
Local Open Scope string_scope.

(** C7.  For every address, nonce, session public key and expiration time
    (and every issued-at instant read from the clock), the delegation
    message is the fixed SIWE template of the interface section: the domain
    header line, the address, a blank line, the statement
    "Delegate signing authority to session key: <sessionPublicKey>", a blank
    line, then URI, Version: 1, Chain ID, Nonce, Issued At and Expiration
    Time, in that order; when no field contains a line feed, the message
    splits into exactly these eleven lines. *)
Theorem siwe_message_is_fixed_template
  (issuedAt address nonce sessionPubKey expirationTime : string) :
  constructSiweMessage issuedAt address nonce sessionPubKey expirationTime
  = Spec.siweTemplate
      "clara-proxy.bflynn-me.workers.dev" address
      ("Delegate signing authority to session key: " ++ sessionPubKey)
      "https://clara-proxy.bflynn-me.workers.dev" "8453"
      nonce issuedAt expirationTime
  /\ (Spec.singleLine address = true ->
      Spec.singleLine nonce = true ->
      Spec.singleLine sessionPubKey = true ->
      Spec.singleLine issuedAt = true ->
      Spec.singleLine expirationTime = true ->
      Spec.lines
        (constructSiweMessage issuedAt address nonce sessionPubKey expirationTime)
      = Spec.siweLines issuedAt address nonce sessionPubKey expirationTime).
Proof.
  split.
  - unfold constructSiweMessage, Spec.siweTemplate, join.
    cbn [String.concat]. change (stringOfInt 8453) with "8453".
    rewrite !string_app_assoc. reflexivity.
  - intros Ha Hn Hk Hi He.
    change (constructSiweMessage issuedAt address nonce sessionPubKey expirationTime)
      with (join LF (Spec.siweLines issuedAt address nonce sessionPubKey expirationTime)).
    apply lines_join; [|discriminate].
    unfold Spec.siweLines.
    repeat (apply Forall_cons;
            [first [reflexivity | assumption
                   | apply singleLine_app; [reflexivity | assumption]]|]).
    apply Forall_nil.
Qed.

(** The message built for a sample wallet splits into the eleven lines. *)
Lemma siwe_message_is_fixed_template_witness :
  Spec.lines (constructSiweMessage "2026-01-01T00:00:00.000Z" "0xA" "n0" "04ab"
                                   "2026-01-02T00:00:00.000Z")
  = Spec.siweLines "2026-01-01T00:00:00.000Z" "0xA" "n0" "04ab"
              "2026-01-02T00:00:00.000Z".
Proof.
  apply (proj2 (siwe_message_is_fixed_template
                  "2026-01-01T00:00:00.000Z" "0xA" "n0" "04ab"
                  "2026-01-02T00:00:00.000Z")); reflexivity.
Defined.

End Delegation.

(** ** Signature encoding *)

Section EncodingFacts.
Import JS Session.


Lemma numberToBytesBE_length (x : Z) (len : nat) :
  List.length (Secp.numberToBytesBE x len) = len.
Proof. unfold Secp.numberToBytesBE. now rewrite length_map, length_seq. Qed.

Lemma byteOfZ_mod (z : Z) : byteOfZ (z mod 256) = byteOfZ z.
Proof. unfold byteOfZ. now rewrite Z.mod_mod by lia. Qed.




Lemma setIndex_at_length (l : list byte) (x b : byte) (t : list byte) :
  setIndex (List.length l) b (l ++ x :: t)%list = (l ++ b :: t)%list.
Proof. induction l as [|y l IH]; simpl; [reflexivity | now rewrite IH]. Qed.

(** The 65 bytes are [r], [s] and the recovery byte, in this order. *)
Lemma encodeSignature_layout (sig : Secp.Signature) :
  encodeSignature sig
  = Some (Secp.numberToBytesBE (Secp.r sig) 32
          ++ Secp.numberToBytesBE (Secp.s sig) 32
          ++ [byteOfZ (Secp.recovery sig + 27)])%list.
Proof.
  unfold encodeSignature, typedArraySet.
  assert (List.length (Secp.toCompactRawBytes sig) = 64%nat) as L.
  { unfold Secp.toCompactRawBytes.
    now rewrite length_app, !numberToBytesBE_length. }
  rewrite L. change (skipn 64 (newUint8Array 65)) with [x00].
  change (64 <=? List.length (newUint8Array 65))%nat with true. cbv iota.
  rewrite <- L at 1. rewrite setIndex_at_length.
  unfold Secp.toCompactRawBytes. now rewrite <- app_assoc.
Qed.


End EncodingFacts.

(** ** Per-request signing *)

Section RequestSigning.
Import JS Session.
Local Open Scope string_scope.
Variable rt : Runtime.
Variable env : Env.

Lemma sha256hex_bytes (text : string) :
  hexToBytes (sha256hex rt text) = sha256 rt (utf8 text).
Proof. apply (hexToBytes_bytesToHex (sha256 rt (utf8 text))). Qed.

(** What [signRequest] does: it draws the nonce and reads the clock, then
    for a key the library accepts it returns the headers built from the
    encoded signature, and for any other key it throws at the signing
    step. *)
Lemma signRequest_runs
  (session : SessionData) (method path body : string) (w : World) :
  let nonce := randomUUID env (randomDraws w) in
  let timestamp := stringOfInt (clock env (clockReads w) / 1000) in
  let key := hexToBytes (sessionPrivateKey session) in
  let sig :=
    Secp.normalizeS
      (Secp.rawSign rt
         (hexToBytes
            (sha256hex rt
               (canonicalMessage method path (sha256hex rt body) timestamp nonce)))
         key) in
  signRequest rt env session method path body w
  = (if Secp.isPrivateKey key
     then Return
            [("X-Clara-Address", address session);
             ("X-Clara-Session", sessionId session);
             ("X-Clara-Signature",
              "0x" ++ bytesToHex (Secp.numberToBytesBE (Secp.r sig) 32
                                  ++ Secp.numberToBytesBE (Secp.s sig) 32
                                  ++ [byteOfZ (Secp.recovery sig + 27)])%list);
             ("X-Clara-Timestamp", timestamp);
             ("X-Clara-Nonce", nonce)]
     else Throw InvalidPrivateKey,
     tickClock (tickRandom w)).
Proof.
  intros nonce timestamp key sig.
  unfold signRequest, bind, drawUUID, dateNow, Secp.signAsync.
  cbn [clockReads tickRandom].
  fold nonce. fold timestamp. fold key.
  destruct (Secp.isPrivateKey key); [|reflexivity].
  unfold ret. fold sig. now rewrite encodeSignature_layout.
Qed.

Lemma isPrivateKey_spec (key : list byte) :
  Secp.isPrivateKey key = true
  <-> List.length key = 32%nat /\ 0 < Secp.bytesToNumberBE key < Secp.n.
Proof.
  unfold Secp.isPrivateKey.
  rewrite !andb_true_iff, Nat.eqb_eq, !Z.ltb_lt. tauto.
Qed.

(** The six lines of the canonical message, written out. *)
Lemma canonicalMessage_lines (method path bodyDigest timestamp nonce : string) :
  canonicalMessage method path bodyDigest timestamp nonce
  = "CLARA-REQUEST-SIG-V1" ++ LF ++ method ++ LF ++ path ++ LF
    ++ "sha256:" ++ bodyDigest ++ LF ++ timestamp ++ LF ++ nonce.
Proof.
  unfold canonicalMessage, join. cbn [String.concat].
  rewrite !string_app_assoc. reflexivity.
Qed.

(** C8, as amended.  For every method, path and body and every session whose
    private key is the hexadecimal text of a key the signature library
    accepts (32 bytes, a scalar from 1 to n - 1), [signRequest] builds the
    canonical message of six lines joined by line feeds (the protocol tag
    CLARA-REQUEST-SIG-V1, the method, the path, "sha256:" followed by the
    hex SHA-256 digest of the body, the unix-seconds timestamp and a random
    nonce), hashes that message with SHA-256, signs the 32-byte hash with
    the session private key (low-S), and returns exactly the five headers
    address, session id, signature, timestamp and nonce.  For a session
    with any other key it throws at the signing step and returns no
    headers. *)
Theorem signRequest_headers
  (session : SessionData) (method path body : string) (w : World) :
  let nonce := randomUUID env (randomDraws w) in
  let timestamp := stringOfInt (clock env (clockReads w) / 1000) in
  let canonical :=
    "CLARA-REQUEST-SIG-V1" ++ LF ++ method ++ LF ++ path ++ LF
    ++ "sha256:" ++ bytesToHex (sha256 rt (utf8 body)) ++ LF
    ++ timestamp ++ LF ++ nonce in
  let key := hexToBytes (sessionPrivateKey session) in
  let sig :=
    Secp.normalizeS (Secp.rawSign rt (sha256 rt (utf8 canonical)) key) in
  (List.length key = 32%nat /\ 0 < Secp.bytesToNumberBE key < Secp.n ->
   signRequest rt env session method path body w
   = (Return
        [("X-Clara-Address", address session);
         ("X-Clara-Session", sessionId session);
         ("X-Clara-Signature",
          "0x" ++ bytesToHex (Secp.numberToBytesBE (Secp.r sig) 32
                              ++ Secp.numberToBytesBE (Secp.s sig) 32
                              ++ [byteOfZ (Secp.recovery sig + 27)])%list);
         ("X-Clara-Timestamp", timestamp);
         ("X-Clara-Nonce", nonce)],
      tickClock (tickRandom w)))
  /\ (~ (List.length key = 32%nat /\ 0 < Secp.bytesToNumberBE key < Secp.n) ->
      signRequest rt env session method path body w
      = (Throw InvalidPrivateKey, tickClock (tickRandom w))).
Proof.
  intros nonce timestamp canonical key sig.
  rewrite signRequest_runs. fold nonce. fold timestamp. fold key.
  rewrite canonicalMessage_lines, sha256hex_bytes.
  change (sha256hex rt body) with (bytesToHex (sha256 rt (utf8 body))).
  fold canonical. fold sig.
  destruct (Secp.isPrivateKey key) eqn:K; split; intros H.
  - reflexivity.
  - elim H. now apply isPrivateKey_spec.
  - apply isPrivateKey_spec in H. congruence.
  - reflexivity.
Qed.


End RequestSigning.

(** ** The session manager *)

Section SessionManager.
Import JS Session.
Local Open Scope string_scope.
Variable rt : Runtime.
Variable env : Env.

Ltac branch H :=
  match type of H with
  | context [match ?e with Some _ => _ | None => _ end] => destruct e eqn:?
  | context [if ?b then _ else _] => destruct b eqn:?
  end; cbv beta iota in H.

Ltac world_fields :=
  cbn [trace sessionFile walletFile currentMaxCost fetchWithPayment
       clockReads randomDraws pushRequest tickClock tickRandom
       setSessionFile setCurrentMaxCost setFetchWithPayment].

Ltac world_fields_in H :=
  cbn [trace sessionFile walletFile currentMaxCost fetchWithPayment
       clockReads randomDraws pushRequest tickClock tickRandom
       setSessionFile setCurrentMaxCost setFetchWithPayment] in H.

Ltac prefix_of_establishment :=
  first [ exists 0%nat; reflexivity | exists 1%nat; reflexivity
        | exists 2%nat; reflexivity | exists 3%nat; reflexivity ].

(** What one run of [establishSession] sends and leaves behind: a prefix of
    the three calls, all three and the stored record when it returns, and
    the expiry the session endpoint answered. *)
Lemma establishSession_calls (walletId addr : string) (w : World)
  (o : Outcome SessionData) (w' : World) :
  establishSession rt env walletId addr w = (o, w') ->
  exists sent,
    trace w' = (trace w ++ sent)%list
    /\ walletFile w' = walletFile w
    /\ currentMaxCost w' = currentMaxCost w
    /\ fetchWithPayment w' = fetchWithPayment w
    /\ (exists k, map call sent = firstn k (establishmentCalls walletId))
    /\ (forall r, o = Return r ->
         map call sent = establishmentCalls walletId
         /\ sessionFile w' = Stored r
         /\ exists history q res created,
              sessionEndpoint env history q = Some res
              /\ jsonBody res = Some created
              /\ expiresAt r = sc_expiresAt created).
Proof.
  intros H.
  unfold establishSession, generateSessionKeypair in H.
  unfold bind, fetch, resJson, drawPrivateKey, dateNow, modify, ret, throw in H.
  cbv beta iota in H.
  repeat branch H;
    injection H as <- <-; world_fields; rewrite <- ?app_assoc;
    (eexists; split; [reflexivity|]);
    (split; [reflexivity|]); (split; [reflexivity|]); (split; [reflexivity|]);
    (split; [prefix_of_establishment|]);
    intros got Hgot; try discriminate Hgot.
  injection Hgot as <-. split; [reflexivity|]. split; [reflexivity|].
  eauto 10.
Qed.

(** With the gateway up, [establishSession] returns. *)
Lemma establishSession_returns (walletId addr : string) (w : World) :
  gatewayUp env ->
  exists r w', establishSession rt env walletId addr w = (Return r, w').
Proof.
  intros (Hn & Hs & Hc).
  unfold establishSession, generateSessionKeypair.
  unfold bind, fetch, resJson, drawPrivateKey, dateNow, modify, ret, throw.
  cbv beta iota.
  destruct (Hn (trace w) nonceRequest) as (nres & nonce & E1 & O1 & J1 & _).
  rewrite E1. cbv beta iota. rewrite O1, J1. cbv beta iota delta [negb].
  match goal with
  | |- context [signRawEndpoint env ?h ?q] =>
      destruct (Hs h q) as (sres & sd & E2 & O2 & J2 & F2)
  end.
  rewrite E2. cbv beta iota. rewrite O2, J2. cbv beta iota delta [negb].
  destruct (orElse (signature sd) (result sd)) as [sigText|] eqn:Esig;
    [|discriminate F2].
  rewrite F2. cbv beta iota.
  match goal with
  | |- context [sessionEndpoint env ?h ?q] =>
      destruct (Hc h q) as (cres & created & E3 & O3 & J3 & _)
  end.
  rewrite E3. cbv beta iota. rewrite O3, J3. cbv beta iota delta [negb].
  eauto.
Qed.

(** A run of [establishSession] that throws has not written the session
    file. *)
Lemma establishSession_throws (walletId addr : string) (w : World)
  (e : Error) (w' : World) :
  establishSession rt env walletId addr w = (Throw e, w') ->
  sessionFile w' = sessionFile w.
Proof.
  intros H.
  unfold establishSession, generateSessionKeypair in H.
  unfold bind, fetch, resJson, drawPrivateKey, dateNow, modify, ret, throw in H.
  cbv beta iota in H.
  repeat branch H; try discriminate H; injection H as _ <-; reflexivity.
Qed.

(** A run of [establishSession] that returns, step by step: the nonce the
    gateway answered, the one key drawn, the delegation message built from
    them, its hash sent to sign-raw, the signature answered sent with the
    message to the session endpoint, and the record built from the answer,
    stored and returned. *)
Lemma establishSession_record (walletId addr : string) (w : World)
  (r : SessionData) (w' : World) :
  establishSession rt env walletId addr w = (Return r, w') ->
  let key := randomPrivateKey env (randomDraws w) in
  let pub := bytesToHex (getPublicKey rt key) in
  let expiration :=
    toISOString rt (clock env (clockReads w) + 24 * 60 * 60 * 1000) in
  let issued := toISOString rt (clock env (S (clockReads w))) in
  exists nres nonce sres sd sigText cres created,
    let siweMessage := constructSiweMessage issued addr nonce pub expiration in
    let q2 := bootstrapSignRequest rt walletId addr (hashMessage rt siweMessage) in
    let q3 := createSessionRequest rt siweMessage sigText pub in
    nonceEndpoint env (trace w) nonceRequest = Some nres
    /\ jsonBody nres = Some nonce
    /\ signRawEndpoint env (trace w ++ [nonceRequest])%list q2 = Some sres
    /\ jsonBody sres = Some sd
    /\ orElse (signature sd) (result sd) = Some sigText
    /\ sigText <> ""
    /\ sessionEndpoint env (trace w ++ [nonceRequest; q2])%list q3 = Some cres
    /\ jsonBody cres = Some created
    /\ trace w' = (trace w ++ [nonceRequest; q2; q3])%list
    /\ r = {| sessionId := sc_sessionId created;
              address := toLowerCase addr;
              sessionPrivateKey := bytesToHex key;
              sessionPublicKey := pub;
              expiresAt := sc_expiresAt created;
              createdAt := toISOString rt (clock env (S (S (clockReads w)))) |}
    /\ sessionFile w' = Stored r
    /\ randomDraws w' = S (randomDraws w)
    /\ clockReads w' = S (S (S (clockReads w))).
Proof.
  intros H key pub expiration issued.
  unfold establishSession, generateSessionKeypair in H.
  unfold bind, fetch, resJson, drawPrivateKey, dateNow, modify, ret, throw in H.
  cbv beta iota in H. world_fields_in H.
  destruct (nonceEndpoint env (trace w) nonceRequest) as [nres|] eqn:E1;
    cbv beta iota in H; [|discriminate H].
  destruct (negb (ok nres)); cbv beta iota in H; [discriminate H|].
  destruct (jsonBody nres) as [nonce|] eqn:J1; cbv beta iota in H;
    [|discriminate H].
  world_fields_in H. fold key in H. fold pub in H. fold expiration in H.
  fold issued in H.
  set (siweMessage := constructSiweMessage issued addr nonce pub expiration) in *.
  set (q2 := bootstrapSignRequest rt walletId addr (hashMessage rt siweMessage))
    in *.
  destruct (signRawEndpoint env (trace w ++ [nonceRequest])%list q2)
    as [sres|] eqn:E2; cbv beta iota in H; [|discriminate H].
  destruct (negb (ok sres)); cbv beta iota in H; [discriminate H|].
  destruct (jsonBody sres) as [sd|] eqn:J2; cbv beta iota in H;
    [|discriminate H].
  destruct (orElse (signature sd) (result sd)) as [sigText|] eqn:Esig;
    cbv beta iota in H; [|discriminate H].
  destruct (falsy (Some sigText)) eqn:F; cbv beta iota in H; [discriminate H|].
  world_fields_in H. rewrite <- app_assoc in H. cbn [app] in H.
  set (q3 := createSessionRequest rt siweMessage sigText pub) in *.
  destruct (sessionEndpoint env (trace w ++ [nonceRequest; q2])%list q3)
    as [cres|] eqn:E3; cbv beta iota in H; [|discriminate H].
  destruct (negb (ok cres)); cbv beta iota in H; [discriminate H|].
  destruct (jsonBody cres) as [created|] eqn:J3; cbv beta iota in H;
    [|discriminate H].
  injection H as <- <-. world_fields.
  exists nres, nonce, sres, sd, sigText, cres, created. cbv zeta.
  fold siweMessage. fold q2. fold q3.
  repeat (split;
          [first [ reflexivity | assumption | intros ->; discriminate F
                 | now rewrite <- !app_assoc ]|]).
  reflexivity.
Qed.

End SessionManager.

Section SessionClaims.
Import JS Session.
Local Open Scope string_scope.
Variable rt : Runtime.
Variable env : Env.

(** C5.  If a persisted session record exists whose expiry is strictly
    greater than now plus the 5-minute buffer, [getSession] returns that
    record unchanged and sends nothing; a second call under the same
    condition returns the identical record, again with no request sent. *)
Theorem session_reuse (walletId addr : string) (w : World) (session : SessionData) :
  sessionFile w = Stored session ->
  validAt (clock env (clockReads w)) session ->
  let first := getSession rt env walletId addr w in
  fst first = Return session
  /\ trace (snd first) = trace w
  /\ sessionFile (snd first) = Stored session
  /\ (validAt (clock env (clockReads (snd first))) session ->
      let second := getSession rt env walletId addr (snd first) in
      fst second = Return session
      /\ trace (snd second) = trace w
      /\ sessionFile (snd second) = Stored session).
Proof.
  intros Hfile Hvalid.
  assert (forall v, sessionFile v = Stored session ->
                    validAt (clock env (clockReads v)) session ->
                    getSession rt env walletId addr v = (Return session, tickClock v))
    as Reuse.
  { intros v Hf Hv. unfold getSession, bind, gets, dateNow. rewrite Hf.
    cbv beta iota. unfold validAt in Hv. apply Z.ltb_lt in Hv. now rewrite Hv. }
  cbv zeta. rewrite (Reuse w Hfile Hvalid). cbn [fst snd].
  split; [reflexivity|]. split; [reflexivity|]. split; [exact Hfile|].
  intros Hsecond. cbv zeta.
  rewrite (Reuse (tickClock w) Hfile Hsecond). cbn [fst snd].
  split; [reflexivity|]. split; [reflexivity | exact Hfile].
Qed.

(** C6.  When the persisted session is expired or within the buffer,
    [getSession] runs one establishment and nothing more.  The requests it
    sends are a prefix of (nonce fetch, sign-raw, session create), each at
    most once and in that order.  When it returns, exactly these three were
    sent: the nonce fetch; the sign-raw call carrying the hash of the
    delegation message built from the nonce answered, the public key of the
    one key drawn and the clock; the session-create call carrying that
    message, the signature sign-raw answered and that public key.  The
    record returned is the new one, built from the session endpoint's
    answer and the key drawn, and it has replaced the stored one.  When it
    throws, nothing is retried and the stored record is still the old one.
    With the gateway answering, it does return. *)
Theorem forced_renewal (walletId addr : string) (w : World) (old : SessionData)
  (o : Outcome SessionData) (w' : World) :
  sessionFile w = Stored old ->
  ~ validAt (clock env (clockReads w)) old ->
  getSession rt env walletId addr w = (o, w') ->
  let key := randomPrivateKey env (randomDraws w) in
  let pub := bytesToHex (getPublicKey rt key) in
  let expiration :=
    toISOString rt (clock env (S (clockReads w)) + 24 * 60 * 60 * 1000) in
  let issued := toISOString rt (clock env (S (S (clockReads w)))) in
  exists sent,
    trace w' = (trace w ++ sent)%list
    /\ (exists k, map call sent = firstn k (establishmentCalls walletId))
    /\ (forall r, o = Return r ->
          exists nres nonce sres sd sigText cres created,
            let siweMessage :=
              constructSiweMessage issued addr nonce pub expiration in
            let q1 :=
              {| url := CLARA_PROXY ++ "/auth/nonce"; method := "GET";
                 headers := []; body := None |} in
            let q2 :=
              {| url := CLARA_PROXY ++ "/api/v1/wallets/" ++ walletId
                        ++ "/sign-raw";
                 method := "POST";
                 headers := [("Content-Type", "application/json");
                             ("X-Clara-Address", addr)];
                 body := Some (JSON_stringify rt
                                 (JObject [("data",
                                            JString (hashMessage rt siweMessage))])) |} in
            let q3 :=
              {| url := CLARA_PROXY ++ "/auth/session"; method := "POST";
                 headers := [("Content-Type", "application/json")];
                 body := Some (JSON_stringify rt
                                 (JObject [("siweMessage", JString siweMessage);
                                           ("signature", JString sigText);
                                           ("sessionPublicKey", JString pub)])) |} in
            sent = [q1; q2; q3]
            /\ nonceEndpoint env (trace w) q1 = Some nres
            /\ jsonBody nres = Some nonce
            /\ signRawEndpoint env (trace w ++ [q1])%list q2 = Some sres
            /\ jsonBody sres = Some sd
            /\ orElse (signature sd) (result sd) = Some sigText
            /\ sigText <> ""
            /\ sessionEndpoint env (trace w ++ [q1; q2])%list q3 = Some cres
            /\ jsonBody cres = Some created
            /\ r = {| sessionId := sc_sessionId created;
                      address := toLowerCase addr;
                      sessionPrivateKey := bytesToHex key;
                      sessionPublicKey := pub;
                      expiresAt := sc_expiresAt created;
                      createdAt :=
                        toISOString rt
                          (clock env (S (S (S (clockReads w))))) |}
            /\ sessionFile w' = Stored r
            /\ randomDraws w' = S (randomDraws w))
    /\ (forall e, o = Throw e -> sessionFile w' = Stored old)
    /\ (gatewayUp env -> exists r, o = Return r).
Proof.
  intros Hfile Hexpired Hrun key pub expiration issued.
  unfold getSession, bind, gets, dateNow in Hrun. rewrite Hfile in Hrun.
  cbv beta iota in Hrun.
  destruct (clock env (clockReads w) + bufferMs <? expiresAt old)%Z eqn:E.
  { apply Z.ltb_lt in E. contradiction. }
  destruct (establishSession_calls rt env _ _ _ _ _ Hrun)
    as (sent & Htrace & _ & _ & _ & Hprefix & _).
  cbn [trace tickClock] in Htrace.
  exists sent. split; [exact Htrace|]. split; [exact Hprefix|]. split; [|split].
  - intros r ->.
    destruct (establishSession_record rt env _ _ _ _ _ Hrun)
      as (nres & nonce & sres & sd & sigText & cres & created & Hrec).
    cbv zeta in Hrec. cbn [trace clockReads randomDraws tickClock] in Hrec.
    destruct Hrec as (E1 & J1 & E2 & J2 & Esig & Hne & E3 & J3 & Hsent & Hr
                      & Hstored & Hdraw & _).
    exists nres, nonce, sres, sd, sigText, cres, created. cbv zeta.
    rewrite Htrace in Hsent. apply app_inv_head in Hsent.
    split; [exact Hsent|]. split; [exact E1|]. split; [exact J1|].
    split; [exact E2|]. split; [exact J2|]. split; [exact Esig|].
    split; [exact Hne|]. split; [exact E3|]. split; [exact J3|].
    split; [exact Hr|]. split; [exact Hstored | exact Hdraw].
  - intros e ->. rewrite (establishSession_throws rt env _ _ _ _ _ Hrun).
    exact Hfile.
  - intros Hup.
    destruct (establishSession_returns rt env walletId addr (tickClock w) Hup)
      as (r & w2 & Hret).
    rewrite Hret in Hrun. injection Hrun as <- _. now exists r.
Qed.

(** C3, as amended.  A record returned by [getSession] is either the
    persisted one, whose expiry exceeds the clock reading of the check plus
    the 5-minute buffer, or a freshly established one, which carries the
    expiry the session endpoint answered, not compared with the clock. *)
Theorem returned_session_validity (walletId addr : string) (w : World)
  (r : SessionData) (w' : World) :
  getSession rt env walletId addr w = (Return r, w') ->
  (sessionFile w = Stored r
   /\ validAt (clock env (clockReads w)) r
   /\ trace w' = trace w)
  \/ (sessionFile w' = Stored r
      /\ exists history q res created,
           sessionEndpoint env history q = Some res
           /\ jsonBody res = Some created
           /\ expiresAt r = sc_expiresAt created).
Proof.
  intros Hrun. unfold getSession, bind, gets, dateNow in Hrun.
  destruct (sessionFile w) as [| |stored] eqn:Hfile; cbv beta iota in Hrun.
  - right. destruct (establishSession_calls rt env _ _ _ _ _ Hrun)
      as (sent & _ & _ & _ & _ & _ & Hdone).
    destruct (Hdone r eq_refl) as (_ & Hstored & Hfrom). now split.
  - discriminate Hrun.
  - destruct (clock env (clockReads w) + bufferMs <? expiresAt stored)%Z eqn:E.
    + left. injection Hrun as <- <-. apply Z.ltb_lt in E. now repeat split.
    + right. destruct (establishSession_calls rt env _ _ _ _ _ Hrun)
        as (sent & _ & _ & _ & _ & _ & Hdone).
      destruct (Hdone r eq_refl) as (_ & Hstored & Hfrom). now split.
Qed.

End SessionClaims.

(** ** The payment client *)

Section PaymentClient.
Import JS Client.
Local Open Scope string_scope.
Variable rt : Runtime.
Variable env : Env.

Ltac world_fields :=
  cbn [trace sessionFile walletFile currentMaxCost fetchWithPayment
       clockReads randomDraws pushRequest tickClock tickRandom
       setSessionFile setCurrentMaxCost setFetchWithPayment].

(** [getFetchWithPayment] on a ready world: it returns the client and at
    most remembers it. *)
Lemma getFetchWithPayment_ready (w : World) :
  ready w = true ->
  exists wallet,
    getFetchWithPayment w = (Return wallet, setFetchWithPayment (Some wallet) w).
Proof.
  unfold ready, getFetchWithPayment, loadWallet, bind, gets, modify, ret, throw.
  destruct w as [sf wf cur memo tr cr rd]. cbn.
  destruct memo as [p|]; [intros _; now exists p|].
  destruct wf as [| |p]; [discriminate | discriminate | intros _; now exists p].
Qed.

(** Without a wallet nothing is written. *)
Lemma getFetchWithPayment_not_ready (w : World) :
  ready w = false ->
  exists e, getFetchWithPayment w = (Throw e, w).
Proof.
  unfold ready, getFetchWithPayment, loadWallet, bind, gets, ret, throw.
  destruct (fetchWithPayment w); [discriminate|].
  destruct (walletFile w); [| |discriminate]; intros _;
    eexists; reflexivity.
Qed.

(** [x402Fetch] is the wrapped fetch between the two writes of the cap. *)
Lemma x402Fetch_unfold (u : string) (init : option RequestInit)
  (cap : option float) (w : World) (wallet : Wallet.WalletData) (w0 : World) :
  getFetchWithPayment w = (Return wallet, w0) ->
  x402Fetch rt env u init cap w
  = (fst (payFetch rt env wallet u init (setCurrentMaxCost cap w0)),
     setCurrentMaxCost None
       (snd (payFetch rt env wallet u init (setCurrentMaxCost cap w0)))).
Proof.
  intros H. unfold x402Fetch, bind, modify, tryFinally. rewrite H.
  cbv beta iota.
  now destruct (payFetch rt env wallet u init (setCurrentMaxCost cap w0)).
Qed.

(** The wrapper returns any response that is not payment-required. *)
Lemma payFetch_passes (wallet : Wallet.WalletData) (u : string)
  (init : option RequestInit) (v : World) (res : Response PaymentRequired) :
  targetEndpoint env (trace v) (mkRequest u init) = Some res ->
  status res <> 402 ->
  payFetch rt env wallet u init v = (Return res, pushRequest (mkRequest u init) v).
Proof.
  intros Hres Hstatus. unfold payFetch, wrapFetchWithPayment, bind, fetch, ret.
  rewrite Hres. cbv beta iota.
  apply Z.eqb_neq in Hstatus. now rewrite Hstatus.
Qed.

(** The wrapper stops at the guard when the cost exceeds the cap in force. *)
Lemma payFetch_aborts (wallet : Wallet.WalletData) (u : string)
  (init : option RequestInit) (v : World) (cap : float)
  (res : Response PaymentRequired) (required : PaymentRequired)
  (selected : PaymentRequirements) :
  currentMaxCost v = Some cap ->
  targetEndpoint env (trace v) (mkRequest u init) = Some res ->
  status res = 402 ->
  jsonBody res = Some required ->
  selectRequirement rt (accepts required) = Some selected ->
  PrimFloat.ltb cap (costUsd (maxAmountRequired selected)) = true ->
  payFetch rt env wallet u init v
  = (Throw (SpendingCapExceeded
              (abortReason
                 (toFixed (numberToString rt)
                          (costUsd (maxAmountRequired selected)) 4)
                 (numberToString rt cap))),
     pushRequest (mkRequest u init) v).
Proof.
  intros Hcap Hres Hstatus Hbody Hsel Hcost.
  unfold payFetch, wrapFetchWithPayment, bind, fetch, ret, throw.
  rewrite Hres. cbv beta iota. rewrite Hstatus, Hbody, Hsel.
  cbv beta iota delta [negb Z.eqb Pos.eqb].
  unfold spendingGuard, bind, gets, ret, guardDecision. world_fields.
  rewrite Hcap. cbv beta iota zeta. rewrite Hcost. cbv beta iota.
  unfold abortReason. reflexivity.
Qed.

(** A call run to completion with no other call in flight: whenever the
    service answers payment-required and the selected requirement's computed
    cost, [maxAmountRequired / 10^6], is strictly greater than the caller's
    cap, the call aborts with SpendingCapExceeded, whose reason carries the
    computed cost and the cap, and the only request ever sent is the
    caller's own: nothing reaches the custody gateway, the session file is
    untouched and neither the clock nor the random source is read by the
    signer.  In Scenario A (cap $0.0001, amount 1,000,000) the guard aborts
    and reports the cost as "$1.0000". *)
Lemma lone_call_is_refused :
  (forall (u : string) (init : option RequestInit) (cap : float) (w : World)
          (res : Response PaymentRequired) (required : PaymentRequired)
          (selected : PaymentRequirements),
      ready w = true ->
      targetEndpoint env (trace w) (mkRequest u init) = Some res ->
      status res = 402 ->
      jsonBody res = Some required ->
      selectRequirement rt (accepts required) = Some selected ->
      PrimFloat.ltb cap (costUsd (maxAmountRequired selected)) = true ->
      exists w',
        x402Fetch rt env u init (Some cap) w
        = (Throw (SpendingCapExceeded
                    (abortReason
                       (toFixed (numberToString rt)
                                (costUsd (maxAmountRequired selected)) 4)
                       (numberToString rt cap))),
           w')
        /\ trace w' = (trace w ++ [mkRequest u init])%list
        /\ sessionFile w' = sessionFile w
        /\ clockReads w' = clockReads w
        /\ randomDraws w' = randomDraws w
        /\ currentMaxCost w' = None)
  /\ (forall selected : PaymentRequirements,
        maxAmountRequired selected = 1000000%Z ->
        guardDecision (numberToString rt) (Some 0.0001%float) selected
        = Abort (abortReason "1.0000" (numberToString rt 0.0001%float))).
Proof.
  split.
  - intros u init cap w res required selected Hready Hres Hstatus Hbody Hsel Hcost.
    destruct (getFetchWithPayment_ready w Hready) as (wallet & Hget).
    rewrite (x402Fetch_unfold u init (Some cap) w wallet _ Hget).
    rewrite (payFetch_aborts wallet u init
               (setCurrentMaxCost (Some cap) (setFetchWithPayment (Some wallet) w))
               cap res required selected eq_refl Hres Hstatus Hbody Hsel Hcost).
    eexists. split; [reflexivity|]. now repeat split.
  - intros selected Hamount. unfold guardDecision. rewrite Hamount.
    change (PrimFloat.ltb 0.0001%float (costUsd 1000000)) with true.
    cbv beta iota zeta.
    change (toFixed (numberToString rt) (costUsd 1000000) 4) with "1.0000".
    unfold abortReason. reflexivity.
Qed.

(** C4, as amended.  For every response whose status is not
    payment-required, [x402Fetch] returns that response unchanged and sends
    only the caller's own request: no call to the signer or the custody
    gateway, the session and wallet files untouched, no clock or random
    read.  It does write the module variables: the client is remembered and
    the cap variable is left undefined. *)
Theorem pass_through (u : string) (init : option RequestInit)
  (cap : option float) (w : World) (res : Response PaymentRequired) :
  ready w = true ->
  targetEndpoint env (trace w) (mkRequest u init) = Some res ->
  status res <> 402 ->
  exists w',
    x402Fetch rt env u init cap w = (Return res, w')
    /\ trace w' = (trace w ++ [mkRequest u init])%list
    /\ sessionFile w' = sessionFile w
    /\ walletFile w' = walletFile w
    /\ clockReads w' = clockReads w
    /\ randomDraws w' = randomDraws w
    /\ fetchWithPayment w' <> None
    /\ currentMaxCost w' = None.
Proof.
  intros Hready Hres Hstatus.
  destruct (getFetchWithPayment_ready w Hready) as (wallet & Hget).
  rewrite (x402Fetch_unfold u init cap w wallet _ Hget).
  rewrite (payFetch_passes wallet u init
             (setCurrentMaxCost cap (setFetchWithPayment (Some wallet) w))
             res Hres Hstatus).
  eexists. split; [reflexivity|]. world_fields. now repeat split.
Qed.

(** C10.  Whatever a call to [x402Fetch] does once it has its client (the
    wrapped fetch returning or throwing), it leaves [_currentMaxCost]
    undefined; a call that fails before that leaves the variable as it
    found it; hence, for calls made one after the other from the initial
    undefined value, the variable is undefined again whenever the next call
    begins. *)
Theorem cap_reset_after_every_call (u : string) (init : option RequestInit)
  (cap : option float) (w : World) (o : Outcome (Response PaymentRequired))
  (w' : World) :
  x402Fetch rt env u init cap w = (o, w') ->
  (ready w = true -> currentMaxCost w' = None)
  /\ (ready w = false -> currentMaxCost w' = currentMaxCost w)
  /\ (currentMaxCost w = None ->
      currentMaxCost w' = None
      /\ forall calls k,
           currentMaxCost (inSequence rt env (firstn k calls) w) = None).
Proof.
  intros Hrun.
  assert (forall v, ready v = true ->
            forall u1 i1 c1,
              currentMaxCost (snd (x402Fetch rt env u1 i1 c1 v)) = None) as Reset.
  { intros v Hv u1 i1 c1.
    destruct (getFetchWithPayment_ready v Hv) as (wallet & Hget).
    now rewrite (x402Fetch_unfold u1 i1 c1 v wallet _ Hget). }
  assert (forall v, ready v = false ->
            forall u1 i1 c1,
              snd (x402Fetch rt env u1 i1 c1 v) = v) as Early.
  { intros v Hv u1 i1 c1.
    destruct (getFetchWithPayment_not_ready v Hv) as (e & Hget).
    unfold x402Fetch, bind. now rewrite Hget. }
  assert (forall v u1 i1 c1, currentMaxCost v = None ->
            currentMaxCost (snd (x402Fetch rt env u1 i1 c1 v)) = None) as Keep.
  { intros v u1 i1 c1 Hv. destruct (ready v) eqn:R.
    - now apply Reset.
    - now rewrite Early. }
  assert (forall calls v, currentMaxCost v = None ->
            forall k, currentMaxCost (inSequence rt env (firstn k calls) v) = None)
    as Seq.
  { induction calls as [|c calls IH]; intros v Hv k.
    - now destruct k.
    - destruct k as [|k]; [exact Hv|].
      cbn [firstn inSequence]. apply IH. now apply Keep. }
  replace w' with (snd (x402Fetch rt env u init cap w)) by now rewrite Hrun.
  split; [intros R; now apply Reset|].
  split; [intros R; now rewrite Early|].
  intros Hnone. split; [now apply Keep|].
  intros calls k. now apply Seq.
Qed.

End PaymentClient.

(** ** Overlapping calls *)

Section Overlap.
Import Client Interleaving.
Local Open Scope string_scope.
Variable rt : Runtime.

(** C2.  The cap travels in the module variable [_currentMaxCost], so the
    guard of one call can read the cap of another.  Call A (cap $0.0001,
    service asking $1.00) is refused when it runs alone; when call B (cap
    $10) starts while A still awaits its response, A's guard reads B's cap
    and lets the $1.00 payment through; when B has already finished, A's
    guard finds the variable undefined and is skipped.  The guard decision
    of a call does not depend on its own cap only. *)
Theorem concurrent_calls_share_the_cap :
  let nts := numberToString rt in
  let calls := [Sample.callA; Sample.callB] in
  let start := initial (Sample.world Absent None) calls in
  let guardOfA cfg := nth_error (phases cfg) 0 in
  guardDecision nts (cap Sample.callA) (demanded Sample.callA)
  = Abort (abortReason "1.0000" (nts 0.0001%float))
  /\ option_map guardOfA
       (run nts calls [Invoke 0; PaymentRequiredArrives 0] start)
     = Some (Some (Finished (Aborted (abortReason "1.0000" (nts 0.0001%float)))))
  /\ option_map guardOfA
       (run nts calls [Invoke 0; Invoke 1; PaymentRequiredArrives 0] start)
     = Some (Some Paying)
  /\ option_map guardOfA
       (run nts calls
            [Invoke 0; Invoke 1; OtherResponseArrives 1; PaymentRequiredArrives 0]
            start)
     = Some (Some Paying)
  /\ ~ isolated nts calls (Sample.world Absent None).
Proof.
  intros nts calls start guardOfA.
  assert (guardDecision nts (cap Sample.callA) (demanded Sample.callA)
          = Abort (abortReason "1.0000" (nts 0.0001%float))) as Alone
    by (vm_compute; reflexivity).
  assert (option_map guardOfA
            (run nts calls [Invoke 0; Invoke 1; PaymentRequiredArrives 0] start)
          = Some (Some Paying)) as Bleed
    by (vm_compute; reflexivity).
  split; [exact Alone|].
  split; [vm_compute; reflexivity|].
  split; [exact Bleed|].
  split; [vm_compute; reflexivity|].
  intros Hiso.
  destruct (run nts calls [Invoke 0; Invoke 1; PaymentRequiredArrives 0] start)
    as [cfg|] eqn:E; [|discriminate Bleed].
  cbn [option_map] in Bleed. injection Bleed as Hphase.
  specialize (Hiso _ cfg 0%nat Sample.callA Paying Proceed E eq_refl Hphase eq_refl).
  rewrite Alone in Hiso. discriminate Hiso.
Qed.

Lemma nth_error_setPhase_same (i : nat) (p : Phase) (ps : list Phase) :
  (i < List.length ps)%nat -> nth_error (setPhase i p ps) i = Some p.
Proof.
  revert i. induction ps as [|q ps IH]; intros [|i] H; simpl in *;
    try lia; [reflexivity | apply IH; lia].
Qed.

Lemma nth_error_setPhase_other (i j : nat) (p : Phase) (ps : list Phase) :
  i <> j -> nth_error (setPhase i p ps) j = nth_error ps j.
Proof.
  revert i j. induction ps as [|q ps IH]; intros [|i] [|j] H; simpl;
    try reflexivity; try congruence.
  apply IH. congruence.
Qed.

Lemma step_keeps_capOwned (calls : list Call) (ev : Event) (cfg cfg' : Config) :
  capOwned calls cfg ->
  step (numberToString rt) calls ev cfg = Some cfg' ->
  capOwned calls cfg'.
Proof.
  intros Inv Hstep. destruct ev as [i|i|i|i]; cbn [step] in Hstep.
  - destruct (nth_error calls i) as [c|] eqn:Hc; [|discriminate].
    destruct (nth_error (phases cfg) i) as [[| | |o]|] eqn:Hp; try discriminate.
    injection Hstep as <-. right. exists i, c, AwaitingResponse.
    cbn [shared phases currentMaxCost setCurrentMaxCost].
    repeat split; try assumption.
    apply nth_error_setPhase_same. apply nth_error_Some. congruence.
  - destruct (nth_error calls i) as [c|] eqn:Hc; [|discriminate].
    destruct (nth_error (phases cfg) i) as [[| | |o]|] eqn:Hp; try discriminate.
    destruct (guardDecision (numberToString rt) (currentMaxCost (shared cfg))
                            (demanded c)) as [|reason];
      injection Hstep as <-; [|now left].
    destruct Inv as [Hnone|(j & cj & pj & Hcj & Hpj & Hfl & Hcap)]; [now left|].
    right. cbn [shared phases].
    destruct (Nat.eq_dec i j) as [->|Hne].
    + exists j, cj, Paying. repeat split; try assumption.
      apply nth_error_setPhase_same. apply nth_error_Some. congruence.
    + exists j, cj, pj. repeat split; try assumption.
      now rewrite nth_error_setPhase_other.
  - destruct (nth_error (phases cfg) i) as [[| | |o]|]; try discriminate.
    injection Hstep as <-. now left.
  - destruct (nth_error (phases cfg) i) as [[| | |o]|]; try discriminate.
    injection Hstep as <-. now left.
Qed.

(** Under any interleaving, [_currentMaxCost] is undefined or holds the cap
    of a call that has started and not yet completed: a cap never outlives
    its own call. *)
Lemma cap_belongs_to_a_call_in_flight (calls : list Call) (w : World) :
  currentMaxCost w = None ->
  forall schedule cfg,
    run (numberToString rt) calls schedule (initial w calls) = Some cfg ->
    capOwned calls cfg.
Proof.
  intros Hnone schedule.
  assert (forall start cfg, capOwned calls start ->
            run (numberToString rt) calls schedule start = Some cfg ->
            capOwned calls cfg) as Gen.
  { induction schedule as [|ev rest IH]; intros start cfg Inv Hrun.
    - injection Hrun as <-. exact Inv.
    - cbn [run] in Hrun.
      destruct (step (numberToString rt) calls ev start) as [next|] eqn:Hstep;
        [|discriminate].
      apply (IH next cfg); [|exact Hrun].
      exact (step_keeps_capOwned calls ev start next Inv Hstep). }
  intros cfg. apply Gen. now left.
Qed.

(** A call that runs alone is judged by its own cap. *)
Lemma lone_call_uses_its_cap (c : Call) (w : World) (cfg : Config) (d : HookResult) :
  run (numberToString rt) [c] [Invoke 0; PaymentRequiredArrives 0] (initial w [c])
  = Some cfg ->
  option_map decisionOf (nth_error (phases cfg) 0) = Some (Some d) ->
  d = guardDecision (numberToString rt) (cap c) (demanded c).
Proof.
  cbn [run step initial map nth_error phases shared setPhase].
  cbn [currentMaxCost setCurrentMaxCost].
  destruct (guardDecision (numberToString rt) (cap c) (demanded c)) as [|reason];
    intros [= <-]; cbn; now intros [= <-].
Qed.

End Overlap.

(** ** Concrete runs *)

Section Runs.
Import JS Session Client Interleaving.
Local Open Scope string_scope.

(** C1.  The claim fails when calls overlap.  Call A is capped at $0.0001
    and the service asks it 1,000,000 units: a computed cost of $1.00,
    strictly greater than the cap.  Run alone, A is refused by the guard,
    which reports the cost as "$1.0000".  When call B (cap $10) starts while
    A awaits its response, the module variable holds B's cap when A's 402
    arrives: the hook does not abort and A's payment goes on; the wrapped
    fetch resumed in that state sends the signing request to the custody
    gateway and sends the request again with the payment header. *)
Theorem overlapping_call_is_paid_beyond_its_cap :
  let nts := numberToString Sample.rt in
  let calls := [Sample.callA; Sample.callB] in
  let start := initial (Sample.world Absent None) calls in
  let phaseOfA cfg := nth_error (phases cfg) 0 in
  let u := "https://signal402.com/catalog" in
  PrimFloat.ltb 0.0001%float (costUsd 1000000) = true
  /\ option_map phaseOfA (run nts calls [Invoke 0; PaymentRequiredArrives 0] start)
     = Some (Some (Finished (Aborted (abortReason "1.0000" (nts 0.0001%float)))))
  /\ exists cfg,
       run nts calls [Invoke 0; Invoke 1] start = Some cfg
       /\ currentMaxCost (shared cfg) = Some 10%float
       /\ spendingGuard Sample.rt (demanded Sample.callA) (shared cfg)
          = (Return Proceed, shared cfg)
       /\ option_map phaseOfA
            (run nts calls [PaymentRequiredArrives 0; PaymentCompletes 0] cfg)
          = Some (Some (Finished Paid))
       /\ exists res w' signing paying,
            payFetch Sample.rt Sample.paidEnv Sample.wallet u None (shared cfg)
            = (Return res, w')
            /\ map call (trace w')
               = [("GET", u);
                  ("GET", CLARA_PROXY ++ "/auth/nonce");
                  ("POST", CLARA_PROXY ++ "/api/v1/wallets/w1/sign-raw");
                  ("POST", CLARA_PROXY ++ "/auth/session");
                  ("POST", CLARA_PROXY ++ "/api/v1/wallets/w1/sign-raw");
                  ("GET", u)]
            /\ nth_error (trace w') 4 = Some signing
            /\ In ("X-Clara-Session", "s1") (headers signing)
            /\ nth_error (trace w') 5 = Some paying
            /\ In (PAYMENT_HEADER, "0xsig") (headers paying).
Proof.
  intros nts calls start phaseOfA u.
  split; [vm_compute; reflexivity|].
  split; [vm_compute; reflexivity|].
  eexists. split; [vm_compute; reflexivity|].
  split; [reflexivity|].
  split; [vm_compute; reflexivity|].
  split; [vm_compute; reflexivity|].
  do 4 eexists.
  split; [vm_compute; reflexivity|].
  split; [reflexivity|].
  split; [reflexivity|].
  split; [right; right; left; reflexivity|].
  split; [reflexivity|].
  left. reflexivity.
Qed.

(** C8, the claim as stated fails: a session whose stored key is one byte is
    a session all the same, and for it [signRequest] throws at the signing
    step instead of returning headers. *)
Lemma signRequest_rejects_a_short_key :
  signRequest Sample.rt Sample.freeEnv Cases.shortKeySession
    "POST" "/p" "{}" (Sample.world Absent None)
  = (Throw InvalidPrivateKey, tickClock (tickRandom (Sample.world Absent None)))
  /\ ~ exists hdrs w',
        signRequest Sample.rt Sample.freeEnv Cases.shortKeySession
          "POST" "/p" "{}" (Sample.world Absent None)
        = (Return hdrs, w').
Proof.
  assert (signRequest Sample.rt Sample.freeEnv Cases.shortKeySession
            "POST" "/p" "{}" (Sample.world Absent None)
          = (Throw InvalidPrivateKey,
             tickClock (tickRandom (Sample.world Absent None)))) as Run
    by (vm_compute; reflexivity).
  split; [exact Run|].
  intros (hdrs & w' & H). rewrite Run in H. discriminate H.
Qed.

(** C3, the claim as stated fails: on first use the gateway grants a session
    of one minute; [getSession] returns it although its expiry does not
    exceed now plus the 5-minute buffer at any reading of the clock. *)
Lemma fresh_session_below_buffer :
  exists r w',
    getSession Sample.rt Sample.shortEnv "w1" "0xA" Sample.freshWorld
    = (Return r, w')
    /\ expiresAt r = (Sample.now0 + 60000)%Z
    /\ forall k, ~ validAt (clock Sample.shortEnv k) r.
Proof.
  eexists. eexists. split; [vm_compute; reflexivity|].
  split; [reflexivity|].
  intros k. vm_compute. discriminate.
Qed.

(** C4, the claim as stated fails: a call that merely passes a 200 response
    through writes the module state.  The first call builds and remembers
    the client; and a call made while the variable holds a cap leaves it
    undefined. *)
Lemma pass_through_touches_module_state :
  (exists res w',
     x402Fetch Sample.rt Sample.freeEnv "https://httpbin.org/get" None None
               Sample.freshWorld = (Return res, w')
     /\ status res = 200%Z
     /\ fetchWithPayment w' <> fetchWithPayment Sample.freshWorld)
  /\ (exists res w',
        x402Fetch Sample.rt Sample.freeEnv "https://httpbin.org/get" None None
                  (Sample.world Absent (Some 0.0001%float)) = (Return res, w')
        /\ status res = 200%Z
        /\ currentMaxCost w'
           <> currentMaxCost (Sample.world Absent (Some 0.0001%float))).
Proof.
  split; eexists; eexists; (split; [vm_compute; reflexivity|]);
    (split; [reflexivity|]); cbn; discriminate.
Qed.

End Runs.

(** ** The theorems at work on the sample world *)

Section Witnesses.
Import JS Session Client.
Local Open Scope string_scope.

(** A stored session of one day is returned as valid. *)
Lemma returned_session_validity_witness :
  (sessionFile (Sample.world (Stored (Sample.session (Sample.now0 + 86400000))) None)
   = Stored (Sample.session (Sample.now0 + 86400000))
   /\ validAt Sample.now0 (Sample.session (Sample.now0 + 86400000))
   /\ trace (tickClock
               (Sample.world (Stored (Sample.session (Sample.now0 + 86400000))) None))
      = [])
  \/ (sessionFile
        (tickClock
           (Sample.world (Stored (Sample.session (Sample.now0 + 86400000))) None))
      = Stored (Sample.session (Sample.now0 + 86400000))
      /\ exists history q res created,
           sessionEndpoint Sample.freeEnv history q = Some res
           /\ jsonBody res = Some created
           /\ expiresAt (Sample.session (Sample.now0 + 86400000))
              = sc_expiresAt created).
Proof.
  apply (returned_session_validity Sample.rt Sample.freeEnv "w1" "0xA"
           (Sample.world (Stored (Sample.session (Sample.now0 + 86400000))) None)
           (Sample.session (Sample.now0 + 86400000))
           (tickClock
              (Sample.world (Stored (Sample.session (Sample.now0 + 86400000)))
                            None))).
  reflexivity.
Defined.

(** Scenario C: a 200 response comes back as it is. *)
Lemma pass_through_witness :
  exists w',
    x402Fetch Sample.rt Sample.freeEnv "https://httpbin.org/get" None None
              Sample.freshWorld
    = (Return {| status := 200; text := "";
                 jsonBody := Some {| x402Version := 1;
                                     accepts := [Sample.usdc 0] |} |}, w')
    /\ trace w' = [mkRequest "https://httpbin.org/get" None]
    /\ sessionFile w' = Absent
    /\ walletFile w' = WalletStored Sample.wallet
    /\ clockReads w' = 0%nat
    /\ randomDraws w' = 0%nat
    /\ fetchWithPayment w' <> None
    /\ currentMaxCost w' = None.
Proof.
  apply (pass_through Sample.rt Sample.freeEnv "https://httpbin.org/get" None None
           Sample.freshWorld).
  - reflexivity.
  - reflexivity.
  - discriminate.
Defined.

(** A stored session of one day is reused twice without a request. *)
Lemma session_reuse_witness :
  let w := Sample.world (Stored (Sample.session (Sample.now0 + 86400000))) None in
  let first := getSession Sample.rt Sample.freeEnv "w1" "0xA" w in
  let second := getSession Sample.rt Sample.freeEnv "w1" "0xA" (snd first) in
  fst first = Return (Sample.session (Sample.now0 + 86400000))
  /\ trace (snd first) = []
  /\ fst second = Return (Sample.session (Sample.now0 + 86400000))
  /\ trace (snd second) = [].
Proof.
  intros w first second.
  destruct (session_reuse Sample.rt Sample.freeEnv "w1" "0xA" w
              (Sample.session (Sample.now0 + 86400000)) eq_refl eq_refl)
    as (R1 & T1 & _ & Again).
  destruct (Again eq_refl) as (R2 & T2 & _).
  repeat split; assumption.
Defined.

Lemma sample_gateway_up : gatewayUp Sample.freeEnv.
Proof.
  repeat split; intros history q; eexists; eexists;
    (split; [reflexivity|]); repeat split; reflexivity.
Qed.

(** A stored session that expired long ago is replaced by one
    establishment on the sample gateway. *)
Lemma forced_renewal_witness :
  let w := Sample.world (Stored (Sample.session 5)) None in
  let out := getSession Sample.rt Sample.freeEnv "w1" "0xA" w in
  let fresh :=
    {| sessionId := "s1"; address := "0xa";
       sessionPrivateKey := Sample.keyHex; sessionPublicKey := "04";
       expiresAt := Sample.now0 + 86400000;
       createdAt := stringOfInt Sample.now0 |} in
  fst out = Return fresh
  /\ trace (snd out)
     = [{| url := CLARA_PROXY ++ "/auth/nonce"; method := "GET";
           headers := []; body := None |};
        {| url := CLARA_PROXY ++ "/api/v1/wallets/w1/sign-raw";
           method := "POST";
           headers := [("Content-Type", "application/json");
                       ("X-Clara-Address", "0xA")];
           body := Some "{}" |};
        {| url := CLARA_PROXY ++ "/auth/session"; method := "POST";
           headers := [("Content-Type", "application/json")];
           body := Some "{}" |}]
  /\ sessionFile (snd out) = Stored fresh
  /\ randomDraws (snd out) = 1%nat.
Proof.
  intros w out fresh.
  assert (~ validAt (clock Sample.freeEnv (clockReads w)) (Sample.session 5))
    as Expired by (intros H; discriminate H).
  destruct (forced_renewal Sample.rt Sample.freeEnv "w1" "0xA" w (Sample.session 5)
              (fst out) (snd out) eq_refl Expired (surjective_pairing out))
    as (sent & T & _ & Done & _ & Up).
  destruct (Up sample_gateway_up) as (r & Hr).
  destruct (Done r Hr)
    as (nres & nonce & sres & sd & sigText & cres & created & Hsent & _ & _
        & _ & _ & _ & _ & _ & _ & _ & File & Draw).
  split; [vm_compute; reflexivity|].
  split; [vm_compute; reflexivity|].
  split; [vm_compute; reflexivity | exact Draw].
Defined.


(** A session with the sample key gets its five headers. *)
Lemma signRequest_headers_witness :
  signRequest Sample.rt Sample.freeEnv (Sample.session 5) "POST" "/p" "{}"
    (Sample.world Absent None)
  = (Return [("X-Clara-Address", "0xa"); ("X-Clara-Session", "s0");
             ("X-Clara-Signature",
              "0x" ++ bytesToHex (Secp.numberToBytesBE 1 32
                                  ++ Secp.numberToBytesBE 1 32
                                  ++ [byteOfZ 28])%list);
             ("X-Clara-Timestamp", "1700000000"); ("X-Clara-Nonce", "uuid")],
     tickClock (tickRandom (Sample.world Absent None))).
Proof.
  refine (proj1 (signRequest_headers Sample.rt Sample.freeEnv (Sample.session 5)
                   "POST" "/p" "{}" (Sample.world Absent None)) _).
  split; [reflexivity | split; reflexivity].
Defined.

(** After a refused payment the cap variable is undefined again, and so it
    is before every call of a sequence. *)
Lemma cap_reset_after_every_call_witness :
  let w := Sample.world Absent None in
  let out := x402Fetch Sample.rt Sample.paidEnv "https://signal402.com/catalog"
                       None (Some 0.0001%float) w in
  currentMaxCost (snd out) = None
  /\ forall calls k,
       currentMaxCost (inSequence Sample.rt Sample.paidEnv (firstn k calls) w)
       = None.
Proof.
  intros w out.
  destruct (cap_reset_after_every_call Sample.rt Sample.paidEnv
              "https://signal402.com/catalog" None (Some 0.0001%float) w
              (fst out) (snd out) (surjective_pairing out))
    as (Reset & _ & Keep).
  split; [exact (Reset eq_refl) | exact (proj2 (Keep eq_refl))].
Defined.

End Witnesses.

(** * Further properties of the code *)

(** ** Hexadecimal text *)

Section HexText.
Import JS Session Web.
Local Open Scope string_scope.

Lemma substring_whole (s : string) : substring 0 (String.length s) s = s.
Proof. induction s as [|c s IH]; simpl; [reflexivity | now rewrite IH]. Qed.

Lemma substring_nothing (s : string) : substring 0 0 s = "".
Proof. now destruct s. Qed.

(** Reading pairs off an encoded text ignores whatever follows it. *)
Lemma decode_pairs_before (bs : list byte) (t : string) :
  map (fun i => toUint8 (parseInt16 (slice (i * 2) (i * 2 + 2) (bytesToHex bs ++ t))))
      (seq 0 (List.length bs)) = bs.
Proof.
  induction bs as [|b bs IH]; [reflexivity|].
  simpl List.length. simpl seq. rewrite <- seq_shift.
  cbn [map]. rewrite map_map.
  rewrite bytesToHex_cons.
  destruct (byteHex_decodes b) as (c1 & c2 & E & D & _).
  rewrite E. f_equal.
  - unfold slice. cbn [Nat.mul Nat.add Nat.sub String.append substring].
    now rewrite substring_nothing.
  - rewrite <- IH at 2. apply map_ext. intros i.
    unfold slice.
    replace (S i * 2 + 2 - S i * 2)%nat with 2%nat by lia.
    replace (i * 2 + 2 - i * 2)%nat with 2%nat by lia.
    replace (S i * 2)%nat with (S (S (i * 2))) by lia.
    reflexivity.
Qed.

Lemma half_of_odd (k : nat) : ((2 * k + 1) / 2 = k)%nat.
Proof.
  symmetry. apply (Nat.div_unique (2 * k + 1) 2 k 1); lia.
Qed.

(** X1.  [hexToBytes] undoes [bytesToHex], with or without the prefix [0x], and
    drops a trailing character that has no partner. *)
Theorem hex_decoding_round_trip (bs : list byte) :
  hexToBytes (bytesToHex bs) = bs
  /\ hexToBytes ("0x" ++ bytesToHex bs) = bs
  /\ forall c, hexToBytes (bytesToHex bs ++ String c "") = bs.
Proof.
  pose proof (decode_pairs bs) as Plain.
  assert ((2 * List.length bs / 2)%nat = List.length bs) as Half.
  { rewrite Nat.mul_comm. apply Nat.div_mul. discriminate. }
  split; [|split].
  - unfold hexToBytes.
    now rewrite bytesToHex_no_prefix, bytesToHex_length, Half.
  - unfold hexToBytes.
    assert (startsWith "0x" ("0x" ++ bytesToHex bs) = true) as Prefixed
      by (now destruct (bytesToHex bs)).
    rewrite Prefixed.
    assert (sliceFrom 2 ("0x" ++ bytesToHex bs) = bytesToHex bs) as Clean.
    { unfold sliceFrom. cbn [String.append String.length Nat.sub substring].
      rewrite Nat.sub_0_r. apply substring_whole. }
    now rewrite Clean, bytesToHex_length, Half.
  - intros c. unfold hexToBytes.
    assert (startsWith "0x" (bytesToHex bs ++ String c "") = false) as NoPrefix.
    { destruct bs as [|b rest]; [now destruct c as [[] [] [] [] [] [] [] []]|].
      rewrite bytesToHex_cons.
      destruct (byteHex_decodes b) as (c1 & c2 & E & _ & P).
      rewrite E. apply (P (bytesToHex rest ++ String c "")). }
    rewrite NoPrefix, string_app_length, bytesToHex_length.
    cbn [String.length]. rewrite half_of_odd.
    apply decode_pairs_before.
Qed.

Lemma isLowerHex_cases (c : ascii) :
  isLowerHex c = true ->
  In c (list_ascii_of_string "0123456789abcdef").
Proof.
  destruct c as [[] [] [] [] [] [] [] []]; intros H;
    try discriminate H; cbn; tauto.
Qed.

(** A pair of lower-case digits is the print of the byte it reads as. *)
Lemma byteHex_of_pair (c1 c2 : ascii) :
  isLowerHex c1 = true -> isLowerHex c2 = true ->
  byteHex (toUint8 (parseInt16 (String c1 (String c2 "")))) = String c1 (String c2 "")
  /\ forall rest, startsWith "0x" (String c1 (String c2 rest)) = false.
Proof.
  intros H1 H2.
  apply isLowerHex_cases in H1. apply isLowerHex_cases in H2.
  cbn in H1, H2.
  repeat (destruct H1 as [<-|H1]; [|]); try contradiction;
    repeat (destruct H2 as [<-|H2]; [|]); try contradiction;
    (split; [vm_compute; reflexivity | intros rest; reflexivity]).
Qed.

Lemma lowerHexPairs_no_prefix (s : string) :
  lowerHexPairs s = true -> startsWith "0x" s = false.
Proof.
  destruct s as [|c1 [|c2 rest]]; [reflexivity | discriminate |].
  cbn [lowerHexPairs]. intros H.
  apply andb_true_iff in H as [H _]. apply andb_true_iff in H as [H1 H2].
  apply (byteHex_of_pair c1 c2 H1 H2).
Qed.

(** One step of [hexToBytes] on a text without prefix. *)
Lemma hexToBytes_pair (c1 c2 : ascii) (rest : string) :
  startsWith "0x" (String c1 (String c2 rest)) = false ->
  startsWith "0x" rest = false ->
  hexToBytes (String c1 (String c2 rest))
  = toUint8 (parseInt16 (String c1 (String c2 ""))) :: hexToBytes rest.
Proof.
  intros P1 P2. unfold hexToBytes. rewrite P1, P2.
  cbn [String.length].
  replace (S (S (String.length rest)) / 2)%nat
    with (S (String.length rest / 2)).
  - simpl seq. rewrite <- seq_shift. cbn [map]. rewrite map_map. f_equal.
    unfold slice. cbn [Nat.mul Nat.add Nat.sub substring].
    now rewrite substring_nothing.
  - change (S (S (String.length rest))) with (1 * 2 + String.length rest)%nat.
    rewrite Nat.div_add_l by discriminate. reflexivity.
Qed.

(** X2.  [bytesToHex] undoes [hexToBytes] on a text of lower-case digit pairs:
    an encoded key or signature survives decoding and encoding again. *)
Theorem hex_text_round_trip (s : string) :
  lowerHexPairs s = true -> bytesToHex (hexToBytes s) = s.
Proof.
  assert (forall n s, (String.length s <= n)%nat ->
            lowerHexPairs s = true -> bytesToHex (hexToBytes s) = s) as Gen.
  { induction n as [|n IH]; intros t Hlen Ht.
    - destruct t; [reflexivity | simpl in Hlen; lia].
    - destruct t as [|c1 [|c2 rest]]; [reflexivity | discriminate |].
      pose proof (lowerHexPairs_no_prefix _ Ht) as P1.
      cbn [lowerHexPairs] in Ht.
      apply andb_true_iff in Ht as [Hc Hrest].
      apply andb_true_iff in Hc as [H1 H2].
      rewrite (hexToBytes_pair c1 c2 rest P1 (lowerHexPairs_no_prefix _ Hrest)).
      rewrite bytesToHex_cons.
      rewrite (proj1 (byteHex_of_pair c1 c2 H1 H2)).
      cbn [String.append]. do 2 f_equal.
      apply IH; [simpl in Hlen; lia | exact Hrest]. }
  apply (Gen (String.length s)). lia.
Qed.

Lemma hex_text_round_trip_witness :
  bytesToHex (hexToBytes "00ff7a10") = "00ff7a10".
Proof. apply (hex_text_round_trip "00ff7a10"). reflexivity. Defined.

End HexText.

(** ** Signed messages determine their fields *)

Section MessageFields.
Import JS Session.
Local Open Scope string_scope.

Lemma oneLine_all (fields : list string) :
  forallb Spec.singleLine fields = true ->
  Forall (fun l => Spec.singleLine l = true) fields.
Proof.
  induction fields as [|x xs IH]; cbn [forallb]; intros H; [constructor|].
  apply andb_true_iff in H as [Hx Hxs]. constructor; auto.
Qed.

(** Reading the fields back from a canonical message. *)
Lemma canonical_message_fields
  (m p d t n m' p' d' t' n' : string) :
  forallb Spec.singleLine [m; p; d; t; n] = true ->
  forallb Spec.singleLine [m'; p'; d'; t'; n'] = true ->
  canonicalMessage m p d t n = canonicalMessage m' p' d' t' n' ->
  m = m' /\ p = p' /\ d = d' /\ t = t' /\ n = n'.
Proof.
  intros H H' E.
  apply oneLine_all in H. apply oneLine_all in H'.
  inversion H as [|? ? Hm H1]; subst. inversion H1 as [|? ? Hp H2]; subst.
  inversion H2 as [|? ? Hd H3]; subst. inversion H3 as [|? ? Ht H4]; subst.
  inversion H4 as [|? ? Hn _]; subst.
  inversion H' as [|? ? Hm' H1']; subst. inversion H1' as [|? ? Hp' H2']; subst.
  inversion H2' as [|? ? Hd' H3']; subst. inversion H3' as [|? ? Ht' H4']; subst.
  inversion H4' as [|? ? Hn' _]; subst.
  apply (f_equal Spec.lines) in E. unfold canonicalMessage in E.
  rewrite !lines_join in E; try discriminate;
    try (repeat (apply Forall_cons;
                 [first [reflexivity | assumption
                        | apply singleLine_app; [reflexivity | assumption]]|]);
         apply Forall_nil).
  injection E as E1 E2 E3 E4 E5. now repeat split.
Qed.

(** X3.  Two requests that differ in method, path, body digest, timestamp or
    nonce have different canonical messages, provided no field contains a
    line feed: a signature cannot be replayed for another request, and a
    fresh nonce alone changes the signed text. *)
Theorem canonical_message_distinct
  (m p d t n m' p' d' t' n' : string) :
  forallb Spec.singleLine [m; p; d; t; n] = true ->
  forallb Spec.singleLine [m'; p'; d'; t'; n'] = true ->
  (m, p, d, t, n) <> (m', p', d', t', n') ->
  canonicalMessage m p d t n <> canonicalMessage m' p' d' t' n'.
Proof.
  intros H H' Hdiff E. apply Hdiff.
  destruct (canonical_message_fields _ _ _ _ _ _ _ _ _ _ H H' E)
    as (-> & -> & -> & -> & ->).
  reflexivity.
Qed.

Lemma canonical_message_distinct_witness :
  "u1" <> "u2"
  /\ canonicalMessage "POST" "/p" "00" "1" "u1"
     <> canonicalMessage "POST" "/p" "00" "1" "u2".
Proof.
  split; [discriminate|].
  apply (canonical_message_distinct "POST" "/p" "00" "1" "u1"
                                    "POST" "/p" "00" "1" "u2");
    [reflexivity | reflexivity | discriminate].
Defined.

(** X4.  Without that proviso the message does not tell where the method ends
    and the path begins: a line feed moved from one to the other leaves the
    signed text unchanged. *)
Theorem canonical_message_boundary (a b c d t n : string) :
  canonicalMessage (a ++ LF ++ b) c d t n
  = canonicalMessage a (b ++ LF ++ c) d t n.
Proof.
  unfold canonicalMessage, join. cbn [String.concat].
  now rewrite !string_app_assoc.
Qed.

(** Reading the fields back from a delegation message. *)
Lemma siwe_message_fields
  (i a n k e i' a' n' k' e' : string) :
  forallb Spec.singleLine [i; a; n; k; e] = true ->
  forallb Spec.singleLine [i'; a'; n'; k'; e'] = true ->
  constructSiweMessage i a n k e = constructSiweMessage i' a' n' k' e' ->
  i = i' /\ a = a' /\ n = n' /\ k = k' /\ e = e'.
Proof.
  intros H H' E.
  apply oneLine_all in H. apply oneLine_all in H'.
  inversion H as [|? ? Hi H1]; subst. inversion H1 as [|? ? Ha H2]; subst.
  inversion H2 as [|? ? Hn H3]; subst. inversion H3 as [|? ? Hk H4]; subst.
  inversion H4 as [|? ? He _]; subst.
  inversion H' as [|? ? Hi' H1']; subst. inversion H1' as [|? ? Ha' H2']; subst.
  inversion H2' as [|? ? Hn' H3']; subst. inversion H3' as [|? ? Hk' H4']; subst.
  inversion H4' as [|? ? He' _]; subst.
  apply (f_equal Spec.lines) in E.
  change (constructSiweMessage i a n k e)
    with (join LF (Spec.siweLines i a n k e)) in E.
  change (constructSiweMessage i' a' n' k' e')
    with (join LF (Spec.siweLines i' a' n' k' e')) in E.
  unfold Spec.siweLines in E.
  rewrite !lines_join in E; try discriminate;
    try (repeat (apply Forall_cons;
                 [first [reflexivity | assumption
                        | apply singleLine_app; [reflexivity | assumption]]|]);
         apply Forall_nil).
  injection E as E1 E2 E3 E4 E5. now repeat split.
Qed.

(** X5.  Delegation messages built for different addresses, nonces, session
    public keys or instants are different texts, provided no field contains
    a line feed: a delegation signed for one session key does not read as a
    delegation to another. *)
Theorem siwe_message_distinct
  (i a n k e i' a' n' k' e' : string) :
  forallb Spec.singleLine [i; a; n; k; e] = true ->
  forallb Spec.singleLine [i'; a'; n'; k'; e'] = true ->
  (i, a, n, k, e) <> (i', a', n', k', e') ->
  constructSiweMessage i a n k e <> constructSiweMessage i' a' n' k' e'.
Proof.
  intros H H' Hdiff E. apply Hdiff.
  destruct (siwe_message_fields _ _ _ _ _ _ _ _ _ _ H H' E)
    as (-> & -> & -> & -> & ->).
  reflexivity.
Qed.

Lemma siwe_message_distinct_witness :
  "04ab" <> "04cd"
  /\ constructSiweMessage "t1" "0xA" "n0" "04ab" "t2"
     <> constructSiweMessage "t1" "0xA" "n0" "04cd" "t2".
Proof.
  split; [discriminate|].
  apply (siwe_message_distinct "t1" "0xA" "n0" "04ab" "t2"
                               "t1" "0xA" "n0" "04cd" "t2");
    [reflexivity | reflexivity | discriminate].
Defined.

End MessageFields.

(** ** More on the session manager *)

Section SessionMore.
Import JS Session.
Local Open Scope string_scope.
Variable rt : Runtime.
Variable env : Env.

Ltac branch H :=
  match type of H with
  | context [match ?e with Some _ => _ | None => _ end] => destruct e eqn:?
  | context [if ?b then _ else _] => destruct b eqn:?
  end; cbv beta iota in H.

Ltac world_fields :=
  cbn [trace sessionFile walletFile currentMaxCost fetchWithPayment
       clockReads randomDraws pushRequest tickClock tickRandom
       setSessionFile setCurrentMaxCost setFetchWithPayment].

(** What [establishSession] leaves behind, by outcome: a failure changes no
    file; a success stored a record built from the one key drawn. *)
Lemma establishSession_outcomes (walletId addr : string) (w : World)
  (o : Outcome SessionData) (w' : World) :
  establishSession rt env walletId addr w = (o, w') ->
  (exists rest, trace w' = (trace w ++ nonceRequest :: rest)%list)
  /\ (forall e, o = Throw e ->
        sessionFile w' = sessionFile w
        /\ (randomDraws w' <= S (randomDraws w))%nat)
  /\ (forall r, o = Return r ->
        sessionFile w' = Stored r
        /\ hexToBytes (sessionPrivateKey r) = randomPrivateKey env (randomDraws w)
        /\ sessionPublicKey r
           = bytesToHex (getPublicKey rt (randomPrivateKey env (randomDraws w)))
        /\ address r = toLowerCase addr
        /\ randomDraws w' = S (randomDraws w)).
Proof.
  intros H.
  unfold establishSession, generateSessionKeypair in H.
  unfold bind, fetch, resJson, drawPrivateKey, dateNow, modify, ret, throw in H.
  cbv beta iota in H.
  repeat branch H;
    injection H as <- <-; world_fields; rewrite <- ?app_assoc;
    (split; [eexists; reflexivity|]);
    (split; [intros e He;
             first [discriminate He | split; [reflexivity | lia]]|]);
    intros got Hgot; try discriminate Hgot.
  injection Hgot as <-. cbn [sessionPrivateKey sessionPublicKey address].
  rewrite hexToBytes_bytesToHex. now repeat split.
Qed.

(** X6.  A failed establishment writes no session file: whatever was stored,
    valid or not, is still there, and at most one key was drawn. *)
Theorem failed_establishment_keeps_file (walletId addr : string) (w : World)
  (e : Error) (w' : World) :
  establishSession rt env walletId addr w = (Throw e, w') ->
  sessionFile w' = sessionFile w
  /\ walletFile w' = walletFile w
  /\ (randomDraws w' <= S (randomDraws w))%nat.
Proof.
  intros H.
  destruct (establishSession_outcomes _ _ _ _ _ H) as (_ & Hfail & _).
  destruct (Hfail e eq_refl) as (Hfile & Hdraws).
  destruct (establishSession_calls rt env _ _ _ _ _ H)
    as (sent & _ & Hwallet & _).
  now repeat split.
Qed.

(** X7.  The session that [establishSession] stores holds, in hexadecimal, the
    one private key drawn for it, the public key derived from that key and
    the lower-cased address; decoding the stored key, as [signRequest] does,
    gives the key back. *)
Theorem established_session_holds_its_key (walletId addr : string) (w : World)
  (r : SessionData) (w' : World) :
  establishSession rt env walletId addr w = (Return r, w') ->
  hexToBytes (sessionPrivateKey r) = randomPrivateKey env (randomDraws w)
  /\ sessionPublicKey r
     = bytesToHex (getPublicKey rt (randomPrivateKey env (randomDraws w)))
  /\ address r = toLowerCase addr
  /\ randomDraws w' = S (randomDraws w)
  /\ sessionFile w' = Stored r.
Proof.
  intros H.
  destruct (establishSession_outcomes _ _ _ _ _ H) as (_ & _ & Hdone).
  destruct (Hdone r eq_refl) as (Hfile & Hkey & Hpub & Haddr & Hdraws).
  now repeat split.
Qed.

(** X8.  A sign-raw answer without a usable signature (both [signature] and
    [result] missing or empty) stops the establishment before the session
    endpoint is called: two requests, no session file written. *)
Theorem missing_signature_stops_establishment (walletId addr : string)
  (w : World) (nres : Response string) (nonce : string)
  (o : Outcome SessionData) (w' : World) :
  nonceEndpoint env (trace w) nonceRequest = Some nres ->
  ok nres = true ->
  jsonBody nres = Some nonce ->
  (forall history q, exists sres d,
      signRawEndpoint env history q = Some sres
      /\ ok sres = true /\ jsonBody sres = Some d
      /\ falsy (orElse (signature d) (result d)) = true) ->
  establishSession rt env walletId addr w = (o, w') ->
  o = Throw (Err "No signature in sign-raw response")
  /\ map call (skipn (List.length (trace w)) (trace w'))
     = firstn 2 (establishmentCalls walletId)
  /\ sessionFile w' = sessionFile w.
Proof.
  intros Hn Hok Hj Hs H.
  unfold establishSession, generateSessionKeypair in H.
  unfold bind, fetch, resJson, drawPrivateKey, dateNow, modify, ret, throw in H.
  rewrite Hn in H. cbv beta iota in H. rewrite Hok, Hj in H.
  cbv beta iota delta [negb] in H.
  match type of H with
  | context [signRawEndpoint env ?h ?q] =>
      destruct (Hs h q) as (sres & d & E2 & O2 & J2 & F2)
  end.
  rewrite E2 in H. cbv beta iota in H. rewrite O2, J2 in H.
  cbv beta iota delta [negb] in H.
  destruct (orElse (signature d) (result d)) as [sigText|] eqn:Esig.
  - rewrite F2 in H. injection H as <- <-. world_fields.
    rewrite <- app_assoc, skipn_app, skipn_all, Nat.sub_diag.
    now repeat split.
  - injection H as <- <-. world_fields.
    rewrite <- app_assoc, skipn_app, skipn_all, Nat.sub_diag.
    now repeat split.
Qed.

(** X9.  Whatever [getSession] returns is what the session file holds
    afterwards; so the next call, made while that record is still valid,
    returns the same record and sends nothing. *)
Theorem returned_session_is_persisted (walletId addr : string) (w : World)
  (r : SessionData) (w' : World) :
  getSession rt env walletId addr w = (Return r, w') ->
  sessionFile w' = Stored r
  /\ (validAt (clock env (clockReads w')) r ->
      getSession rt env walletId addr w' = (Return r, tickClock w')).
Proof.
  intros Hrun.
  assert (sessionFile w' = Stored r) as Hfile.
  { unfold getSession, bind, gets, dateNow in Hrun.
    destruct (sessionFile w) as [| |stored] eqn:Hf; cbv beta iota in Hrun.
    - destruct (establishSession_outcomes _ _ _ _ _ Hrun) as (_ & _ & Hdone).
      now destruct (Hdone r eq_refl).
    - discriminate Hrun.
    - destruct (clock env (clockReads w) + bufferMs <? expiresAt stored)%Z.
      + injection Hrun as <- <-. exact Hf.
      + destruct (establishSession_outcomes _ _ _ _ _ Hrun) as (_ & _ & Hdone).
        now destruct (Hdone r eq_refl). }
  split; [exact Hfile|].
  intros Hvalid. unfold getSession, bind, gets, dateNow. rewrite Hfile.
  cbv beta iota. unfold validAt in Hvalid. apply Z.ltb_lt in Hvalid.
  now rewrite Hvalid.
Qed.

(** X10.  Whatever the session file holds, one call of [getSession] sends at most
    the three establishment requests, each at most once and in order, and
    touches neither the wallet file nor the module variables of the
    client. *)
Theorem getSession_sends_at_most_one_establishment (walletId addr : string)
  (w : World) :
  let out := getSession rt env walletId addr w in
  exists sent k,
    trace (snd out) = (trace w ++ sent)%list
    /\ map call sent = firstn k (establishmentCalls walletId)
    /\ walletFile (snd out) = walletFile w
    /\ currentMaxCost (snd out) = currentMaxCost w
    /\ fetchWithPayment (snd out) = fetchWithPayment w.
Proof.
  cbv zeta. unfold getSession, bind, gets, dateNow.
  assert (forall v, trace v = trace w -> walletFile v = walletFile w ->
            currentMaxCost v = currentMaxCost w ->
            fetchWithPayment v = fetchWithPayment w ->
            exists sent k,
              trace (snd (establishSession rt env walletId addr v))
              = (trace w ++ sent)%list
              /\ map call sent = firstn k (establishmentCalls walletId)
              /\ walletFile (snd (establishSession rt env walletId addr v))
                 = walletFile w
              /\ currentMaxCost (snd (establishSession rt env walletId addr v))
                 = currentMaxCost w
              /\ fetchWithPayment (snd (establishSession rt env walletId addr v))
                 = fetchWithPayment w) as Fresh.
  { intros v Ht Hw Hc Hf.
    destruct (establishSession rt env walletId addr v) as [o v'] eqn:E.
    destruct (establishSession_calls rt env _ _ _ _ _ E)
      as (sent & T & W & C & F & (k & P) & _).
    exists sent, k. cbn [snd]. rewrite T, W, C, F, Ht, Hw, Hc, Hf.
    now repeat split. }
  destruct (sessionFile w) as [| |stored]; cbv beta iota.
  - now apply Fresh.
  - exists [], 0%nat. cbn. now rewrite app_nil_r.
  - destruct (clock env (clockReads w) + bufferMs <? expiresAt stored)%Z.
    + exists [], 0%nat. cbn. now rewrite app_nil_r.
    + now apply Fresh.
Qed.

End SessionMore.

(** ** The signer adapter *)

Section SignerAdapter.
Import JS Session Account.
Local Open Scope string_scope.
Variable rt : Runtime.
Variable env : Env.

Ltac branch H :=
  match type of H with
  | context [match ?e with Some _ => _ | None => _ end] => destruct e eqn:?
  | context [if ?b then _ else _] => destruct b eqn:?
  end; cbv beta iota in H.

Ltac world_fields :=
  cbn [trace sessionFile walletFile currentMaxCost fetchWithPayment
       clockReads randomDraws pushRequest tickClock tickRandom
       setSessionFile setCurrentMaxCost setFetchWithPayment].

Lemma getSession_stores (walletId addr : string) (w : World)
  (r : SessionData) (w' : World) :
  getSession rt env walletId addr w = (Return r, w') ->
  sessionFile w' = Stored r.
Proof.
  intros Hrun. unfold getSession, bind, gets, dateNow in Hrun.
  destruct (sessionFile w) as [| |stored] eqn:Hf; cbv beta iota in Hrun.
  - destruct (establishSession_calls rt env _ _ _ _ _ Hrun)
      as (sent & _ & _ & _ & _ & _ & Hdone).
    now destruct (Hdone r eq_refl) as (_ & Hstored & _).
  - discriminate Hrun.
  - destruct (clock env (clockReads w) + bufferMs <? expiresAt stored)%Z.
    + injection Hrun as <- <-. exact Hf.
    + destruct (establishSession_calls rt env _ _ _ _ _ Hrun)
        as (sent & _ & _ & _ & _ & _ & Hdone).
      now destruct (Hdone r eq_refl) as (_ & Hstored & _).
Qed.

Lemma prefixed_stays (s : string) : startsWith "0x" ("0x" ++ s) = true.
Proof. now destruct s. Qed.

(** What [signTypedData] returns and what it sent last. *)
Lemma signTypedData_returns (walletId addr : string) (td : TypedData)
  (w : World) (sig : string) (w' : World) :
  signTypedData rt env walletId addr td w = (Return sig, w') ->
  exists session w1 authHeaders before res d raw,
    getSession rt env walletId addr w = (Return session, w1)
    /\ fst (signRequest rt env session "POST" (signPath walletId)
              (JSON_stringify rt (JObject [("data", JString (hashTypedData rt td))]))
              w1) = Return authHeaders
    /\ trace w'
       = (before ++ [signRawRequest walletId authHeaders
                       (JSON_stringify rt
                          (JObject [("data", JString (hashTypedData rt td))]))])%list
    /\ sessionFile w' = Stored session
    /\ signRawEndpoint env before
         (signRawRequest walletId authHeaders
            (JSON_stringify rt (JObject [("data", JString (hashTypedData rt td))])))
       = Some res
    /\ jsonBody res = Some d
    /\ orElse (signature d) (result d) = Some raw
    /\ falsy (Some raw) = false
    /\ sig = (if startsWith "0x" raw then raw else "0x" ++ raw).
Proof.
  intros H. unfold signTypedData, bind in H.
  destruct (getSession rt env walletId addr w) as [[session|e] w1] eqn:G;
    [|discriminate H].
  pose proof (getSession_stores _ _ _ _ _ G) as Hfile.
  pose proof (signRequest_runs rt env session "POST" (signPath walletId)
                (JSON_stringify rt (JObject [("data", JString (hashTypedData rt td))]))
                w1) as S.
  cbv zeta in S.
  destruct (Secp.isPrivateKey (hexToBytes (sessionPrivateKey session)));
    rewrite S in H; cbv beta iota in H; [|discriminate H].
  match type of S with _ = (Return ?h, _) => set (hdrs := h) in * end.
  unfold fetch, resJson, ret, throw in H.
  repeat branch H; try discriminate H;
    injection H as <- <-; world_fields;
    exists session, w1, hdrs; do 4 eexists;
    (split; [reflexivity|]); (split; [now rewrite S|]);
    (split; [reflexivity|]); (split; [exact Hfile|]);
    (split; [eassumption|]); (split; [eassumption|]);
    (split; [eassumption|]); (split; [assumption|]);
    match goal with E : startsWith "0x" _ = _ |- _ => now rewrite E end.
Qed.

(** X11.  A signature returned by [signTypedData] is the signature text the
    gateway answered to the last request sent, the sign-raw call: the first
    non-empty one of [signature] and [result] of that answer, returned as
    it is when it starts with [0x] and with [0x] put in front when it does
    not; so it always starts with [0x]. *)
Theorem signed_payment_is_prefixed (walletId addr : string) (td : TypedData)
  (w : World) (sig : string) (w' : World) :
  signTypedData rt env walletId addr td w = (Return sig, w') ->
  exists before q res d raw,
    trace w' = (before ++ [q])%list
    /\ call q = ("POST", CLARA_PROXY ++ "/api/v1/wallets/" ++ walletId ++ "/sign-raw")
    /\ signRawEndpoint env before q = Some res
    /\ jsonBody res = Some d
    /\ orElse (signature d) (result d) = Some raw
    /\ raw <> ""
    /\ sig = (if startsWith "0x" raw then raw else "0x" ++ raw)
    /\ startsWith "0x" sig = true.
Proof.
  intros H.
  destruct (signTypedData_returns _ _ _ _ _ _ H)
    as (session & w1 & hdrs & before & res & d & raw
        & _ & _ & Htrace & _ & Hres & Hbody & Hor & Hraw & ->).
  assert (raw <> "") as Hne.
  { intros ->. discriminate Hraw. }
  exists before. eexists. exists res, d, raw.
  split; [exact Htrace|]. split; [reflexivity|]. split; [exact Hres|].
  split; [exact Hbody|]. split; [exact Hor|].
  split; [exact Hne|]. split; [reflexivity|].
  destruct (startsWith "0x" raw) eqn:P; [exact P | apply prefixed_stays].
Qed.

(** X12.  When [signTypedData] returns, the last request it sent is the POST to
    the wallet's sign-raw URL with the hash of the typed data as body, and
    it is authenticated under the session that the session file holds: the
    headers are those [signRequest] computed for that session over this
    very path and body. *)
Theorem payment_signing_request_is_authenticated (walletId addr : string)
  (td : TypedData) (w : World) (sig : string) (w' : World) :
  signTypedData rt env walletId addr td w = (Return sig, w') ->
  exists session before q,
    sessionFile w' = Stored session
    /\ trace w' = (before ++ [q])%list
    /\ call q = ("POST", CLARA_PROXY ++ "/api/v1/wallets/" ++ walletId ++ "/sign-raw")
    /\ body q = Some (JSON_stringify rt
                        (JObject [("data", JString (hashTypedData rt td))]))
    /\ In ("X-Clara-Address", address session) (headers q)
    /\ In ("X-Clara-Session", sessionId session) (headers q)
    /\ exists w1,
         fst (signRequest rt env session "POST"
                ("/api/v1/wallets/" ++ walletId ++ "/sign-raw")
                (JSON_stringify rt
                   (JObject [("data", JString (hashTypedData rt td))])) w1)
         = Return (tl (headers q)).
Proof.
  intros H.
  destruct (signTypedData_returns _ _ _ _ _ _ H)
    as (session & w1 & hdrs & before & res & d & raw
        & _ & Hsign & Htrace & Hfile & _).
  exists session, before. eexists.
  split; [exact Hfile|]. split; [exact Htrace|].
  split; [reflexivity|]. split; [reflexivity|].
  pose proof (signRequest_runs rt env session "POST" (signPath walletId)
                (JSON_stringify rt (JObject [("data", JString (hashTypedData rt td))]))
                w1) as S.
  cbv zeta in S.
  destruct (Secp.isPrivateKey (hexToBytes (sessionPrivateKey session)));
    rewrite S in Hsign; [|discriminate Hsign].
  injection Hsign as <-.
  cbn [headers signRawRequest tl].
  split; [right; left; reflexivity|].
  split; [right; right; left; reflexivity|].
  exists w1. unfold signPath in S. now rewrite S.
Qed.

(** X13.  With a session file that does not parse, the status display announces
    that the session will be recreated on the next query; but [getSession]
    and [signTypedData] fail with the parse error, send nothing and change
    nothing, so every later call fails the same way. *)
Theorem corrupt_session_file_is_never_recreated (ar : Web.Arith)
  (walletId addr : string) (w : World) :
  sessionFile w = Corrupt ->
  Status.sessionStatus rt ar env w
  = (Return "corrupt — will recreate on next query", w)
  /\ getSession rt env walletId addr w = (Throw SyntaxError, w)
  /\ forall td, signTypedData rt env walletId addr td w = (Throw SyntaxError, w).
Proof.
  intros Hfile.
  assert (getSession rt env walletId addr w = (Throw SyntaxError, w)) as G.
  { unfold getSession, bind, gets. now rewrite Hfile. }
  split; [|split].
  - unfold Status.sessionStatus, bind, gets. now rewrite Hfile.
  - exact G.
  - intros td. unfold signTypedData, bind. now rewrite G.
Qed.

End SignerAdapter.

(** ** The spending guard on numbers *)

Section GuardNumbers.
Import JS Client.
Local Open Scope string_scope.

Lemma SFcompare_flip (x y : spec_float) :
  SFleb x y = true -> SFltb y x = false.
Proof.
  unfold SFleb, SFltb.
  destruct x as [sx|sx| |sx mx ex], y as [sy|sy| |sy my ey]; cbn;
    try reflexivity; try discriminate;
    try (destruct sx; try destruct sy; cbn; first [reflexivity | discriminate]);
    try (destruct sy; cbn; first [reflexivity | discriminate]).
  rewrite (Z.compare_antisym ex ey).
  change (PosDef.Pos.compare_cont Eq my mx) with (Pos.compare_cont (CompOpp Eq) my mx).
  rewrite <- (Pos.compare_cont_antisym mx my Eq).
  change (PosDef.Pos.compare_cont Eq mx my) with (Pos.compare_cont Eq mx my).
  destruct sx, sy; try reflexivity; try discriminate;
    destruct (ex ?= ey)%Z; cbn; try reflexivity; try discriminate;
    destruct (Pos.compare_cont Eq mx my); cbn;
    first [reflexivity | discriminate].
Qed.

(** X14.  The guard is strict: a payment whose computed cost is at most the cap
    (in particular equal to it) is never refused, whatever the amount. *)
Theorem cost_within_cap_is_not_refused (nts : float -> string)
  (cap : float) (selected : PaymentRequirements) :
  PrimFloat.leb (costUsd (maxAmountRequired selected)) cap = true ->
  guardDecision nts (Some cap) selected = Proceed.
Proof.
  intros H. unfold guardDecision. rewrite leb_spec in H.
  rewrite ltb_spec, (SFcompare_flip _ _ H). reflexivity.
Qed.

(** Scenario B of the payment tests: $0.01 against a cap of $0.02. *)
Lemma cost_within_cap_is_not_refused_witness :
  PrimFloat.leb (costUsd 10000) 0.02%float = true
  /\ guardDecision (fun _ => "0.02") (Some 0.02%float) (Sample.usdc 10000)
     = Proceed.
Proof.
  split; [reflexivity|].
  apply (cost_within_cap_is_not_refused (fun _ => "0.02") 0.02%float
           (Sample.usdc 10000)).
  reflexivity.
Defined.

(** X15.  The guard is off when no cap is given, and a cap that is not a number
    or is infinite never refuses anything: the hook lets every amount
    through and leaves the world as it is. *)
Theorem guard_without_effective_cap (rt : Runtime) (w : World)
  (selected : PaymentRequirements) :
  currentMaxCost w = None \/ currentMaxCost w = Some nan
  \/ currentMaxCost w = Some infinity ->
  spendingGuard rt selected w = (Return Proceed, w).
Proof.
  intros H. unfold spendingGuard, bind, gets, ret, guardDecision.
  destruct H as [->|[->| ->]]; [reflexivity| |]; rewrite ltb_spec.
  - reflexivity.
  - change (Prim2SF infinity) with (S754_infinity false).
    now destruct (Prim2SF (costUsd (maxAmountRequired selected))) as [| [|] | |].
Qed.

Lemma guard_without_effective_cap_witness :
  spendingGuard Sample.rt (Sample.usdc 1000000000000)
                (Sample.world Absent (Some nan))
  = (Return Proceed, Sample.world Absent (Some nan)).
Proof.
  apply (guard_without_effective_cap Sample.rt (Sample.world Absent (Some nan))
           (Sample.usdc 1000000000000)).
  right. left. reflexivity.
Defined.

End GuardNumbers.

(** ** The wallet file *)

Section WalletSetup.
Import JS Session Web WalletOps.
Local Open Scope string_scope.
Variable rt : Runtime.
Variable env : Env.
Variable gw : WalletGateway.

Ltac branch H :=
  match type of H with
  | context [match ?e with Some _ => _ | None => _ end] => destruct e eqn:?
  | context [if ?b then _ else _] => destruct b eqn:?
  end; cbv beta iota in H.

Ltac world_fields :=
  cbn [trace sessionFile walletFile currentMaxCost fetchWithPayment
       clockReads randomDraws pushRequest tickClock tickRandom
       setSessionFile setCurrentMaxCost setFetchWithPayment setWalletFile].

Lemma truthy_text (a : option string) : falsy a = false -> textOf a <> "".
Proof.
  destruct a as [x|]; [|discriminate]. cbn. intros H ->. discriminate H.
Qed.

(** The recovery branch: no file is written, and a returned pair is the id
    of the 409 body with the address of the first listed wallet of that
    id. *)
Lemma recoverWallet_outcomes (email : string) (res : Response WalletsBody)
  (w : World) (o : Outcome (option string * option string)) (w' : World) :
  recoverWallet env gw email res w = (o, w') ->
  walletFile w' = walletFile w
  /\ sessionFile w' = sessionFile w
  /\ currentMaxCost w' = currentMaxCost w
  /\ fetchWithPayment w' = fetchWithPayment w
  /\ clockReads w' = clockReads w
  /\ (forall a i, o = Return (a, i) ->
        exists conflict lookupRes lookup entry,
          jsonBody res = Some conflict
          /\ wb_walletId conflict = i
          /\ walletApi gw (trace w) (lookupWalletRequest email) = Some lookupRes
          /\ jsonBody lookupRes = Some lookup
          /\ In entry (match wb_data lookup with
                       | Some l => l
                       | None => match wb_wallets lookup with
                                 | Some l => l
                                 | None => []
                                 end
                       end)
          /\ i = Some (we_id entry)
          /\ a = Some (we_address entry)).
Proof.
  intros H. unfold recoverWallet, bind, fetch, resJson, ret, throw in H.
  repeat branch H; injection H as <- <-; world_fields;
    repeat (split; [reflexivity|]); intros a i Hr; try discriminate Hr.
  all: injection Hr as <- <-.
  all: match goal with
       | F : falsy (option_map we_address ?x) = false |- _ =>
           destruct x as [entry|] eqn:Hfind; [|discriminate F];
           apply find_some in Hfind as [Hin Hid]
       end.
  all: apply String.eqb_eq in Hid.
  all: try (exfalso; exact Hin).
  all: do 3 eexists; exists entry.
  all: split; [reflexivity|]; split; [eassumption|];
       split; [reflexivity|]; split; [eassumption|];
       split; [repeat match goal with
                      | E : ?x = _ |- context [match ?x with _ => _ end] =>
                          rewrite E
                      end; exact Hin|];
       split; [now rewrite Hid | reflexivity].
Qed.

(** What [getOrCreateWallet] leaves behind, by outcome. *)
Lemma getOrCreateWallet_outcomes (email : option string) (w : World)
  (o : Outcome WalletResult) (w' : World) :
  getOrCreateWallet rt env gw email w = (o, w') ->
  sessionFile w' = sessionFile w
  /\ currentMaxCost w' = currentMaxCost w
  /\ fetchWithPayment w' = fetchWithPayment w
  /\ (forall e, o = Throw e -> walletFile w' = walletFile w)
  /\ (forall r, o = Return r ->
        walletFile w'
        = WalletStored
            {| Wallet.address := wr_address r;
               Wallet.walletId := wr_walletId r;
               Wallet.email := wr_email r;
               Wallet.created_at :=
                 match walletFile w with
                 | WalletStored d => Wallet.created_at d
                 | _ => toISOString rt (clock env (clockReads w))
                 end |}
        /\ (isNew r = false -> w' = w /\ isRecovered r = false)
        /\ (isNew r = true ->
              walletFile w = NoWallet
              /\ wr_address r <> "" /\ wr_walletId r <> ""
              /\ wr_email r = orNull email)).
Proof.
  intros H. unfold getOrCreateWallet, bind, gets in H.
  destruct (walletFile w) as [| |data] eqn:Hfile.
  3:{ cbv beta iota in H. injection H as <- <-.
      repeat (split; [reflexivity|]).
      split; [discriminate|]. intros r [= <-]. cbn.
      split; [destruct data; exact Hfile|].
      split; [now split | discriminate]. }
  2:{ cbv beta iota in H. injection H as <- <-.
      repeat (split; [reflexivity|]).
      split; [intros e _; exact Hfile | discriminate]. }
  - unfold fetch at 1 in H.
    destruct (walletApi gw (trace w) (createWalletRequest rt email))
      as [res|] eqn:Hres; cbv beta iota in H.
    2:{ injection H as <- <-. world_fields. repeat (split; [reflexivity|]).
        split; [intros e _; exact Hfile | discriminate]. }
    destruct ((status res =? 409)%Z && negb (falsy email)) eqn:Hrec;
      cbv beta iota zeta in H.
    + destruct (recoverWallet env gw (textOf email) res
                  (pushRequest (createWalletRequest rt email) w))
        as [[[a i]|e0] w1] eqn:R;
        destruct (recoverWallet_outcomes _ _ _ _ _ R)
          as (Wf & Sf & Cf & Ff & Kf & _); cbn [walletFile sessionFile currentMaxCost fetchWithPayment clockReads
               pushRequest] in Wf, Sf, Cf, Ff, Kf;
        cbv beta iota in H.
      2:{ injection H as <- <-. rewrite Wf, Sf, Cf, Ff.
          repeat (split; [reflexivity|]).
          split; [intros e _; exact Hfile | discriminate]. }
      unfold dateNow, modify, ret, throw in H.
      repeat branch H; injection H as <- <-; world_fields;
        rewrite ?Wf, ?Sf, ?Cf, ?Ff, ?Kf;
        repeat (split; [reflexivity|]);
        (split; [intros e He; first [discriminate He | exact Hfile]|]);
        intros r Hr; try discriminate Hr.
      injection Hr as <-. cbn.
      split; [reflexivity|]. split; [discriminate|]. intros _.
      auto using truthy_text.
    + unfold resJson, dateNow, modify, ret, throw in H.
      do 2 (try branch H);
        try (destruct (parseCreated _) as [a i] eqn:Hparse; cbv beta iota in H);
        repeat branch H; injection H as <- <-; world_fields;
        repeat (split; [reflexivity|]);
        (split; [intros e He; first [discriminate He | exact Hfile]|]);
        intros r Hr; try discriminate Hr.
      injection Hr as <-. cbn.
      split; [reflexivity|]. split; [discriminate|]. intros _.
      auto using truthy_text.
Qed.

(** X16.  Once [getOrCreateWallet] has returned, every later call returns
    the same wallet from the file, whatever email it is given, without a
    request and reporting it as neither new nor recovered. *)
Theorem wallet_setup_is_idempotent (email email2 : option string) (w : World)
  (r : WalletResult) (w' : World) :
  getOrCreateWallet rt env gw email w = (Return r, w') ->
  getOrCreateWallet rt env gw email2 w'
  = (Return {| wr_address := wr_address r; wr_walletId := wr_walletId r;
               wr_email := wr_email r; isNew := false; isRecovered := false |},
     w').
Proof.
  intros H.
  destruct (getOrCreateWallet_outcomes _ _ _ _ H) as (_ & _ & _ & _ & Hret).
  destruct (Hret r eq_refl) as (Hfile & _).
  unfold getOrCreateWallet, bind, gets. now rewrite Hfile.
Qed.

(** X17.  A wallet reported as new was created by this call: there was no
    wallet file before, the file now holds exactly the returned address,
    wallet id and email, neither address nor wallet id is empty, and the
    email is the one given ([null] for none or an empty one). *)
Theorem new_wallet_is_identified (email : option string) (w : World)
  (r : WalletResult) (w' : World) :
  getOrCreateWallet rt env gw email w = (Return r, w') ->
  isNew r = true ->
  walletFile w = NoWallet
  /\ wr_address r <> "" /\ wr_walletId r <> ""
  /\ wr_email r = orNull email
  /\ walletFile w'
     = WalletStored
         {| Wallet.address := wr_address r;
            Wallet.walletId := wr_walletId r;
            Wallet.email := wr_email r;
            Wallet.created_at := toISOString rt (clock env (clockReads w)) |}.
Proof.
  intros H New.
  destruct (getOrCreateWallet_outcomes _ _ _ _ H) as (_ & _ & _ & _ & Hret).
  destruct (Hret r eq_refl) as (Hfile & _ & Hnew).
  destruct (Hnew New) as (Hnone & Ha & Hi & He).
  rewrite Hnone in Hfile. auto.
Qed.


(** X19.  Without an email a 409 answer is not a recovery: the call fails
    with the creation error after the single creation request, and no
    lookup is sent. *)
Theorem conflict_without_email_fails (email : option string) (w : World)
  (res : Response WalletsBody) :
  walletFile w = NoWallet ->
  falsy email = true ->
  walletApi gw (trace w) (createWalletRequest rt email) = Some res ->
  status res = 409 ->
  getOrCreateWallet rt env gw email w
  = (Throw (Err ("Wallet creation failed: 409 " ++ text res)),
     pushRequest (createWalletRequest rt email) w).
Proof.
  intros Hfile Hemail Hres Hstatus.
  unfold getOrCreateWallet, bind, gets, fetch. rewrite Hfile.
  cbv beta iota. rewrite Hres. cbv beta iota zeta.
  rewrite Hemail. unfold ok. rewrite Hstatus.
  reflexivity.
Qed.

(** X20.  A wallet reported as recovered is the one the service named: an
    email was given, creation was answered 409 with the returned wallet id,
    and the lookup by that email listed an entry with that id whose address
    is the returned address. *)
Theorem recovered_wallet_comes_from_lookup (email : option string) (w : World)
  (r : WalletResult) (w' : World) :
  getOrCreateWallet rt env gw email w = (Return r, w') ->
  isRecovered r = true ->
  exists e res conflict lookupRes lookup entry,
    email = Some e /\ e <> ""
    /\ walletApi gw (trace w) (createWalletRequest rt email) = Some res
    /\ status res = 409
    /\ jsonBody res = Some conflict
    /\ wb_walletId conflict = Some (wr_walletId r)
    /\ walletApi gw (trace w ++ [createWalletRequest rt email])%list
         (lookupWalletRequest e) = Some lookupRes
    /\ jsonBody lookupRes = Some lookup
    /\ In entry (match wb_data lookup with
                 | Some l => l
                 | None => match wb_wallets lookup with
                           | Some l => l
                           | None => []
                           end
                 end)
    /\ we_id entry = wr_walletId r
    /\ we_address entry = wr_address r.
Proof.
  intros H Rec. unfold getOrCreateWallet, bind, gets in H.
  destruct (walletFile w) as [| |data] eqn:Hfile.
  3:{ cbv beta iota in H. injection H as <- <-. discriminate Rec. }
  2:{ discriminate H. }
  unfold fetch at 1 in H.
  destruct (walletApi gw (trace w) (createWalletRequest rt email))
    as [res|] eqn:Hres; cbv beta iota in H; [|discriminate H].
  destruct ((status res =? 409)%Z && negb (falsy email)) eqn:Hrec;
    cbv beta iota zeta in H.
  - apply andb_prop in Hrec as [Hst Hem]. apply Z.eqb_eq in Hst.
    destruct email as [e|]; [|discriminate Hem].
    assert (e <> "") as Hne by (intros ->; discriminate Hem).
    destruct (recoverWallet env gw (textOf (Some e)) res
                (pushRequest (createWalletRequest rt (Some e)) w))
      as [[[a i]|e0] w1] eqn:R; cbv beta iota in H.
    2:{ discriminate H. }
    destruct (recoverWallet_outcomes _ _ _ _ _ R)
      as (_ & _ & _ & _ & _ & Hfound).
    destruct (Hfound a i eq_refl)
      as (conflict & lookupRes & lookup & entry & Hc & Hid & Hl & Hb & Hin
          & Hi & Ha).
    rewrite Hi in Hid. subst a i.
    unfold dateNow, modify, ret, throw in H.
    repeat branch H; try discriminate H.
    injection H as <- <-. cbn [wr_address wr_walletId textOf].
    exists e, res, conflict, lookupRes, lookup, entry.
    repeat (split; [first [reflexivity | assumption | exact Hl]|]).
    reflexivity.
  - unfold resJson, dateNow, modify, ret, throw in H.
    do 2 (try branch H);
      try (destruct (parseCreated _) as [a i] eqn:Hparse; cbv beta iota in H);
      repeat branch H; try discriminate H.
    injection H as <- <-. discriminate Rec.
Qed.

(** X22.  [sponsorGas] never throws: it sends its one request and returns
    [true] exactly when the service answered with a 2xx status; a network
    failure becomes [false]. *)
Theorem sponsorGas_never_throws (address : string) (w : World) :
  exists b,
    sponsorGas rt env gw address w
    = (Return b, pushRequest (sponsorGasRequest rt address) w)
    /\ (b = true <->
        exists res,
          sponsorEndpoint gw (trace w) (sponsorGasRequest rt address) = Some res
          /\ ok res = true).
Proof.
  unfold sponsorGas, tryCatch, bind, fetch, ret.
  destruct (sponsorEndpoint gw (trace w) (sponsorGasRequest rt address))
    as [res|] eqn:Hres.
  - exists (ok res). split; [reflexivity|]. split.
    + intros Hok. now exists res.
    + intros (res' & [= <-] & Hok). exact Hok.
  - exists false. split; [reflexivity|]. split; [discriminate|].
    intros (res' & Hno & _). discriminate Hno.
Qed.

(** X23.  After a successful setup in a process that has not built its
    payment client yet, [getFetchWithPayment] builds the client for the
    wallet the setup returned. *)
Theorem client_uses_the_wallet_set_up (email : option string) (w : World)
  (r : WalletResult) (w' : World) :
  getOrCreateWallet rt env gw email w = (Return r, w') ->
  fetchWithPayment w = None ->
  exists d,
    Client.getFetchWithPayment w' = (Return d, setFetchWithPayment (Some d) w')
    /\ Wallet.address d = wr_address r
    /\ Wallet.walletId d = wr_walletId r.
Proof.
  intros H Hmemo.
  destruct (getOrCreateWallet_outcomes _ _ _ _ H) as (_ & _ & Hf & _ & Hret).
  destruct (Hret r eq_refl) as (Hfile & _).
  rewrite Hmemo in Hf.
  eexists. split.
  - unfold Client.getFetchWithPayment, Client.loadWallet, bind, gets, modify, ret.
    rewrite Hf. cbv beta iota. rewrite Hfile. reflexivity.
  - split; reflexivity.
Qed.

End WalletSetup.

(** ** The status display against the session check *)

Section StatusLine.
Import JS Session Web.
Local Open Scope Z_scope.
Variable rt : Runtime.
Variable ar : Arith.
Variable env : Env.

(** X24.  During the last five minutes of a session the status display
    still reports it as active, while [getSession] no longer returns it:
    the call is an establishment. *)
Theorem status_active_yet_renewed (walletId addr : string) (w : World)
  (s : SessionData) :
  sessionFile w = Stored s ->
  clock env (clockReads w) < expiresAt s <= clock env (clockReads w) + bufferMs ->
  Status.sessionStatus rt ar env w
  = (Return (Status.activeLine rt ar (expiresAt s - clock env (clockReads w))),
     tickClock w)
  /\ getSession rt env walletId addr w
     = establishSession rt env walletId addr (tickClock w).
Proof.
  intros Hfile [Hlive Hsoon]. split.
  - unfold Status.sessionStatus, bind, gets, dateNow. rewrite Hfile.
    cbv beta iota zeta.
    destruct (0 <? expiresAt s - clock env (clockReads w)) eqn:E;
      [reflexivity|]. apply Z.ltb_ge in E. lia.
  - unfold getSession, bind, gets, dateNow. rewrite Hfile. cbv beta iota.
    destruct (clock env (clockReads w) + bufferMs <? expiresAt s) eqn:E;
      [|reflexivity]. apply Z.ltb_lt in E. lia.
Qed.

End StatusLine.

(** ** The request built by the [signal402_call] tool *)

Section ToolRequest.
Import JS Session Web Client Server.
Local Open Scope string_scope.

Lemma objGet_objSet_same (k v : string) (o : JsObject) :
  objGet k (objSet k v o) = Some v.
Proof.
  unfold objGet. induction o as [|[k' v'] rest IH]; cbn.
  - now rewrite String.eqb_refl.
  - destruct (k' =? k) eqn:E; cbn.
    + now rewrite String.eqb_refl.
    + rewrite E. exact IH.
Qed.

Lemma objGet_objSet_other (k k' v : string) (o : JsObject) :
  k' <> k -> objGet k' (objSet k v o) = objGet k' o.
Proof.
  intros Hne. apply String.eqb_neq in Hne.
  unfold objGet. induction o as [|[k0 v0] rest IH]; cbn.
  - rewrite String.eqb_sym. now rewrite Hne.
  - destruct (k0 =? k) eqn:E; cbn.
    + apply String.eqb_eq in E. subst k0.
      rewrite (String.eqb_sym k k'). now rewrite Hne.
    + destruct (k0 =? k'); [reflexivity | exact IH].
Qed.

(** X25.  A request built with a non-empty body carries that body, the
    method given, and a content type that is the caller's own if the caller
    gave a non-empty one under [Content-Type] or [content-type] (the headers
    are then exactly the caller's), and [application/json] under
    [Content-Type] otherwise, every other header being the caller's. *)
Theorem request_with_body_has_content_type (method : string)
  (body : option string) (headers : option JsObject) :
  falsy body = false ->
  let given k := match headers with Some h => objGet k h | None => None end in
  let copied := match headers with Some h => h | None => [] end in
  let init := buildReqInit method body headers in
  ri_body init = body
  /\ ri_method init = Some method
  /\ (falsy (given "Content-Type") = false
      \/ falsy (given "content-type") = false ->
      ri_headers init = copied)
  /\ (falsy (given "Content-Type") = true ->
      falsy (given "content-type") = true ->
      objGet "Content-Type" (ri_headers init) = Some "application/json"
      /\ forall k, k <> "Content-Type" -> objGet k (ri_headers init) = given k).
Proof.
  intros Hbody given copied init. subst given copied init.
  unfold buildReqInit. cbn [ri_body ri_headers ri_method]. cbv beta.
  rewrite Hbody. cbn [negb andb].
  split; [reflexivity|]. split; [reflexivity|]. split.
  - intros [H|H]; rewrite H; [reflexivity|].
    now rewrite andb_false_r.
  - intros H1 H2. rewrite H1, H2. cbn [andb]. split.
    + apply objGet_objSet_same.
    + intros k Hk. rewrite objGet_objSet_other by exact Hk.
      now destruct headers.
Qed.

(** X26.  The handler never drops or changes a header the caller gave: every
    key keeps its value, the one exception being an empty [Content-Type],
    which counts as missing. *)
Theorem caller_headers_are_kept (method : string) (body : option string)
  (headers : JsObject) (k v : string) :
  objGet k headers = Some v ->
  k <> "Content-Type" \/ v <> "" ->
  objGet k (ri_headers (buildReqInit method body (Some headers))) = Some v.
Proof.
  intros Hget Hwhich. unfold buildReqInit. cbn [ri_headers].
  destruct (negb (falsy body) && falsy (objGet "Content-Type" headers)
            && falsy (objGet "content-type" headers)) eqn:E; [|exact Hget].
  destruct (String.eqb_spec k "Content-Type") as [->|Hne].
  - apply andb_prop in E as [E _]. apply andb_prop in E as [_ E].
    rewrite Hget in E. cbn in E. apply String.eqb_eq in E.
    destruct Hwhich as [H|H]; [now elim H | contradiction].
  - rewrite objGet_objSet_other by exact Hne. exact Hget.
Qed.

Lemma substring_length_le (n m : nat) (s : string) :
  (String.length (substring n m s) <= m)%nat.
Proof.
  revert n m. induction s as [|c s IH]; intros [|n] [|m]; cbn; try lia.
  - specialize (IH 0%nat m). lia.
  - apply (IH n 0%nat).
  - apply (IH n (S m)).
Qed.

Lemma substring_of_cut (m : nat) (s t : string) :
  (m <= String.length s)%nat ->
  substring 0 m (substring 0 m s ++ t) = substring 0 m s.
Proof.
  revert s. induction m as [|m IH]; intros s Hlen.
  - destruct s; cbn; now destruct t.
  - destruct s as [|c s]; cbn in Hlen; [lia|].
    cbn. f_equal. apply IH. lia.
Qed.

(** X27.  The text shown for a response that is not JSON is at most 50 024
    characters long and agrees with the response on its first 50 000
    characters; a response of at most 50 000 characters is shown whole. *)
Theorem truncated_text_is_bounded (responseText : string) :
  (Z.of_nat (String.length (truncateText responseText)) <= 50024)%Z
  /\ slice 0 LIMIT (truncateText responseText) = slice 0 LIMIT responseText
  /\ ((String.length responseText <= LIMIT)%nat ->
      truncateText responseText = responseText).
Proof.
  unfold truncateText, slice. rewrite Nat.sub_0_r.
  assert (Z.of_nat LIMIT = 50000%Z) as HL by (unfold LIMIT; lia).
  revert HL. generalize LIMIT. intros n HL.
  destruct (n <? String.length responseText)%nat eqn:E.
  - apply Nat.ltb_lt in E. split; [|split].
    + rewrite string_app_length.
      pose proof (substring_length_le 0 n responseText).
      change (String.length TRUNCATED) with 24%nat. lia.
    + apply substring_of_cut. lia.
    + lia.
  - apply Nat.ltb_ge in E. split; [lia|]. split; reflexivity.
Qed.

End ToolRequest.

(** ** Waiting for a deposit *)

Section Deposit.
Import JS Web Funding.
Local Open Scope Z_scope.
Variable rt : Runtime.
Variable ar : Arith.
Variable env : Env.
Variable ledger : Ledger.

(** A resolved wait returns the text of a balance it read: of the first
    reading that was positive, or of the first reading after the timeout. *)
Lemma poll_outcome (fuel : nat) (start : Z) (p : Progress) (b : string)
  (p' : Progress) :
  poll rt ar env ledger fuel start p = (Some b, p') ->
  exists k units,
    (checks p <= k)%nat /\ checks p' = S k
    /\ ledger k = Some units /\ b = formatUsdc rt units
    /\ (forall j u, (checks p <= j < k)%nat -> ledger j = Some u ->
          PrimFloat.ltb 0%float (parseFloat ar (formatUsdc rt u)) = false)
    /\ (PrimFloat.ltb 0%float (parseFloat ar b) = true
        \/ exists i, (reads p <= i)%nat /\ TIMEOUT_MS < clock env i - start).
Proof.
  revert p. induction fuel as [|fuel IH]; intros p H; cbn [poll] in H.
  { discriminate H. }
  unfold check, checkUsdcBalance in H.
  destruct (ledger (checks p)) as [units|] eqn:L;
    cbn [option_map reads checks timers spinner] in H.
  - destruct (PrimFloat.ltb 0%float (parseFloat ar (formatUsdc rt units)))
      eqn:Pos.
    { injection H as <- <-. exists (checks p), units. cbn [checks].
      repeat (split; [first [reflexivity | assumption | lia]|]).
      now left. }
    destruct (TIMEOUT_MS <? clock env (S (reads p)) - start) eqn:Late.
    { injection H as <- <-. exists (checks p), units. cbn [checks].
      repeat (split; [first [reflexivity | assumption | lia]|]).
      right. exists (S (reads p)).
      apply Z.ltb_lt in Late. split; [lia | exact Late]. }
    destruct (IH _ H) as (k & u & Hk & Hend & Hread & Hb & Hfirst & Hwhy).
    cbn [checks reads] in *. exists k, u.
    split; [lia|]. split; [exact Hend|]. split; [exact Hread|].
    split; [exact Hb|]. split.
    + intros j u' Hj Hu.
      destruct (Nat.eq_dec j (checks p)) as [->|Hne].
      * rewrite L in Hu. injection Hu as <-. exact Pos.
      * apply (Hfirst j u'); [lia | exact Hu].
    + destruct Hwhy as [Hpos|(i & Hi & Hlate)]; [now left|].
      right. exists i. split; [lia | exact Hlate].
  - destruct (IH _ H) as (k & u & Hk & Hend & Hread & Hb & Hfirst & Hwhy).
    cbn [checks reads] in *. exists k, u.
    split; [lia|]. split; [exact Hend|]. split; [exact Hread|].
    split; [exact Hb|]. split.
    + intros j u' Hj Hu.
      destruct (Nat.eq_dec j (checks p)) as [->|Hne].
      * rewrite L in Hu. discriminate Hu.
      * apply (Hfirst j u'); [lia | exact Hu].
    + exact Hwhy.
Qed.

(** X28.  The text [pollBalance] resolves with is the two-decimal text of a
    balance read from the chain by this wait, and it is the first reading
    whose text [parseFloat] finds positive or that came after the timeout:
    the text of every earlier reading was not positive.  What is tested is
    the text, not the balance: a balance printed as 0.00 is passed over. *)
Theorem polled_balance_was_read (fuel : nat) (p : Progress) (b : string)
  (p' : Progress) :
  pollBalance rt ar env ledger fuel p = (Some b, p') ->
  exists k units,
    (checks p <= k)%nat /\ checks p' = S k
    /\ ledger k = Some units /\ b = formatUsdc rt units
    /\ (forall j u, (checks p <= j < k)%nat -> ledger j = Some u ->
          PrimFloat.ltb 0%float (parseFloat ar (formatUsdc rt u)) = false)
    /\ (PrimFloat.ltb 0%float (parseFloat ar b) = true
        \/ exists i, (reads p < i)%nat
                     /\ TIMEOUT_MS < clock env i - clock env (reads p)).
Proof.
  intros H. unfold pollBalance in H.
  destruct (poll_outcome _ _ _ _ _ H)
    as (k & u & Hk & Hend & Hread & Hb & Hfirst & Hwhy).
  cbn [checks reads] in *. exists k, u.
  repeat (split; [assumption|]).
  destruct Hwhy as [Hpos|(i & Hi & Hlate)]; [now left|].
  right. exists i. split; [lia | exact Hlate].
Qed.

(** X29.  While the chain cannot be read the wait never ends, however often
    the timer fires: the clock is not consulted again, so the timeout cannot
    apply. *)
Theorem unreadable_chain_is_waited_for (fuel : nat) (p : Progress) :
  (forall k, ledger k = None) ->
  pollBalance rt ar env ledger fuel p
  = (None,
     {| reads := S (reads p); checks := (checks p + fuel)%nat;
        timers := (S (timers p) + fuel)%nat;
        spinner := (spinner p ++ ["Waiting for USDC deposit..."])%list |}).
Proof.
  intros Hdown. unfold pollBalance.
  generalize (spinner p ++ ["Waiting for USDC deposit..."%string])%list.
  generalize (clock env (reads p)). generalize (S (reads p)).
  generalize (S (timers p)). generalize (checks p).
  induction fuel as [|fuel IH]; intros c t r start shown; cbn [poll].
  - now rewrite !Nat.add_0_r.
  - unfold check, checkUsdcBalance. cbn [checks reads timers spinner].
    rewrite Hdown. cbn [option_map]. rewrite IH.
    do 2 f_equal; lia.
Qed.

Lemma clock_gain :
  (forall i, clock env i + 10000 <= clock env (i + 2)) ->
  forall (j r : nat), clock env r + 10000 * Z.of_nat j <= clock env (r + 2 * j).
Proof.
  intros Hgain j. induction j as [|j IH]; intros r.
  - replace (r + 2 * 0)%nat with r by lia. lia.
  - replace (r + 2 * S j)%nat with ((r + 2 * j) + 2)%nat by lia.
    specialize (IH r). specialize (Hgain (r + 2 * j)%nat). lia.
Qed.

Lemma poll_resolves (r0 : nat) :
  (forall k, ledger k <> None) ->
  (forall i, clock env i + 10000 <= clock env (i + 2)) ->
  forall (fuel j : nat) (p : Progress),
    reads p = (r0 + 1 + 2 * j)%nat ->
    (j <= 30)%nat -> (31 <= fuel + j)%nat ->
    exists b p', poll rt ar env ledger fuel (clock env r0) p = (Some b, p').
Proof.
  intros Hup Hgain. induction fuel as [|fuel IH]; intros j p Hreads Hj Hfuel.
  { lia. }
  cbn [poll]. unfold check, checkUsdcBalance.
  destruct (ledger (checks p)) as [units|] eqn:L; [|now elim (Hup (checks p))].
  cbn [option_map reads checks timers spinner].
  destruct (PrimFloat.ltb 0%float (parseFloat ar (formatUsdc rt units)));
    [now eauto|].
  destruct (TIMEOUT_MS <? clock env (S (reads p)) - clock env r0) eqn:Late;
    [now eauto|].
  apply Z.ltb_ge in Late.
  pose proof (clock_gain Hgain (S j) r0) as G.
  replace (r0 + 2 * S j)%nat with (S (reads p)) in G by lia.
  unfold TIMEOUT_MS in Late.
  apply (IH (S j)); cbn [reads]; lia.
Qed.

(** X30.  With the chain readable and the clock gaining the 10 seconds of
    the timer between one check and the next, the wait ends: 31 firings of
    the timer are enough for the promise to be resolved. *)
Theorem wait_ends_within_the_timeout (fuel : nat) (p : Progress) :
  (forall k, ledger k <> None) ->
  (forall i, clock env i + 10000 <= clock env (i + 2)) ->
  (31 <= fuel)%nat ->
  exists b p', pollBalance rt ar env ledger fuel p = (Some b, p').
Proof.
  intros Hup Hgain Hfuel. unfold pollBalance.
  apply (poll_resolves (reads p) Hup Hgain fuel 0); cbn [reads]; lia.
Qed.

End Deposit.

(** ** The lookup URL *)

Section LookupUrl.
Import JS Session Web WalletOps.
Local Open Scope string_scope.

Lemma occurrences_app (c : ascii) (a b : string) :
  occurrences c (a ++ b) = (occurrences c a + occurrences c b)%nat.
Proof.
  induction a as [|x a IH]; cbn [String.append occurrences];
    [reflexivity | rewrite IH; lia].
Qed.

Lemma component_char_differs (x c : ascii) :
  isComponentChar x = true -> isComponentChar c = false -> Ascii.eqb x c = false.
Proof.
  intros Hx Hc. destruct (Ascii.eqb_spec x c) as [->|]; [|reflexivity].
  rewrite Hx in Hc. discriminate Hc.
Qed.

Lemma percentByte_chars (b : byte) :
  match percentByte b with
  | String a (String h1 (String h2 EmptyString)) =>
      isComponentChar a && isComponentChar h1 && isComponentChar h2
  | _ => false
  end = true.
Proof. destruct b; reflexivity. Qed.

Lemma occurrences_percentByte (c : ascii) (b : byte) :
  isComponentChar c = false -> occurrences c (percentByte b) = 0%nat.
Proof.
  intros Hc. pose proof (percentByte_chars b) as H.
  destruct (percentByte b) as [|a [|h1 [|h2 [|? ?]]]]; try discriminate H.
  apply andb_prop in H as [H H2]. apply andb_prop in H as [H0 H1].
  cbn [occurrences].
  now rewrite !(component_char_differs _ c) by assumption.
Qed.

(** The encoding of a component contains nothing but unreserved characters
    and percent escapes. *)
Lemma occurrences_encodeURIComponent (c : ascii) (str : string) :
  isComponentChar c = false -> occurrences c (encodeURIComponent str) = 0%nat.
Proof.
  intros Hc. induction str as [|x str IH]; [reflexivity|].
  cbn [encodeURIComponent]. rewrite occurrences_app, IH, Nat.add_0_r.
  destruct (isUnreserved x) eqn:Hx.
  - cbn [occurrences]. rewrite (component_char_differs x c); [reflexivity| |exact Hc].
    unfold isComponentChar. now rewrite Hx.
  - unfold utf8, join. cbn [list_ascii_of_string flat_map].
    destruct (Z.of_nat (nat_of_ascii x) <? 128)%Z;
      cbn [app map String.concat];
      rewrite ?occurrences_app, ?occurrences_percentByte by exact Hc;
      reflexivity.
Qed.

(** X21.  Whatever the email, the lookup URL has its one query with its two
    parameters and no fragment: the email cannot add, cut or end one. *)
Theorem lookup_url_keeps_its_parameters (email : string) :
  let u := url (lookupWalletRequest email) in
  occurrences "?" u = 1%nat /\ occurrences "&" u = 1%nat
  /\ occurrences "=" u = 2%nat /\ occurrences "#" u = 0%nat.
Proof.
  intros u. unfold u, lookupWalletRequest. cbn [url].
  rewrite !occurrences_app.
  rewrite !occurrences_encodeURIComponent by reflexivity.
  repeat split; reflexivity.
Qed.

End LookupUrl.

(** ** The properties on the sample worlds *)

Section Runs.
Import JS Session Account Client Web WalletOps Server.
Local Open Scope string_scope.

(** An establishment refused at the nonce leaves the blank machine as it
    was. *)
Lemma failed_establishment_keeps_file_witness :
  let w := Cases.blankWorld in
  let out := establishSession Sample.rt Cases.nonceDownEnv "w1" "0xA" w in
  fst out = Throw (Err "Failed to get nonce: 503")
  /\ sessionFile (snd out) = sessionFile w
  /\ walletFile (snd out) = walletFile w
  /\ (randomDraws (snd out) <= S (randomDraws w))%nat.
Proof.
  intros w out. split; [reflexivity|].
  exact (failed_establishment_keeps_file Sample.rt Cases.nonceDownEnv
           "w1" "0xA" w (Err "Failed to get nonce: 503") (snd out) eq_refl).
Defined.

(** The session established on the sample gateway carries the key drawn. *)
Lemma established_session_holds_its_key_witness :
  let w := Sample.world Absent None in
  let out := establishSession Sample.rt Sample.freeEnv "w1" "0xA" w in
  exists r,
    fst out = Return r
    /\ hexToBytes (sessionPrivateKey r) = Sample.key
    /\ sessionPublicKey r = "04"
    /\ address r = "0xa"
    /\ randomDraws (snd out) = 1%nat
    /\ sessionFile (snd out) = Stored r.
Proof.
  intros w out.
  destruct (establishSession_returns Sample.rt Sample.freeEnv "w1" "0xA" w
              sample_gateway_up) as (r & w' & Hret).
  exists r. split; [unfold out; now rewrite Hret|].
  unfold out. rewrite Hret.
  exact (established_session_holds_its_key Sample.rt Sample.freeEnv
           "w1" "0xA" w r w' Hret).
Defined.

Lemma missing_signature_stops_establishment_witness :
  let w := Cases.blankWorld in
  let out := establishSession Sample.rt Cases.unsignedEnv "w1" "0xA" w in
  fst out = Throw (Err "No signature in sign-raw response")
  /\ map call (skipn (List.length (trace w)) (trace (snd out)))
     = firstn 2 (establishmentCalls "w1")
  /\ sessionFile (snd out) = sessionFile w.
Proof.
  intros w out.
  refine (missing_signature_stops_establishment Sample.rt Cases.unsignedEnv
            "w1" "0xA" w (Sample.okResponse "n0") "n0" (fst out) (snd out)
            eq_refl eq_refl eq_refl _ (surjective_pairing out)).
  intros history q.
  exists (Sample.okResponse {| signature := Some ""; result := None |}).
  exists {| signature := Some ""; result := None |}.
  repeat split.
Defined.

Lemma returned_session_is_persisted_witness :
  let w := Sample.world Absent None in
  let out := getSession Sample.rt Sample.freeEnv "w1" "0xA" w in
  exists r,
    fst out = Return r
    /\ sessionFile (snd out) = Stored r
    /\ getSession Sample.rt Sample.freeEnv "w1" "0xA" (snd out)
       = (Return r, tickClock (snd out)).
Proof.
  intros w out.
  destruct (establishSession_returns Sample.rt Sample.freeEnv "w1" "0xA" w
              sample_gateway_up) as (r & w' & Hret).
  assert (out = (Return r, w')) as Hout by exact Hret.
  destruct (returned_session_is_persisted Sample.rt Sample.freeEnv
              "w1" "0xA" w r w' Hout) as (Hfile & Hnext).
  exists r. rewrite Hout. split; [reflexivity|]. split; [exact Hfile|].
  apply Hnext.
  assert (expiresAt r = Sample.now0 + 86400000)%Z as He.
  { unfold establishSession, bind, fetch, resJson, ret, throw, dateNow,
      drawPrivateKey, modify in Hret.
    cbn in Hret. injection Hret as <- _. reflexivity. }
  unfold validAt. rewrite He. reflexivity.
Defined.

Lemma signed_payment_is_prefixed_witness :
  let td := {| td_from := "0xA"; td_requirement := Sample.usdc 10000 |} in
  let out := signTypedData Sample.rt Sample.freeEnv "w1" "0xA" td
               (Sample.world Absent None) in
  fst out = Return "0xsig"
  /\ exists before q res d raw,
       trace (snd out) = (before ++ [q])%list
       /\ call q = ("POST", CLARA_PROXY ++ "/api/v1/wallets/" ++ "w1" ++ "/sign-raw")
       /\ signRawEndpoint Sample.freeEnv before q = Some res
       /\ jsonBody res = Some d
       /\ orElse (signature d) (result d) = Some raw
       /\ raw <> ""
       /\ "0xsig" = (if startsWith "0x" raw then raw else "0x" ++ raw)
       /\ startsWith "0x" "0xsig" = true.
Proof.
  intros td out. split; [reflexivity|].
  exact (signed_payment_is_prefixed Sample.rt Sample.freeEnv "w1" "0xA" td
           (Sample.world Absent None) "0xsig" (snd out) eq_refl).
Defined.

Lemma payment_signing_request_is_authenticated_witness :
  let td := {| td_from := "0xA"; td_requirement := Sample.usdc 10000 |} in
  let out := signTypedData Sample.rt Sample.freeEnv "w1" "0xA" td
               (Sample.world Absent None) in
  exists session before q,
    sessionFile (snd out) = Stored session
    /\ trace (snd out) = (before ++ [q])%list
    /\ call q = ("POST", CLARA_PROXY ++ "/api/v1/wallets/" ++ "w1" ++ "/sign-raw")
    /\ body q = Some "{}"
    /\ In ("X-Clara-Address", address session) (headers q)
    /\ In ("X-Clara-Session", sessionId session) (headers q)
    /\ exists w1,
         fst (signRequest Sample.rt Sample.freeEnv session "POST"
                ("/api/v1/wallets/" ++ "w1" ++ "/sign-raw") "{}" w1)
         = Return (tl (headers q)).
Proof.
  intros td out.
  exact (payment_signing_request_is_authenticated Sample.rt Sample.freeEnv
           "w1" "0xA" td (Sample.world Absent None) "0xsig" (snd out) eq_refl).
Defined.

Lemma corrupt_session_file_is_never_recreated_witness :
  let w := Sample.world Corrupt None in
  Status.sessionStatus Sample.rt Cases.arith Sample.freeEnv w
  = (Return "corrupt — will recreate on next query", w)
  /\ getSession Sample.rt Sample.freeEnv "w1" "0xA" w = (Throw SyntaxError, w)
  /\ signTypedData Sample.rt Sample.freeEnv "w1" "0xA"
       {| td_from := "0xA"; td_requirement := Sample.usdc 10000 |} w
     = (Throw SyntaxError, w).
Proof.
  intros w.
  destruct (corrupt_session_file_is_never_recreated Sample.rt Sample.freeEnv
              Cases.arith "w1" "0xA" w eq_refl) as (Hs & Hg & Ht).
  split; [exact Hs|]. split; [exact Hg|]. apply Ht.
Defined.

(** A first setup on the blank machine, then a second one with another
    email. *)
Lemma wallet_setup_is_idempotent_witness :
  let out := getOrCreateWallet Sample.rt Sample.freeEnv Cases.creatingGateway
               (Some "a@b.c") Cases.blankWorld in
  getOrCreateWallet Sample.rt Sample.freeEnv Cases.creatingGateway
    (Some "x@y.z") (snd out)
  = (Return {| wr_address := "0xB"; wr_walletId := "w2";
               wr_email := Some "a@b.c"; isNew := false;
               isRecovered := false |},
     snd out).
Proof.
  intros out.
  exact (wallet_setup_is_idempotent Sample.rt Sample.freeEnv
           Cases.creatingGateway (Some "a@b.c") (Some "x@y.z")
           Cases.blankWorld
           {| wr_address := "0xB"; wr_walletId := "w2";
              wr_email := Some "a@b.c"; isNew := true; isRecovered := false |}
           (snd out) eq_refl).
Defined.

Lemma new_wallet_is_identified_witness :
  let w := Cases.blankWorld in
  let out := getOrCreateWallet Sample.rt Sample.freeEnv Cases.creatingGateway
               (Some "") w in
  walletFile w = NoWallet
  /\ "0xB" <> "" /\ "w2" <> ""
  /\ None = orNull (Some "")
  /\ walletFile (snd out)
     = WalletStored {| Wallet.address := "0xB"; Wallet.walletId := "w2";
                       Wallet.email := None;
                       Wallet.created_at := stringOfInt Sample.now0 |}.
Proof.
  intros w out.
  exact (new_wallet_is_identified Sample.rt Sample.freeEnv
           Cases.creatingGateway (Some "") w
           {| wr_address := "0xB"; wr_walletId := "w2";
              wr_email := None; isNew := true; isRecovered := false |}
           (snd out) eq_refl eq_refl).
Defined.


Lemma conflict_without_email_fails_witness :
  getOrCreateWallet Sample.rt Sample.freeEnv Cases.conflictGateway
    (Some "") Cases.blankWorld
  = (Throw (Err "Wallet creation failed: 409 exists"),
     pushRequest (createWalletRequest Sample.rt (Some "")) Cases.blankWorld).
Proof.
  exact (conflict_without_email_fails Sample.rt Sample.freeEnv
           Cases.conflictGateway (Some "") Cases.blankWorld
           {| status := 409; text := "exists"; jsonBody := Some Cases.emptyBody |}
           eq_refl eq_refl eq_refl eq_refl).
Defined.

Lemma recovered_wallet_comes_from_lookup_witness :
  let out := getOrCreateWallet Sample.rt Sample.freeEnv Cases.recoveringGateway
               (Some "a@b.c") Cases.blankWorld in
  fst out = Return {| wr_address := "0xC"; wr_walletId := "w9";
                      wr_email := Some "a@b.c"; isNew := true;
                      isRecovered := true |}
  /\ exists lookup entry,
       jsonBody (Sample.okResponse lookup) = Some lookup
       /\ In entry (match wb_data lookup with
                    | Some l => l
                    | None => match wb_wallets lookup with
                              | Some l => l
                              | None => []
                              end
                    end)
       /\ we_id entry = "w9" /\ we_address entry = "0xC".
Proof.
  intros out. split; [reflexivity|].
  destruct (recovered_wallet_comes_from_lookup Sample.rt Sample.freeEnv
              Cases.recoveringGateway (Some "a@b.c") Cases.blankWorld
              {| wr_address := "0xC"; wr_walletId := "w9";
                 wr_email := Some "a@b.c"; isNew := true; isRecovered := true |}
              (snd out) eq_refl eq_refl)
    as (e & res & conflict & lookupRes & lookup & entry & He & _ & _ & _ & _
        & _ & _ & _ & Hin & Hid & Ha).
  exists lookup, entry. split; [reflexivity|]. auto.
Defined.

Lemma client_uses_the_wallet_set_up_witness :
  let out := getOrCreateWallet Sample.rt Sample.freeEnv Cases.creatingGateway
               None Cases.blankWorld in
  exists d,
    getFetchWithPayment (snd out)
    = (Return d, setFetchWithPayment (Some d) (snd out))
    /\ Wallet.address d = "0xB" /\ Wallet.walletId d = "w2".
Proof.
  intros out.
  exact (client_uses_the_wallet_set_up Sample.rt Sample.freeEnv
           Cases.creatingGateway None Cases.blankWorld
           {| wr_address := "0xB"; wr_walletId := "w2";
              wr_email := None; isNew := true; isRecovered := false |}
           (snd out) eq_refl eq_refl).
Defined.

(** A stored session with three minutes left. *)
Lemma status_active_yet_renewed_witness :
  let w := Sample.world (Stored (Sample.session (Sample.now0 + 180000))) None in
  Status.sessionStatus Sample.rt Cases.arith Sample.freeEnv w
  = (Return (Status.activeLine Sample.rt Cases.arith 180000), tickClock w)
  /\ getSession Sample.rt Sample.freeEnv "w1" "0xA" w
     = establishSession Sample.rt Sample.freeEnv "w1" "0xA" (tickClock w).
Proof.
  intros w.
  refine (status_active_yet_renewed Sample.rt Cases.arith Sample.freeEnv
            "w1" "0xA" w (Sample.session (Sample.now0 + 180000)) eq_refl _).
  split; [reflexivity | discriminate].
Defined.

Lemma request_with_body_has_content_type_witness :
  let init := buildReqInit "POST" (Some "{}")
                (Some [("Content-Type", ""); ("X-Key", "k1")]) in
  ri_body init = Some "{}"
  /\ ri_method init = Some "POST"
  /\ objGet "Content-Type" (ri_headers init) = Some "application/json"
  /\ objGet "X-Key" (ri_headers init) = Some "k1".
Proof.
  intros init.
  destruct (request_with_body_has_content_type "POST" (Some "{}")
              (Some [("Content-Type", ""); ("X-Key", "k1")]) eq_refl)
    as (Hbody & Hmethod & _ & Hdefault).
  destruct (Hdefault eq_refl eq_refl) as (Htype & Hrest).
  split; [exact Hbody|]. split; [exact Hmethod|]. split; [exact Htype|].
  apply (Hrest "X-Key"). discriminate.
Defined.

Lemma caller_headers_are_kept_witness :
  objGet "X-Key" (ri_headers (buildReqInit "POST" (Some "{}")
                                (Some [("X-Key", "k1")])))
  = Some "k1".
Proof.
  refine (caller_headers_are_kept "POST" (Some "{}") [("X-Key", "k1")]
            "X-Key" "k1" eq_refl _).
  left. discriminate.
Defined.

End Runs.

Section Waits.
Import JS Web Funding.
Local Open Scope Z_scope.

(** The deposit arrives before the third reading. *)
Lemma polled_balance_was_read_witness :
  let out := pollBalance Sample.rt Cases.arith Cases.tickingEnv
               Cases.fundedLater 5 Cases.idle in
  fst out = Some "2.50"
  /\ exists k units,
       (checks Cases.idle <= k)%nat /\ checks (snd out) = S k
       /\ Cases.fundedLater k = Some units
       /\ "2.50"%string = formatUsdc Sample.rt units
       /\ (forall j u, (checks Cases.idle <= j < k)%nat ->
             Cases.fundedLater j = Some u ->
             PrimFloat.ltb 0%float
               (parseFloat Cases.arith (formatUsdc Sample.rt u)) = false)
       /\ (PrimFloat.ltb 0%float (parseFloat Cases.arith "2.50") = true
           \/ exists i, (reads Cases.idle < i)%nat
                /\ TIMEOUT_MS < clock Cases.tickingEnv i
                                - clock Cases.tickingEnv (reads Cases.idle)).
Proof.
  intros out. split; [reflexivity|].
  exact (polled_balance_was_read Sample.rt Cases.arith Cases.tickingEnv
           Cases.fundedLater 5 Cases.idle "2.50" (snd out) eq_refl).
Defined.

(** Forty firings of the timer on a chain that cannot be reached. *)
Lemma unreadable_chain_is_waited_for_witness :
  pollBalance Sample.rt Cases.arith Cases.tickingEnv Cases.unreachable 40
    Cases.idle
  = (None,
     {| reads := 1; checks := 40; timers := 41;
        spinner := ["Waiting for USDC deposit..."%string] |}).
Proof.
  exact (unreadable_chain_is_waited_for Sample.rt Cases.arith Cases.tickingEnv
           Cases.unreachable 40 Cases.idle (fun _ => eq_refl)).
Defined.

(** An account that stays empty: the wait ends by the timeout. *)
Lemma wait_ends_within_the_timeout_witness :
  exists b p',
    pollBalance Sample.rt Cases.arith Cases.tickingEnv Cases.unfunded 31
      Cases.idle = (Some b, p').
Proof.
  apply (wait_ends_within_the_timeout Sample.rt Cases.arith Cases.tickingEnv
           Cases.unfunded 31 Cases.idle).
  - intros k. discriminate.
  - intros i. cbn [clock Cases.tickingEnv].
    replace (i + 2)%nat with (S (S i)) by lia. cbn [Nat.div2]. lia.
  - lia.
Defined.

End Waits.
